(** * PDF-Parser-API: page extraction, bounded dispatch and aggregation

    A shallow embedding of [app/services/pdf_processor.py],
    [app/services/openai_client.py], [app/api/endpoints.py],
    [app/models/schemas.py], [app/core/config.py] and
    [app/utils/exceptions.py].

    Python exceptions are an explicit error type, library calls with a side
    effect (opening a document, rendering a page, posting a request) are
    recorded in a trace, and the event loop that runs the page tasks behind
    the semaphore is a step function over admission and completion events. *)

From Stdlib Require Import ZArith List String Ascii Strings.Byte Bool Lia.
From stdpp Require Import base list strings pretty gmap.
Import ListNotations.

Local Open Scope string_scope.
Local Open Scope list_scope.
Local Open Scope Z_scope.

(* ===================================================================== *)
(** ** Exceptions ([app/utils/exceptions.py]) *)
(* ===================================================================== *)

(** The class of a [PDFProcessingError]: the base class or one of its four
    subclasses. *)
Inductive pdf_error_class :=
  | PDFProcessingError
  | InvalidFileError
  | FileSizeError
  | APICallError
  | ProcessingTimeoutError.

Definition pdf_error_class_eqb (a b : pdf_error_class) : bool :=
  match a, b with
  | PDFProcessingError, PDFProcessingError
  | InvalidFileError, InvalidFileError
  | FileSizeError, FileSizeError
  | APICallError, APICallError
  | ProcessingTimeoutError, ProcessingTimeoutError => true
  | _, _ => false
  end.

(** [issubclass c base]: every class derives from [PDFProcessingError] and
    from itself, and from nothing else. *)
Definition issubclass (c base : pdf_error_class) : bool :=
  match base with
  | PDFProcessingError => true
  | _ => pdf_error_class_eqb c base
  end.

(** The [detail] of an [HTTPException]: a plain string, or the dictionary
    built by [create_http_exception]. *)
Inductive http_detail :=
  | DetailStr (s : string)
  | DetailError (error : string) (details : option string).

(** The exceptions that flow through the pipeline.  All of them are
    instances of Python's [Exception]. *)
Inductive py_exc :=
  | ExcTimeout                                   (* asyncio.TimeoutError *)
  | ExcClient (msg : string)                     (* aiohttp.ClientError *)
  | ExcOther (msg : string)                      (* any other Exception *)
  | ExcPDF (cls : pdf_error_class) (message : string) (details : option string)
  | ExcHTTP (status_code : Z) (detail : http_detail).

(** [str(e)].  [PDFProcessingError.__init__] passes [message] to
    [Exception.__init__], [asyncio.TimeoutError()] prints as the empty
    string.  The pipeline never prints an [HTTPException]; for one with a
    dictionary as detail the [error] entry stands for the dictionary. *)
Definition exc_str (e : py_exc) : string :=
  match e with
  | ExcTimeout => ""
  | ExcClient msg => msg
  | ExcOther msg => msg
  | ExcPDF _ message _ => message
  | ExcHTTP code d =>
      match d with
      | DetailStr s => pretty code +:+ ": " +:+ s
      | DetailError err _ => pretty code +:+ ": " +:+ err
      end
  end.

(** [create_http_exception(error, status_code=400)]. *)
Definition create_http_exception (message : string) (details : option string)
    : py_exc :=
  ExcHTTP 400 (DetailError message details).

(** The outcome of a call that may raise. *)
Inductive result (A : Type) :=
  | Ok (a : A)
  | Raise (e : py_exc).
Arguments Ok {A} a.
Arguments Raise {A} e.

Definition is_ok {A} (r : result A) : bool :=
  match r with Ok _ => true | Raise _ => false end.

(* ===================================================================== *)
(** ** Strings and bytes *)
(* ===================================================================== *)

Definition ascii_lower (c : ascii) : ascii :=
  let n := N_of_ascii c in
  if ((65 <=? n) && (n <=? 90))%N then ascii_of_N (n + 32) else c.

Definition ascii_upper (c : ascii) : ascii :=
  let n := N_of_ascii c in
  if ((97 <=? n) && (n <=? 122))%N then ascii_of_N (n - 32) else c.

(** [s.lower()] and [s.upper()] on ASCII text. *)
Fixpoint str_lower (s : string) : string :=
  match s with
  | EmptyString => EmptyString
  | String c r => String (ascii_lower c) (str_lower r)
  end.

Fixpoint str_upper (s : string) : string :=
  match s with
  | EmptyString => EmptyString
  | String c r => String (ascii_upper c) (str_upper r)
  end.

(** [s.endswith(suffix)]. *)
Definition endswith (s suffix : string) : bool :=
  let n := String.length s in
  let k := String.length suffix in
  (k <=? n)%nat && String.eqb (substring (n - k) k s) suffix.

(** Standard base64 ([base64.b64encode]), three bytes to four characters,
    padded with [=]. *)
Definition b64_alphabet : string :=
  "ABCDEFGHIJKLMNOPQRSTUVWXYZabcdefghijklmnopqrstuvwxyz0123456789+/".

Definition b64_char (n : N) : ascii :=
  match String.get (N.to_nat n) b64_alphabet with
  | Some c => c
  | None => "="%char
  end.

Fixpoint b64encode (bs : list byte) : string :=
  match bs with
  | [] => ""
  | [a] =>
      let x := Byte.to_N a in
      String (b64_char (x / 4))
        (String (b64_char ((x mod 4) * 16)) "==")
  | [a; b] =>
      let x := Byte.to_N a in
      let y := Byte.to_N b in
      String (b64_char (x / 4))
        (String (b64_char ((x mod 4) * 16 + y / 16))
           (String (b64_char ((y mod 16) * 4)) "="))
  | a :: b :: c :: rest =>
      let x := Byte.to_N a in
      let y := Byte.to_N b in
      let z := Byte.to_N c in
      String (b64_char (x / 4))
        (String (b64_char ((x mod 4) * 16 + y / 16))
           (String (b64_char ((y mod 16) * 4 + z / 64))
              (String (b64_char (z mod 64)) (b64encode rest))))
  end.

(** [len(content)] of a [bytes] object. *)
Definition len (bs : list byte) : Z := Z.of_nat (List.length bs).

(* ===================================================================== *)
(** ** Dynamic values: parsed JSON and [Dict[str, Any]] *)
(* ===================================================================== *)

(** A Python value as [json.loads] or a dictionary literal produces it.  An
    object is the dictionary's items in insertion order, keys pairwise
    distinct.  [F] is the type of floating-point numbers, kept abstract. *)
#[warnings="-register-all"]
Inductive json (F : Type) :=
  | JNull
  | JBool (b : bool)
  | JInt (n : Z)
  | JFloat (x : F)
  | JStr (s : string)
  | JArr (items : list (json F))
  | JObj (members : list (string * json F)).
Arguments JNull {F}.
Arguments JBool {F} b.
Arguments JInt {F} n.
Arguments JFloat {F} x.
Arguments JStr {F} s.
Arguments JArr {F} items.
Arguments JObj {F} members.

(** [type(v).__name__]. *)
Definition type_name {F} (v : json F) : string :=
  match v with
  | JNull => "NoneType"
  | JBool _ => "bool"
  | JInt _ => "int"
  | JFloat _ => "float"
  | JStr _ => "str"
  | JArr _ => "list"
  | JObj _ => "dict"
  end.

Fixpoint assoc {A} (key : string) (kvs : list (string * A)) : option A :=
  match kvs with
  | [] => None
  | (k, v) :: rest => if String.eqb k key then Some v else assoc key rest
  end.

(** [v.get(key, default)]: a dictionary lookup; on any other value the
    attribute [get] does not exist and Python raises [AttributeError]. *)
Definition py_get {F} (v : json F) (key : string) (default : json F)
    : result (json F) :=
  match v with
  | JObj kvs =>
      Ok (match assoc key kvs with Some x => x | None => default end)
  | _ =>
      Raise (ExcOther ("'" +:+ type_name v +:+ "' object has no attribute 'get'"))
  end.


(* ===================================================================== *)
(** ** Configuration ([app/core/config.py]) *)
(* ===================================================================== *)

(** The fields of [Settings] that the pipeline reads. *)
Record Settings := {
  openai_api_url : string;
  openai_api_key : string;
  openai_timeout : Z;
  mmlm_model : string;
  max_file_size : Z;
  image_dpi : Z;
  image_format : string;
  max_concurrent_requests : Z;
  batch_size : Z
}.

(** The defaults of the class; the three fields without a default come from
    the environment. *)
Definition default_settings (url key model : string) : Settings :=
  {| openai_api_url := url;
     openai_api_key := key;
     openai_timeout := 30;
     mmlm_model := model;
     max_file_size := 50 * 1024 * 1024;
     image_dpi := 300;
     image_format := "PNG";
     max_concurrent_requests := 10;
     batch_size := 5 |}.

(* ===================================================================== *)
(** ** Schemas ([app/models/schemas.py]) *)
(* ===================================================================== *)

Record ProcessingMetadata (F : Type) := {
  confidence_score : option F;
  processing_time : option F;
  image_dimensions : option (Z * Z);
  file_size : option Z;
  additional_data : option (gmap string (json F))
}.
Arguments confidence_score {F} _.
Arguments processing_time {F} _.
Arguments image_dimensions {F} _.
Arguments file_size {F} _.
Arguments additional_data {F} _.

Record PageResult (F : Type) := {
  page_number : Z;
  processed_output : list (string * json F);
  metadata : option (ProcessingMetadata F);
  error : option string
}.
Arguments page_number {F} _.
Arguments processed_output {F} _.
Arguments metadata {F} _.
Arguments error {F} _.

(** [timestamp], which pydantic fills from the clock when the response is
    built, is left out. *)
Record PDFProcessResponse (F : Type) := {
  success : bool;
  total_pages : Z;
  processed_pages : Z;
  results : list (PageResult F);
  response_processing_time : F;
  errors : option (list string)
}.
Arguments success {F} _.
Arguments total_pages {F} _.
Arguments processed_pages {F} _.
Arguments results {F} _.
Arguments response_processing_time {F} _.
Arguments errors {F} _.

(** The constructor of [PageResult] with the validation pydantic runs:
    [page_number] has [ge=1] and [processed_output] must be a dictionary. *)
Definition mk_PageResult {F} (page_num : Z) (output : json F)
    (md : ProcessingMetadata F) (err : option string) : result (PageResult F) :=
  if page_num <? 1 then
    Raise (ExcOther "1 validation error for PageResult: page_number")
  else
    match output with
    | JObj kvs =>
        Ok {| page_number := page_num; processed_output := kvs;
              metadata := Some md; error := err |}
    | _ => Raise (ExcOther "1 validation error for PageResult: processed_output")
    end.

(* ===================================================================== *)
(** ** The platform: PyMuPDF, PIL, the clock and the network *)
(* ===================================================================== *)

(** What rendering one page yields: the re-encoded image, its pixel size and
    the time the clock measured around the rendering. *)
Record rendered (F : Type) := {
  image_bytes : list byte;
  width : Z;
  height : Z;
  render_time : F
}.
Arguments image_bytes {F} _.
Arguments width {F} _.
Arguments height {F} _.
Arguments render_time {F} _.

(** A page of an opened document: [load_page], [get_pixmap], [tobytes],
    [Image.open] and [save] at a given dpi, output format and quality; any of
    them may raise. *)
Definition fitz_page (F : Type) : Type :=
  Z -> string -> option Z -> result (rendered F).

(** What the completion service does with one request. *)
Inductive http_event (F : Type) :=
  | EvTimeout
  | EvClientError (msg : string)
  | EvResponse (status : Z) (body : result (json F)) (elapsed : F).
Arguments EvTimeout {F}.
Arguments EvClientError {F} msg.
Arguments EvResponse {F} status body elapsed.

(** The libraries the code calls and that are not part of the repository:
    floating-point addition, [repr] of a dynamic value, and
    [fitz.open(stream=..., filetype="pdf")], which yields the document's
    pages or raises. *)
Class Platform := {
  float : Type;
  fadd : float -> float -> float;
  py_repr : json float -> string;
  fitz_open : list byte -> result (list (fitz_page float))
}.

(** The library calls that leave a trace. *)
Inductive call (F : Type) :=
  | CallOpen (content : list byte)
  | CallRender (page_index : Z)
  | CallPost (url : string) (payload : json F) (headers : list (string * string)).
Arguments CallOpen {F} content.
Arguments CallRender {F} page_index.
Arguments CallPost {F} url payload headers.

Definition is_post {F} (c : call F) : bool :=
  match c with CallPost _ _ _ => true | _ => false end.


(* ===================================================================== *)
(** ** Calls that leave a trace and may raise *)
(* ===================================================================== *)

Section Pipeline.
Context `{P : Platform}.

(** A computation yields the library calls it made, in order, and either a
    value or the exception that ended it. *)
Definition M (A : Type) : Type := (list (call float) * result A)%type.

Definition ret {A} (a : A) : M A := ([], Ok a).

Definition raise {A} (e : py_exc) : M A := ([], Raise e).

Definition bind {A B} (m : M A) (k : A -> M B) : M B :=
  match m with
  | (t, Ok a) => let '(t', r) := k a in (t ++ t', r)
  | (t, Raise e) => (t, Raise e)
  end.

(** [try: m except Exception as e: h e]. *)
Definition try_except {A} (m : M A) (h : py_exc -> M A) : M A :=
  match m with
  | (t, Ok a) => (t, Ok a)
  | (t, Raise e) => let '(t', r) := h e in (t ++ t', r)
  end.

Definition lift {A} (r : result A) : M A := ([], r).

Definition trace_of {A} (m : M A) : list (call float) := fst m.

Definition outcome_of {A} (m : M A) : result A := snd m.

Notation "'let*' x ':=' m 'in' k" := (bind m (fun x => k))
  (at level 10, x pattern, m at level 100, k at level 200).

(* ===================================================================== *)
(** ** PDFProcessor ([app/services/pdf_processor.py]) *)
(* ===================================================================== *)

Record PDFProcessor := {
  dpi : Z;
  processor_image_format : string
}.

(** [PDFProcessor.__init__]. *)
Definition PDFProcessor_init (st : Settings) : PDFProcessor :=
  {| dpi := image_dpi st;
     processor_image_format := str_upper (image_format st) |}.

(** [fitz.open(stream=file_content, filetype="pdf")]. *)
Definition open_pdf (file_content : list byte) : M (list (fitz_page float)) :=
  ([CallOpen file_content], fitz_open file_content).

(** [doc.page_count]. *)
Definition page_count (doc : list (fitz_page float)) : Z :=
  Z.of_nat (List.length doc).

(** [PDFProcessor.validate_pdf].  The exception raised for an empty document
    is raised inside the [try] and therefore wrapped by the handler. *)
Definition validate_pdf (st : Settings) (file_content : list byte) : M unit :=
  if len file_content >? max_file_size st then
    raise (ExcPDF PDFProcessingError
             ("File size exceeds maximum allowed size of "
                +:+ pretty (max_file_size st) +:+ " bytes") None)
  else
    try_except
      (let* doc := open_pdf file_content in
       if page_count doc =? 0 then
         raise (ExcPDF InvalidFileError "PDF file contains no pages" None)
       else ret tt)
      (fun e =>
         raise (ExcPDF InvalidFileError ("Invalid PDF file: " +:+ exc_str e) None)).

(** One element of [pages_data]: page number, image bytes, metadata. *)
Definition page_tuple : Type :=
  (Z * list byte * ProcessingMetadata float)%type.

(** The body of the loop of [extract_pages_as_images] for one page. *)
Definition render_page (self : PDFProcessor) (page : fitz_page float)
    (page_num : Z) : M page_tuple :=
  let quality :=
    if String.eqb (processor_image_format self) "JPEG" then Some 95 else None in
  let* r := ([CallRender page_num],
             page (dpi self) (processor_image_format self) quality) in
  let md := {| confidence_score := None;
               processing_time := Some (render_time r);
               image_dimensions := Some (width r, height r);
               file_size := Some (len (image_bytes r));
               additional_data := None |} in
  ret (page_num + 1, image_bytes r, md).

(** [for page_num in range(doc.page_count): ... pages_data.append(...)]. *)
Fixpoint extract_loop (self : PDFProcessor) (doc : list (fitz_page float))
    (page_num : Z) (pages_data : list page_tuple) : M (list page_tuple) :=
  match doc with
  | [] => ret pages_data
  | page :: rest =>
      let* t := render_page self page page_num in
      extract_loop self rest (page_num + 1) (pages_data ++ [t])
  end.

(** [PDFProcessor.extract_pages_as_images]. *)
Definition extract_pages_as_images (st : Settings) (file_content : list byte)
    : M (list page_tuple) :=
  let self := PDFProcessor_init st in
  try_except
    (let* doc := open_pdf file_content in
     extract_loop self doc 0 [])
    (fun e =>
       raise (ExcPDF PDFProcessingError
                ("Failed to extract pages from PDF: " +:+ exc_str e) None)).

Definition chunk_size : nat := Z.to_nat 8192.

(** [while chunk := file.read(chunk_size): tmp_file.write(chunk)], on the
    bytes still unread; [fuel] bounds the number of reads. *)
Fixpoint read_chunks (fuel : nat) (file tmp_file : list byte) : list byte :=
  match fuel with
  | O => tmp_file
  | S fuel' =>
      match take chunk_size file with
      | [] => tmp_file
      | chunk => read_chunks fuel' (drop chunk_size file) (tmp_file ++ chunk)
      end
  end.

(** [PDFProcessor._read_file_async]: the upload is copied chunk by chunk to
    a temporary file, which is then read back. *)
Definition _read_file_async (file : list byte) : list byte :=
  read_chunks (S (List.length file)) file [].

(** [PDFProcessor.process_pdf_stream]; its handler logs and re-raises. *)
Definition process_pdf_stream (st : Settings) (file : list byte)
    : M (list page_tuple) :=
  try_except
    (let content := _read_file_async file in
     let* _ := validate_pdf st content in
     extract_pages_as_images st content)
    (fun e => raise e).

(* ===================================================================== *)
(** ** OpenAIClient ([app/services/openai_client.py]) *)
(* ===================================================================== *)

Record OpenAIClient := {
  api_url : string;
  api_key : string;
  timeout : Z;
  self_mmlm_model : string;
  semaphore : Z
}.

(** [OpenAIClient.__init__]; [asyncio.Semaphore(value)] raises [ValueError]
    on a negative value. *)
Definition OpenAIClient_init (st : Settings) : result OpenAIClient :=
  if max_concurrent_requests st <? 0 then
    Raise (ExcOther "Semaphore initial value must be >= 0")
  else
    Ok {| api_url := openai_api_url st;
          api_key := openai_api_key st;
          timeout := openai_timeout st;
          self_mmlm_model := mmlm_model st;
          semaphore := max_concurrent_requests st |}.

Definition instruction : string :=
  "Please extract and transcribe only the raw text content from the following page image. "
  +:+ "Your response must be formatted in **Markdown**. "
  +:+ "If the image contains tables, convert them into valid Markdown table format. "
  +:+ "Do not add any extra commentary, explanation, or formatting beyond what is in the image.".

(** The [payload] dictionary of [process_image]. *)
Definition request_payload (self : OpenAIClient) (image_data : list byte)
    : json float :=
  let image_b64 := b64encode image_data in
  JObj [
    ("model", JStr (self_mmlm_model self));
    ("messages",
      JArr [
        JObj [
          ("role", JStr "user");
          ("content",
            JArr [
              JObj [("type", JStr "text"); ("text", JStr instruction)];
              JObj [
                ("type", JStr "image_url");
                ("image_url",
                  JObj [("url", JStr ("data:image/png;base64," +:+ image_b64))])
              ]
            ])
        ]
      ]);
    ("max_tokens", JInt 1000)
  ].

Definition request_headers (self : OpenAIClient) : list (string * string) :=
  [("Authorization", "Bearer " +:+ api_key self);
   ("Content-Type", "application/json")].

(** [session.post(...)] under the client timeout: the request goes out and
    the service answers, or the call raises. *)
Definition session_post (self : OpenAIClient) (payload : json float)
    (headers : list (string * string)) (ev : http_event float)
    : M (Z * result (json float) * float) :=
  ([CallPost (api_url self) payload headers],
   match ev with
   | EvTimeout => Raise ExcTimeout
   | EvClientError msg => Raise (ExcClient msg)
   | EvResponse status body elapsed => Ok (status, body, elapsed)
   end).

(** What an f-string makes of a dynamic value: a string as it is, anything
    else through [repr]. *)
Definition py_str (v : json float) : string :=
  match v with
  | JStr s => s
  | _ => py_repr v
  end.

(** The three [except] clauses of [process_image], tried in order. *)
Definition process_image_handler (self : OpenAIClient) (e : py_exc)
    : M (json float * ProcessingMetadata float) :=
  match e with
  | ExcTimeout =>
      raise (ExcPDF APICallError
               ("API request timed out after " +:+ pretty (timeout self)
                  +:+ " seconds") None)
  | ExcClient msg =>
      raise (ExcPDF APICallError
               ("Network error during API request: " +:+ msg) None)
  | _ =>
      raise (ExcPDF APICallError
               ("Unexpected error during API request: " +:+ exc_str e) None)
  end.

(** [OpenAIClient.process_image], once the semaphore is held.  [ev] is what
    the service does with this request. *)
Definition process_image (self : OpenAIClient) (image_data : list byte)
    (page_num : Z) (md : ProcessingMetadata float) (ev : http_event float)
    : M (json float * ProcessingMetadata float) :=
  try_except
    (let payload := request_payload self image_data in
     let headers := request_headers self in
     let* (status, body, elapsed) := session_post self payload headers ev in
     let* response_data := lift body in
     if negb (status =? 200) then
       let* err := lift (py_get response_data "error" (JObj [])) in
       let* error_msg := lift (py_get err "message" (JStr "Unknown API error")) in
       raise (ExcPDF APICallError
                ("OpenAI API request failed: " +:+ py_str error_msg) None)
     else
       let api_processing_time := elapsed in
       let* total :=
         match processing_time md with
         | Some t => ret (fadd t api_processing_time)
         | None =>
             raise (ExcOther
                      "unsupported operand type(s) for +: 'NoneType' and 'float'")
         end in
       let* usage := lift (py_get response_data "usage" (JObj [])) in
       let* tokens := lift (py_get usage "total_tokens" (JInt 0)) in
       let updated_metadata :=
         {| confidence_score := confidence_score md;
            processing_time := Some total;
            image_dimensions := image_dimensions md;
            file_size := file_size md;
            additional_data :=
              Some (<["api_response_tokens" := tokens]>
                      (<["api_processing_time" := JFloat api_processing_time]>
                         (default ∅ (additional_data md)))) |} in
       ret (response_data, updated_metadata))
    (process_image_handler self).

(** [OpenAIClient._process_single_page]: the handler re-raises. *)
Definition _process_single_page (self : OpenAIClient) (page_num : Z)
    (image_data : list byte) (md : ProcessingMetadata float)
    (ev : http_event float)
    : M (Z * json float * ProcessingMetadata float) :=
  try_except
    (let* (api_response, updated_metadata) :=
       process_image self image_data page_num md ev in
     ret (page_num, api_response, updated_metadata))
    (fun e => raise e).

(* ===================================================================== *)
(** ** The event loop: [asyncio.gather] behind [asyncio.Semaphore] *)
(* ===================================================================== *)

(** A task created by [gather] waits for the semaphore, then holds it while
    its request is in flight, then is done with a value or an exception. *)
Inductive task_state (A : Type) :=
  | Queued
  | InFlight
  | Done (r : result A).
Arguments Queued {A}.
Arguments InFlight {A}.
Arguments Done {A} r.

Record loop_state (A : Type) := {
  sem_value : Z;
  tasks : list (task_state A);
  posted : list (call float)
}.
Arguments sem_value {A} _.
Arguments tasks {A} _.
Arguments posted {A} _.

(** What the loop does next: let task [i] through [async with
    self.semaphore], or resume task [i] at the end of its request, which
    leaves the [async with] block and releases the semaphore. *)
Inductive loop_event :=
  | Admit (i : nat)
  | Complete (i : nat).

Definition is_in_flight {A} (t : task_state A) : bool :=
  match t with InFlight => true | _ => false end.

Definition is_done {A} (t : task_state A) : bool :=
  match t with Done _ => true | _ => false end.

(** The number of requests in flight. *)
Definition in_flight {A} (s : loop_state A) : Z :=
  Z.of_nat (List.length (List.filter is_in_flight (tasks s))).

(** One step.  [Semaphore.acquire] lets a task through only while the value
    is positive; [release] adds one.  An event that cannot happen in the
    state has no successor. *)
Definition loop_step {A} (coros : list (M A)) (s : loop_state A)
    (ev : loop_event) : option (loop_state A) :=
  match ev with
  | Admit i =>
      match tasks s !! i, coros !! i with
      | Some Queued, Some c =>
          if 0 <? sem_value s then
            Some {| sem_value := sem_value s - 1;
                    tasks := <[i := InFlight]> (tasks s);
                    posted := posted s ++ trace_of c |}
          else None
      | _, _ => None
      end
  | Complete i =>
      match tasks s !! i, coros !! i with
      | Some InFlight, Some c =>
          Some {| sem_value := sem_value s + 1;
                  tasks := <[i := Done (outcome_of c)]> (tasks s);
                  posted := posted s |}
      | _, _ => None
      end
  end.

Fixpoint loop_run {A} (coros : list (M A)) (s : loop_state A)
    (schedule : list loop_event) : option (loop_state A) :=
  match schedule with
  | [] => Some s
  | ev :: rest =>
      match loop_step coros s ev with
      | Some s' => loop_run coros s' rest
      | None => None
      end
  end.

Definition loop_init {A} (value : Z) (coros : list (M A)) : loop_state A :=
  {| sem_value := value;
     tasks := replicate (List.length coros) Queued;
     posted := [] |}.

(** The results of the children, in the order of the children, once every
    child is done. *)
Fixpoint task_results {A} (ts : list (task_state A))
    : option (list (result A)) :=
  match ts with
  | [] => Some []
  | Done r :: rest =>
      match task_results rest with
      | Some rs => Some (r :: rs)
      | None => None
      end
  | _ :: _ => None
  end.

(** [await asyncio.gather( *tasks, return_exceptions=True)] under a given
    schedule: [None] while some child is not done or when the schedule is
    not one the loop can follow. *)
Definition gather {A} (value : Z) (coros : list (M A))
    (schedule : list loop_event)
    : option (list (call float) * list (result A)) :=
  match loop_run coros (loop_init value coros) schedule with
  | Some s =>
      match task_results (tasks s) with
      | Some rs => Some (posted s, rs)
      | None => None
      end
  | None => None
  end.

(** One element of the list [process_batch] returns. *)
Definition batch_result : Type :=
  (Z * json float * ProcessingMetadata float * option string)%type.

(** [for i, result in enumerate(results): ...] of [process_batch]. *)
Fixpoint handle_results (pages_data : list page_tuple)
    (results : list (result (Z * json float * ProcessingMetadata float)))
    (i : nat) (processed_results : list batch_result)
    : result (list batch_result) :=
  match results with
  | [] => Ok processed_results
  | r :: rest =>
      match pages_data !! i with
      | None => Raise (ExcOther "list index out of range")
      | Some (page_num, _, md) =>
          match r with
          | Raise e =>
              handle_results pages_data rest (S i)
                (processed_results ++ [(page_num, JObj [], md, Some (exc_str e))])
          | Ok (n, api_response, updated_metadata) =>
              handle_results pages_data rest (S i)
                (processed_results ++ [(n, api_response, updated_metadata, None)])
          end
      end
  end.

(** The coroutines [process_batch] creates, one per page; [net i] is what
    the service does with the request of the page at position [i]. *)
Definition batch_coros (self : OpenAIClient) (net : nat -> http_event float)
    (pages_data : list page_tuple)
    : list (M (Z * json float * ProcessingMetadata float)) :=
  imap (fun i (page : page_tuple) =>
          match page with
          | (page_num, image_data, md) =>
              _process_single_page self page_num image_data md (net i)
          end) pages_data.

(** [OpenAIClient.process_batch]. *)
Definition process_batch (self : OpenAIClient) (net : nat -> http_event float)
    (schedule : list loop_event) (pages_data : list page_tuple)
    : option (M (list batch_result)) :=
  match gather (semaphore self) (batch_coros self net pages_data) schedule with
  | Some (t, results) => Some (t, handle_results pages_data results 0 [])
  | None => None
  end.

(* ===================================================================== *)
(** ** The endpoint ([app/api/endpoints.py]) *)
(* ===================================================================== *)

(** Truth value of an [Optional[str]]: [None] and the empty string are
    false. *)
Definition truthy (error : option string) : bool :=
  match error with
  | Some (String _ _) => true
  | _ => false
  end.

(** [for page_num, api_response, metadata, error in api_results: ...]. *)
Fixpoint build_results (api_results : list batch_result)
    (results : list (PageResult float)) (errors : list string)
    (processed_count : Z)
    : result (list (PageResult float) * list string * Z) :=
  match api_results with
  | [] => Ok (results, errors, processed_count)
  | (page_num, api_response, md, error) :: rest =>
      if truthy error then
        let msg := default "" error in
        let errors' := errors ++ ["Page " +:+ pretty page_num +:+ ": " +:+ msg] in
        match mk_PageResult page_num (JObj []) md error with
        | Ok r => build_results rest (results ++ [r]) errors' processed_count
        | Raise e => Raise e
        end
      else
        match mk_PageResult page_num api_response md None with
        | Ok r => build_results rest (results ++ [r]) errors (processed_count + 1)
        | Raise e => Raise e
        end
  end.

(** The two [except] clauses of [process_pdf]: the first takes every
    [PDFProcessingError], subclasses included, the second everything else. *)
Definition process_pdf_handler {A} (e : py_exc) : M A :=
  match e with
  | ExcPDF _ message details => raise (create_http_exception message details)
  | _ =>
      raise (ExcHTTP 500
               (DetailStr "Internal server error occurred during processing"))
  end.

(** The [try] block of [process_pdf] up to the call of [process_batch]. *)
Definition process_pdf_pages (st : Settings) (filename : string)
    (file : list byte) : M (list page_tuple) :=
  let* _ :=
    if negb (endswith (str_lower filename) ".pdf") then
      raise (ExcHTTP 400 (DetailStr "Only PDF files are allowed"))
    else ret tt in
  let* pages_data := process_pdf_stream st file in
  match pages_data with
  | [] => raise (ExcHTTP 400 (DetailStr "No pages found in PDF file"))
  | _ => ret pages_data
  end.

(** The [try] block of [process_pdf] after [process_batch]. *)
Definition process_pdf_response (pages_data : list page_tuple)
    (api_results : list batch_result) (elapsed : float)
    : M (PDFProcessResponse float) :=
  let* (results, errors, processed_count) :=
    lift (build_results api_results [] [] 0) in
  ret {| success := (List.length errors =? 0)%nat;
         total_pages := Z.of_nat (List.length pages_data);
         processed_pages := processed_count;
         results := results;
         response_processing_time := elapsed;
         errors := match errors with [] => None | _ => Some errors end |}.

(** [process_pdf]: [None] only when the schedule does not bring every page
    task to its end. *)
Definition process_pdf (st : Settings) (openai_client : OpenAIClient)
    (net : nat -> http_event float) (schedule : list loop_event)
    (elapsed : float) (filename : string) (file : list byte)
    : option (M (PDFProcessResponse float)) :=
  match process_pdf_pages st filename file with
  | (t, Raise e) => Some (try_except (t, Raise e) process_pdf_handler)
  | (t, Ok pages_data) =>
      match process_batch openai_client net schedule pages_data with
      | None => None
      | Some batch =>
          Some (try_except
                  (let* _ := (t, Ok tt) in
                   let* api_results := batch in
                   process_pdf_response pages_data api_results elapsed)
                  process_pdf_handler)
      end
  end.

(** The schedule that runs the page tasks one after the other. *)
Definition sequential_schedule (n : nat) : list loop_event :=
  flat_map (fun i => [Admit i; Complete i]) (seq 0 n).

End Pipeline.

Arguments Queued {A}.
Arguments InFlight {A}.
Arguments Done {A} r.
Arguments sem_value {P A} _.
Arguments tasks {P A} _.
Arguments posted {P A} _.

Notation "'let*' x ':=' m 'in' k" := (bind m (fun x => k))
  (at level 10, x pattern, m at level 100, k at level 200).

(* ===================================================================== *)
(** ** Derived notions used in the statements *)
(* ===================================================================== *)

Section Notions.
Context `{P : Platform}.

(** The page number of an element of [pages_data]. *)
Definition page_index (p : page_tuple) : Z := fst (fst p).

(** The metadata of an element of [pages_data]. *)
Definition page_metadata (p : page_tuple) : ProcessingMetadata float := snd p.

(** The page renders under the processor's settings. *)
Definition renders (self : PDFProcessor) (page : fitz_page float) : Prop :=
  exists r,
    page (dpi self) (processor_image_format self)
      (if String.eqb (processor_image_format self) "JPEG" then Some 95 else None)
    = Ok r.

(** Rendering the page raises. *)
Definition render_fails (self : PDFProcessor) (page : fitz_page float) : Prop :=
  exists e,
    page (dpi self) (processor_image_format self)
      (if String.eqb (processor_image_format self) "JPEG" then Some 95 else None)
    = Raise e.

(** The per-page errors of the dispatch: timeout, transport error,
    non-success status, unparsable body. *)
Definition is_page_error (ev : http_event float) : bool :=
  match ev with
  | EvTimeout => true
  | EvClientError _ => true
  | EvResponse status body _ => negb (status =? 200) || negb (is_ok body)
  end.

(** What [process_batch] makes of one page: [_process_single_page] followed
    by the branch of the result loop that applies. *)
Definition page_outcome (self : OpenAIClient) (ev : http_event float)
    (page : page_tuple) : batch_result :=
  match page with
  | (page_num, image_data, md) =>
      match outcome_of (_process_single_page self page_num image_data md ev) with
      | Ok (n, api_response, updated_metadata) =>
          (n, api_response, updated_metadata, None)
      | Raise e => (page_num, JObj [], md, Some (exc_str e))
      end
  end.

Definition batch_page_number (r : batch_result) : Z := fst (fst (fst r)).
Definition batch_output (r : batch_result) : json float := snd (fst (fst r)).
Definition batch_metadata (r : batch_result) : ProcessingMetadata float :=
  snd (fst r).
Definition batch_error (r : batch_result) : option string := snd r.

(** A page result is a failure when it carries an error. *)
Definition is_failure (r : PageResult float) : bool :=
  match error r with Some _ => true | None => false end.

(** The line of [errors] for a failing page. *)
Definition error_line (r : PageResult float) : string :=
  "Page " +:+ pretty (page_number r) +:+ ": " +:+ default "" (error r).

(** What every reachable state satisfies: one task per coroutine, a task
    that is done holds the outcome of its own coroutine, and the semaphore's
    value and the number of requests in flight add up to the initial
    value. *)
Record loop_inv {A} (value : Z) (coros : list (M A)) (s : loop_state A)
    : Prop := {
  inv_length : List.length (tasks s) = List.length coros;
  inv_done : forall i r, tasks s !! i = Some (Done r) ->
             exists c, coros !! i = Some c /\ r = outcome_of c;
  inv_value : sem_value s + in_flight s = value;
  inv_nonneg : 0 <= value -> 0 <= sem_value s
}.

(** [messages[0].content[1].image_url.url] of a request payload. *)
Definition payload_image_url (payload : json float) : option string :=
  match payload with
  | JObj top =>
      match assoc "messages" top with
      | Some (JArr (JObj msg :: _)) =>
          match assoc "content" msg with
          | Some (JArr (_ :: JObj part :: _)) =>
              match assoc "image_url" part with
              | Some (JObj img) =>
                  match assoc "url" img with
                  | Some (JStr url) => Some url
                  | _ => None
                  end
              | _ => None
              end
          | _ => None
          end
      | _ => None
      end
  | _ => None
  end.

End Notions.

(** The text of [s] before the first [c]. *)
Fixpoint before_char (c : ascii) (s : string) : string :=
  match s with
  | EmptyString => EmptyString
  | String a r => if Ascii.eqb a c then EmptyString else String a (before_char c r)
  end.

(** [s] without the prefix [p], when it starts with [p]. *)
Fixpoint strip_prefix (p s : string) : option string :=
  match p with
  | EmptyString => Some s
  | String a p' =>
      match s with
      | String b s' => if Ascii.eqb a b then strip_prefix p' s' else None
      | EmptyString => None
      end
  end.

(** The media type of a [data:] URL: what stands between [data:] and the
    first semicolon. *)
Definition data_url_media_type (url : string) : option string :=
  match strip_prefix "data:" url with
  | Some rest => Some (before_char ";"%char rest)
  | None => None
  end.

(** The media type of an image format name as the configuration spells it:
    [image/] and the name in lower case. *)
Definition media_type_of_format (fmt : string) : string :=
  "image/" +:+ str_lower fmt.

(* ===================================================================== *)
(** ** Decoding base64 *)
(* ===================================================================== *)

(** The position of a character in the base64 alphabet. *)
Fixpoint index_of (c : ascii) (alphabet : string) (i : N) : option N :=
  match alphabet with
  | EmptyString => None
  | String a rest => if Ascii.eqb a c then Some i else index_of c rest (i + 1)%N
  end.

Definition b64_index (c : ascii) : option N := index_of c b64_alphabet 0.

Definition byte_of_N (n : N) : option byte := Byte.of_N n.

(** The inverse of [b64encode] ([base64.b64decode] on padded input): four
    characters to three bytes, with one or two [=] ending the text. *)
Fixpoint b64decode (s : string) : option (list byte) :=
  match s with
  | EmptyString => Some []
  | String c1 (String c2 (String c3 (String c4 rest))) =>
      match b64_index c1, b64_index c2 with
      | Some s1, Some s2 =>
          match byte_of_N (s1 * 4 + s2 / 16) with
          | None => None
          | Some b1 =>
              if Ascii.eqb c3 "="%char then
                if Ascii.eqb c4 "="%char then
                  match rest with EmptyString => Some [b1] | _ => None end
                else None
              else
                match b64_index c3 with
                | None => None
                | Some s3 =>
                    match byte_of_N ((s2 mod 16) * 16 + s3 / 4) with
                    | None => None
                    | Some b2 =>
                        if Ascii.eqb c4 "="%char then
                          match rest with
                          | EmptyString => Some [b1; b2]
                          | _ => None
                          end
                        else
                          match b64_index c4 with
                          | None => None
                          | Some s4 =>
                              match byte_of_N ((s3 mod 4) * 64 + s4),
                                    b64decode rest with
                              | Some b3, Some bs => Some (b1 :: b2 :: b3 :: bs)
                              | _, _ => None
                              end
                          end
                    end
                end
          end
      | _, _ => None
      end
  | _ => None
  end.

(* ===================================================================== *)
(** ** The application ([app/main.py]) *)
(* ===================================================================== *)

Section Application.
Context `{P : Platform}.

Record JSONResponse := {
  status_code : Z;
  content : json float
}.

(** The [detail] of an [HTTPException] as the value it is in Python. *)
Definition detail_json (d : http_detail) : json float :=
  match d with
  | DetailStr s => JStr s
  | DetailError err details =>
      JObj [("error", JStr err);
            ("details", match details with Some x => JStr x | None => JNull end)]
  end.

(** [http_exception_handler]. *)
Definition http_exception_handler (exc_status_code : Z) (exc_detail : http_detail)
    : JSONResponse :=
  {| status_code := exc_status_code;
     content := JObj [("success", JBool false);
                      ("error", JStr (py_str (detail_json exc_detail)))] |}.

(** [pdf_processing_exception_handler]. *)
Definition pdf_processing_exception_handler (message : string)
    (details : option string) : JSONResponse :=
  {| status_code := 400;
     content := JObj [("success", JBool false);
                      ("error", JStr message);
                      ("details",
                        match details with Some x => JStr x | None => JNull end)] |}.

(** What the caller of the route receives: the report with status 200, the
    answer of an exception handler, or the framework's bare status 500 for
    an exception no handler is registered for. *)
Inductive http_answer :=
  | Answer200 (body : PDFProcessResponse float)
  | AnswerJSON (r : JSONResponse)
  | AnswerUnhandled.

(** The framework picks the handler by the class of the exception. *)
Definition answer (r : result (PDFProcessResponse float)) : http_answer :=
  match r with
  | Ok report => Answer200 report
  | Raise (ExcHTTP code d) => AnswerJSON (http_exception_handler code d)
  | Raise (ExcPDF _ message details) =>
      AnswerJSON (pdf_processing_exception_handler message details)
  | Raise _ => AnswerUnhandled
  end.

(* ===================================================================== *)
(** ** More notions about the event loop and the batch *)
(* ===================================================================== *)

Definition is_queued {A} (t : task_state A) : bool :=
  match t with Queued => true | _ => false end.

(** The calls of the tasks that have been admitted, task by task. *)
Definition started_traces {A} (ts : list (task_state A)) (coros : list (M A))
    : list (call float) :=
  concat (zip_with (fun t c => if is_queued t then [] else trace_of c) ts coros).

(** What is left to do: two steps for a waiting task, one for a request in
    flight. *)
Definition pending_work {A} (s : loop_state A) : nat :=
  (2 * List.length (List.filter is_queued (tasks s))
   + List.length (List.filter is_in_flight (tasks s)))%nat.

(** The request [process_image] posts for a page. *)
Definition page_request (self : OpenAIClient) (page : page_tuple) : call float :=
  CallPost (api_url self) (request_payload self (snd (fst page)))
    (request_headers self).

(** The image bytes of an element of [pages_data]. *)
Definition page_image (p : page_tuple) : list byte := snd (fst p).

(** The metadata [extract_pages_as_images] gives a page: size and time are
    set, the size is the length of the image, nothing else is. *)
Definition extraction_metadata (p : page_tuple) : Prop :=
  file_size (page_metadata p) = Some (len (page_image p))
  /\ is_Some (processing_time (page_metadata p))
  /\ is_Some (image_dimensions (page_metadata p))
  /\ confidence_score (page_metadata p) = None
  /\ additional_data (page_metadata p) = None.

(** A body the success path of [process_image] gets through: a dictionary
    whose [usage], when present, is a dictionary. *)
Definition usable_body (body : json float) : Prop :=
  exists members,
    body = JObj members
    /\ (assoc "usage" members = None
        \/ exists usage, assoc "usage" members = Some (JObj usage)).

(** [response_data.get("usage", {}).get("total_tokens", 0)] on a usable
    body. *)
Definition total_tokens (body : json float) : json float :=
  match body with
  | JObj members =>
      match assoc "usage" members with
      | Some (JObj usage) =>
          match assoc "total_tokens" usage with
          | Some v => v
          | None => JInt 0
          end
      | _ => JInt 0
      end
  | _ => JInt 0
  end.

End Application.

(* ===================================================================== *)
(** ** A small platform to run the definitions on *)
(* ===================================================================== *)

Module Sample.

(** A page that renders to three bytes, whatever the settings. *)
Definition good_page : fitz_page Z :=
  fun dpi _ _ =>
    Ok {| image_bytes := ["M"%byte; "a"%byte; "n"%byte];
          width := 612 * dpi / 72; height := 792 * dpi / 72;
          render_time := 5 |}.

(** A page whose rendering raises. *)
Definition bad_page : fitz_page Z :=
  fun _ _ _ => Raise (ExcOther "cannot render page").

(** A document store keyed by the first byte of the payload: [3] is a
    document of three pages, [b] one whose second page does not render, [0]
    a document without pages; anything else does not parse. *)
Definition open (content : list byte) : result (list (fitz_page Z)) :=
  match content with
  | "3"%byte :: _ => Ok [good_page; good_page; good_page]
  | "b"%byte :: _ => Ok [good_page; bad_page; good_page]
  | "0"%byte :: _ => Ok []
  | _ => Raise (ExcOther "Failed to open stream")
  end.

#[local] Instance platform : Platform :=
  {| float := Z; fadd := Z.add; py_repr := fun _ => "<repr>"; fitz_open := open |}.

Definition st : Settings := default_settings "https://api.example/v1" "key" "model-x".

(** The same settings with JPEG as the output format. *)
Definition st_jpeg : Settings :=
  {| openai_api_url := openai_api_url st; openai_api_key := openai_api_key st;
     openai_timeout := openai_timeout st; mmlm_model := mmlm_model st;
     max_file_size := max_file_size st; image_dpi := image_dpi st;
     image_format := "jpeg";
     max_concurrent_requests := max_concurrent_requests st;
     batch_size := batch_size st |}.

(** Settings that accept at most four bytes and two concurrent requests. *)
Definition st_small : Settings :=
  {| openai_api_url := openai_api_url st; openai_api_key := openai_api_key st;
     openai_timeout := openai_timeout st; mmlm_model := mmlm_model st;
     max_file_size := 4; image_dpi := image_dpi st;
     image_format := image_format st;
     max_concurrent_requests := 2;
     batch_size := batch_size st |}.

Definition client_of (s : Settings) : OpenAIClient :=
  {| api_url := openai_api_url s; api_key := openai_api_key s;
     timeout := openai_timeout s; self_mmlm_model := mmlm_model s;
     semaphore := max_concurrent_requests s |}.

Definition ok_body : json Z :=
  JObj [("choices", JArr []); ("usage", JObj [("total_tokens", JInt 42)])].

(** Every request succeeds. *)
Definition net_ok : nat -> http_event Z :=
  fun _ => EvResponse 200 (Ok ok_body) 7.

(** The request of the second page times out, the others succeed. *)
Definition net_timeout_2 : nat -> http_event Z :=
  fun i => if (i =? 1)%nat then EvTimeout else EvResponse 200 (Ok ok_body) 7.

(** All three requests are admitted, then they complete last to first. *)
Definition reversed_schedule : list loop_event :=
  [Admit 0%nat; Admit 1%nat; Admit 2%nat;
   Complete 2%nat; Complete 1%nat; Complete 0%nat].

(** The three requests run one after the other. *)
Definition sequential3 : list loop_event := sequential_schedule 3.

Definition doc3 : list byte := ["3"%byte].
Definition doc_bad : list byte := ["b"%byte].
Definition doc0 : list byte := ["0"%byte].
Definition junk : list byte := ["x"%byte; "y"%byte].
Definition big_junk : list byte :=
  ["x"%byte; "x"%byte; "x"%byte; "x"%byte; "x"%byte].

Definition three_pages : list (@page_tuple platform) :=
  [(1, ["M"%byte], {| confidence_score := None; processing_time := Some 5;
                      image_dimensions := Some (1, 1); file_size := Some 1;
                      additional_data := None |});
   (2, ["a"%byte], {| confidence_score := None; processing_time := Some 5;
                      image_dimensions := Some (1, 1); file_size := Some 1;
                      additional_data := None |});
   (3, ["n"%byte], {| confidence_score := None; processing_time := Some 5;
                      image_dimensions := Some (1, 1); file_size := Some 1;
                      additional_data := None |})].

(** What a caller sees of a report. *)
Definition summary (r : option (M (PDFProcessResponse Z)))
    : option (Z * Z * bool * option (list string) * list Z) :=
  match r with
  | Some (_, Ok report) =>
      Some (total_pages report, processed_pages report, success report,
            errors report, map page_number (results report))
  | _ => None
  end.

(** Every request fails: timeouts, transport errors, refusals and bodies
    that do not parse, in turn. *)
Definition net_all_fail : nat -> http_event Z :=
  fun i =>
    match (i mod 4)%nat with
    | 0%nat => EvTimeout
    | 1%nat => EvClientError "Connection reset by peer"
    | 2%nat => EvResponse 429 (Ok (JObj [("error", JObj [("message", JStr "quota")])])) 3
    | _ => EvResponse 200 (Raise (ExcOther "Expecting value: line 1 column 1 (char 0)")) 3
    end.

(** A page as extraction produces it. *)
Definition md5 : ProcessingMetadata Z :=
  {| confidence_score := None; processing_time := Some 5;
     image_dimensions := Some (1, 1); file_size := Some 1;
     additional_data := None |}.

(** A client without permits. *)
Definition client_no_permit : OpenAIClient :=
  {| api_url := "https://api.example/v1"; api_key := "key"; timeout := 30;
     self_mmlm_model := "model-x"; semaphore := 0 |}.

End Sample.

(* ===================================================================== *)
(** ** Reading, validation and extraction *)
(* ===================================================================== *)

Section ExtractionProofs.
Context `{P : Platform}.

Lemma chunk_size_pos : (0 < chunk_size)%nat.
Proof. unfold chunk_size. lia. Qed.

Lemma take_nil_inv {A} (n : nat) (l : list A) :
  (0 < n)%nat -> take n l = [] -> l = [].
Proof. destruct n, l; simpl; intros; try lia; congruence. Qed.

Lemma read_chunks_all (fuel : nat) (file tmp_file : list byte) :
  (List.length file < fuel)%nat ->
  read_chunks fuel file tmp_file = tmp_file ++ file.
Proof.
  revert file tmp_file.
  induction fuel as [|fuel IH]; intros file tmp_file Hlen; [lia|].
  cbn [read_chunks].
  destruct (take chunk_size file) as [|b chunk] eqn:E.
  - apply take_nil_inv in E; [|apply chunk_size_pos].
    subst file. by rewrite app_nil_r.
  - rewrite IH.
    + rewrite <- E, <- app_assoc, take_drop. reflexivity.
    + rewrite length_drop.
      assert (file <> []) by (intros ->; by rewrite take_nil in E).
      destruct file; [done|]. simpl in *. pose proof chunk_size_pos. lia.
Qed.

(** The chunked copy of the upload returns the upload. *)
Lemma read_file_async_id (file : list byte) : _read_file_async file = file.
Proof. unfold _read_file_async. apply read_chunks_all. lia. Qed.

Lemma outcome_bind_ok {A B} (m : M A) (k : A -> M B) (a : A) :
  outcome_of m = Ok a -> outcome_of (bind m k) = outcome_of (k a).
Proof.
  destruct m as [t r]. simpl. intros ->. simpl. by destruct (k a).
Qed.

Lemma outcome_bind_raise {A B} (m : M A) (k : A -> M B) (e : py_exc) :
  outcome_of m = Raise e -> outcome_of (bind m k) = Raise e.
Proof. destruct m as [t r]. simpl. by intros ->. Qed.

Lemma trace_bind_raise {A B} (m : M A) (k : A -> M B) (e : py_exc) :
  outcome_of m = Raise e -> trace_of (bind m k) = trace_of m.
Proof. destruct m as [t r]. simpl. by intros ->. Qed.

Lemma trace_bind_ok {A B} (m : M A) (k : A -> M B) (a : A) :
  outcome_of m = Ok a -> trace_of (bind m k) = trace_of m ++ trace_of (k a).
Proof.
  destruct m as [t r]. simpl. intros ->. simpl. by destruct (k a).
Qed.

Lemma outcome_try_ok {A} (m : M A) (h : py_exc -> M A) (a : A) :
  outcome_of m = Ok a -> outcome_of (try_except m h) = Ok a.
Proof. destruct m as [t r]. simpl. by intros ->. Qed.

Lemma outcome_try_raise {A} (m : M A) (h : py_exc -> M A) (e : py_exc) :
  outcome_of m = Raise e -> outcome_of (try_except m h) = outcome_of (h e).
Proof.
  destruct m as [t r]. simpl. intros ->. simpl. by destruct (h e).
Qed.

Lemma outcome_render_page_ok (self : PDFProcessor) (page : fitz_page float)
    (page_num : Z) :
  renders self page ->
  exists img md, outcome_of (render_page self page page_num)
                 = Ok (page_num + 1, img, md).
Proof.
  intros [r Hr]. unfold render_page. simpl. rewrite Hr. simpl. eauto.
Qed.

Lemma outcome_render_page_fail (self : PDFProcessor) (page : fitz_page float)
    (page_num : Z) (e : py_exc) :
  page (dpi self) (processor_image_format self)
    (if String.eqb (processor_image_format self) "JPEG" then Some 95 else None)
  = Raise e ->
  outcome_of (render_page self page page_num) = Raise e.
Proof. intros Hr. unfold render_page. simpl. by rewrite Hr. Qed.

Lemma outcome_render_page_inv (self : PDFProcessor) (page : fitz_page float)
    (page_num : Z) (t : page_tuple) :
  outcome_of (render_page self page page_num) = Ok t ->
  page_index t = page_num + 1.
Proof.
  unfold render_page. simpl.
  destruct (page _ _ _) as [r|e]; simpl; [|discriminate].
  by intros [= <-].
Qed.

(** When every page renders, the loop appends the pages numbered from
    [page_num + 1] on. *)
Lemma extract_loop_ok (self : PDFProcessor) (doc : list (fitz_page float)) :
  Forall (renders self) doc ->
  forall (page_num : Z) (pages_data : list page_tuple),
  exists new,
    outcome_of (extract_loop self doc page_num pages_data) = Ok (pages_data ++ new)
    /\ map page_index new
       = map (fun k => page_num + Z.of_nat k) (seq 1 (List.length doc)).
Proof.
  induction 1 as [|page rest Hpage _ IH]; intros page_num pages_data.
  - exists []. simpl. by rewrite app_nil_r.
  - destruct (outcome_render_page_ok self page page_num Hpage) as (img & md & Hr).
    destruct (IH (page_num + 1) (pages_data ++ [(page_num + 1, img, md)]))
      as (new & Hnew & Hidx).
    exists ((page_num + 1, img, md) :: new). split.
    + cbn [extract_loop]. rewrite (outcome_bind_ok _ _ _ Hr). cbv beta.
      etrans; [exact Hnew|]. by rewrite <- app_assoc.
    + cbn [map List.length]. rewrite Hidx.
      change (seq 1 (S (List.length rest))) with (1%nat :: seq 2 (List.length rest)).
      cbn [map]. f_equal.
      rewrite <- (seq_shift _ 1), map_map.
      apply map_ext. intros k. lia.
Qed.

(** When the loop returns, it has appended one element per page. *)
Lemma extract_loop_length (self : PDFProcessor) (doc : list (fitz_page float)) :
  forall (page_num : Z) (pages_data l : list page_tuple),
  outcome_of (extract_loop self doc page_num pages_data) = Ok l ->
  List.length l = (List.length pages_data + List.length doc)%nat
  /\ map page_index l
     = map page_index pages_data
       ++ map (fun k => page_num + Z.of_nat k) (seq 1 (List.length doc)).
Proof.
  induction doc as [|page rest IH]; intros page_num pages_data l.
  - simpl. intros [= <-]. rewrite app_nil_r. split; [lia|done].
  - cbn [extract_loop].
    destruct (outcome_of (render_page self page page_num)) as [t|e] eqn:Hr.
    + rewrite (outcome_bind_ok _ _ _ Hr). intros Hl.
      apply IH in Hl as [Hlen Hidx]. split.
      * rewrite Hlen, length_app. simpl. lia.
      * rewrite Hidx, map_app, <- app_assoc. f_equal.
        cbn [map List.length app].
        rewrite (outcome_render_page_inv _ _ _ _ Hr).
        change (seq 1 (S (List.length rest))) with (1%nat :: seq 2 (List.length rest)).
        cbn [map]. f_equal.
        rewrite <- (seq_shift _ 1), map_map.
        apply map_ext. intros k. lia.
    + by rewrite (outcome_bind_raise _ _ _ Hr).
Qed.

(** When some page does not render, the loop raises. *)
Lemma extract_loop_fail (self : PDFProcessor) (doc : list (fitz_page float)) :
  Exists (render_fails self) doc ->
  forall (page_num : Z) (pages_data : list page_tuple),
  exists e, outcome_of (extract_loop self doc page_num pages_data) = Raise e.
Proof.
  induction 1 as [page rest [e He]|page rest _ IH]; intros page_num pages_data.
  - exists e. cbn [extract_loop].
    apply outcome_bind_raise. by apply outcome_render_page_fail.
  - cbn [extract_loop].
    destruct (outcome_of (render_page self page page_num)) as [t|e] eqn:Hr.
    + rewrite (outcome_bind_ok _ _ _ Hr). apply IH.
    + exists e. by rewrite (outcome_bind_raise _ _ _ Hr).
Qed.

Lemma outcome_open_pdf (content : list byte) :
  outcome_of (open_pdf content) = fitz_open content.
Proof. reflexivity. Qed.

(** [extract_pages_as_images] returns only when the document opened, and
    then with one element per page, numbered from one. *)
Lemma extract_pages_inv (st : Settings) (content : list byte)
    (l : list page_tuple) :
  outcome_of (extract_pages_as_images st content) = Ok l ->
  exists doc, fitz_open content = Ok doc
    /\ List.length l = List.length doc
    /\ map page_index l = map Z.of_nat (seq 1 (List.length doc)).
Proof.
  unfold extract_pages_as_images. intros H.
  destruct (fitz_open content) as [doc|e] eqn:Hopen.
  - exists doc. split; [done|].
    destruct (outcome_of (extract_loop (PDFProcessor_init st) doc 0 [])) as [l'|e]
      eqn:Hloop.
    + rewrite (outcome_try_ok _ _ l') in H.
      * injection H as ->. apply extract_loop_length in Hloop as [Hlen Hidx].
        split; [done|]. rewrite Hidx. simpl. apply map_ext. intros; lia.
      * by rewrite (outcome_bind_ok _ _ doc).
    + rewrite (outcome_try_raise _ _ e) in H; [discriminate|].
      by rewrite (outcome_bind_ok _ _ doc).
  - rewrite (outcome_try_raise _ _ e) in H; [discriminate|].
    by apply outcome_bind_raise.
Qed.

End ExtractionProofs.

Section ValidationProofs.
Context `{P : Platform}.

(** Above the size limit [validate_pdf] raises at once, without a library
    call. *)
Lemma validate_pdf_too_large (st : Settings) (content : list byte) :
  len content > max_file_size st ->
  validate_pdf st content
  = ([], Raise (ExcPDF PDFProcessingError
                  ("File size exceeds maximum allowed size of "
                     +:+ pretty (max_file_size st) +:+ " bytes") None)).
Proof.
  intros Hlen. unfold validate_pdf.
  destruct (len content >? max_file_size st) eqn:E; [reflexivity|].
  rewrite Z.gtb_ltb in E. apply Z.ltb_ge in E. lia.
Qed.

(** Within the size limit, a payload that does not parse or parses to no
    page makes [validate_pdf] raise [InvalidFileError] after one attempt to
    open it. *)
Lemma validate_pdf_invalid (st : Settings) (content : list byte) :
  len content <= max_file_size st ->
  fitz_open content = Ok [] \/ (exists e, fitz_open content = Raise e) ->
  exists msg,
    validate_pdf st content
    = ([CallOpen content],
       Raise (ExcPDF InvalidFileError ("Invalid PDF file: " +:+ msg) None)).
Proof.
  intros Hlen Hopen. unfold validate_pdf.
  destruct (len content >? max_file_size st) eqn:E.
  { rewrite Z.gtb_ltb in E. apply Z.ltb_lt in E. lia. }
  unfold open_pdf. destruct Hopen as [H|[e H]]; rewrite H; simpl; eauto.
Qed.

(** [process_pdf_stream] passes on what validation raises. *)
Lemma process_pdf_stream_invalid (st : Settings) (file : list byte)
    (t : list (call float)) (e : py_exc) :
  validate_pdf st file = (t, Raise e) ->
  process_pdf_stream st file = (t, Raise e).
Proof.
  intros H. unfold process_pdf_stream. rewrite read_file_async_id.
  cbv zeta. rewrite H. simpl. by rewrite app_nil_r.
Qed.

(** When [process_pdf_stream] returns pages, the upload opened as a document
    and there is one page tuple per page, numbered from one. *)
Lemma process_pdf_stream_inv (st : Settings) (file : list byte)
    (l : list page_tuple) :
  outcome_of (process_pdf_stream st file) = Ok l ->
  exists doc, fitz_open file = Ok doc
    /\ List.length l = List.length doc
    /\ map page_index l = map Z.of_nat (seq 1 (List.length doc)).
Proof.
  unfold process_pdf_stream. rewrite read_file_async_id. cbv zeta.
  intros H.
  destruct (outcome_of (validate_pdf st file)) as [[]|e] eqn:Hv.
  - destruct (outcome_of (extract_pages_as_images st file)) as [l'|e] eqn:Hx.
    + rewrite (outcome_try_ok _ _ l') in H.
      * injection H as ->. by apply extract_pages_inv in Hx.
      * by rewrite (outcome_bind_ok _ _ tt).
    + rewrite (outcome_try_raise _ _ e) in H; [discriminate|].
      by rewrite (outcome_bind_ok _ _ tt).
  - rewrite (outcome_try_raise _ _ e) in H; [discriminate|].
    by apply outcome_bind_raise.
Qed.

(** A failure of [process_pdf_pages] ends [process_pdf] whatever the client,
    the network and the schedule. *)
Lemma process_pdf_pages_raise (st : Settings) (client : OpenAIClient)
    (net : nat -> http_event float) (schedule : list loop_event)
    (elapsed : float) (filename : string) (file : list byte)
    (t : list (call float)) (e : py_exc) :
  process_pdf_pages st filename file = (t, Raise e) ->
  process_pdf st client net schedule elapsed filename file
  = Some (try_except (t, Raise e) process_pdf_handler).
Proof. intros H. unfold process_pdf. by rewrite H. Qed.

End ValidationProofs.

(** C5: for a document that opens with P pages each of which renders,
    extraction returns a list of exactly P page tuples whose page numbers are
    1, 2, ..., P in this order. *)
Theorem extraction_yields_all_pages `{P : Platform} (st : Settings)
    (content : list byte) (doc : list (fitz_page float)) :
  fitz_open content = Ok doc ->
  Forall (renders (PDFProcessor_init st)) doc ->
  exists pages_data,
    outcome_of (extract_pages_as_images st content) = Ok pages_data
    /\ List.length pages_data = List.length doc
    /\ map page_index pages_data = map Z.of_nat (seq 1 (List.length doc)).
Proof.
  intros Hopen Hall.
  destruct (extract_loop_ok _ _ Hall 0 []) as (new & Hloop & Hidx).
  exists new.
  assert (Hout : outcome_of (extract_pages_as_images st content) = Ok new).
  { unfold extract_pages_as_images. apply outcome_try_ok.
    rewrite (outcome_bind_ok _ _ doc); [exact Hloop|exact Hopen]. }
  split; [exact Hout|].
  apply extract_pages_inv in Hout as (doc' & Hopen' & Hlen & Hidx').
  rewrite Hopen in Hopen'. injection Hopen' as <-. done.
Qed.

Lemma extraction_yields_all_pages_witness :
  exists pages_data,
    outcome_of (extract_pages_as_images (P := Sample.platform)
                  Sample.st Sample.doc3) = Ok pages_data
    /\ List.length pages_data = 3%nat
    /\ map page_index pages_data = [1; 2; 3].
Proof.
  apply (extraction_yields_all_pages (P := Sample.platform) Sample.st
           Sample.doc3 [Sample.good_page; Sample.good_page; Sample.good_page]).
  - reflexivity.
  - repeat constructor; eexists; reflexivity.
Defined.

(** C6, as the code has it: when the document opens and the rendering of
    some page raises, extraction raises the base [PDFProcessingError] whose
    message starts with "Failed to extract pages from PDF: "; it returns no
    page list. *)
Theorem extraction_aborts_on_page_failure `{P : Platform} (st : Settings)
    (content : list byte) (doc : list (fitz_page float)) :
  fitz_open content = Ok doc ->
  Exists (render_fails (PDFProcessor_init st)) doc ->
  exists msg,
    outcome_of (extract_pages_as_images st content)
    = Raise (ExcPDF PDFProcessingError
               ("Failed to extract pages from PDF: " +:+ msg) None).
Proof.
  intros Hopen Hbad.
  destruct (extract_loop_fail _ _ Hbad 0 []) as [e He].
  exists (exc_str e). unfold extract_pages_as_images.
  rewrite (outcome_try_raise _ _ e); [reflexivity|].
  rewrite (outcome_bind_ok _ _ doc); [exact He|exact Hopen].
Qed.

Lemma extraction_aborts_on_page_failure_witness :
  exists msg,
    outcome_of (extract_pages_as_images (P := Sample.platform)
                  Sample.st Sample.doc_bad)
    = Raise (ExcPDF PDFProcessingError
               ("Failed to extract pages from PDF: " +:+ msg) None).
Proof.
  apply (extraction_aborts_on_page_failure (P := Sample.platform) Sample.st
           Sample.doc_bad [Sample.good_page; Sample.bad_page; Sample.good_page]).
  - reflexivity.
  - apply Exists_cons_tl, Exists_cons_hd. eexists; reflexivity.
Defined.

(** C6 as stated fails: the second page of the sample document does not
    render, and the exception extraction raises is not an
    [InvalidFileError]. *)
Lemma extraction_error_is_not_invalid_file :
  Sample.open Sample.doc_bad
    = Ok [Sample.good_page; Sample.bad_page; Sample.good_page]
  /\ render_fails (P := Sample.platform)
       (PDFProcessor_init Sample.st) Sample.bad_page
  /\ ~ (exists msg details,
          outcome_of (extract_pages_as_images (P := Sample.platform)
                        Sample.st Sample.doc_bad)
          = Raise (ExcPDF InvalidFileError msg details)).
Proof.
  split; [reflexivity|]. split; [eexists; reflexivity|].
  intros (msg & details & H). vm_compute in H. discriminate.
Qed.

(** C7, evaluated on the code: a payload longer than [max_file_size] makes
    [validate_pdf] raise before any library call (the trace is empty), and
    what it raises is the base [PDFProcessingError], not [FileSizeError]. *)
Theorem validate_pdf_oversize `{P : Platform} (st : Settings)
    (content : list byte) :
  len content > max_file_size st ->
  trace_of (validate_pdf st content) = []
  /\ exists msg,
       outcome_of (validate_pdf st content)
       = Raise (ExcPDF PDFProcessingError msg None)
       /\ issubclass PDFProcessingError FileSizeError = false.
Proof.
  intros H. rewrite (validate_pdf_too_large st content H).
  split; [reflexivity|]. eexists. split; reflexivity.
Qed.

Lemma validate_pdf_oversize_witness :
  trace_of (validate_pdf (P := Sample.platform) Sample.st_small Sample.big_junk)
    = []
  /\ exists msg,
       outcome_of (validate_pdf (P := Sample.platform)
                     Sample.st_small Sample.big_junk)
       = Raise (ExcPDF PDFProcessingError msg None)
       /\ issubclass PDFProcessingError FileSizeError = false.
Proof.
  apply (validate_pdf_oversize (P := Sample.platform)
           Sample.st_small Sample.big_junk).
  vm_compute. reflexivity.
Defined.

(** C8: a payload that has passed the size test of [validate_pdf] and does
    not parse, or parses to a document without pages, makes
    [process_pdf_stream] raise [InvalidFileError]; the endpoint then answers
    with the HTTP error built from it, posts no request and returns no
    report. *)
Theorem unparsable_or_empty_rejected `{P : Platform} (st : Settings)
    (content : list byte) :
  len content <= max_file_size st ->
  fitz_open content = Ok [] \/ (exists e, fitz_open content = Raise e) ->
  (exists msg,
     outcome_of (process_pdf_stream st content)
     = Raise (ExcPDF InvalidFileError msg None))
  /\ forall (client : OpenAIClient) (net : nat -> http_event float)
            (schedule : list loop_event) (elapsed : float) (filename : string),
       endswith (str_lower filename) ".pdf" = true ->
       exists m msg,
         process_pdf st client net schedule elapsed filename content = Some m
         /\ outcome_of m = Raise (create_http_exception msg None)
         /\ List.filter is_post (trace_of m) = [].
Proof.
  intros Hlen Hopen.
  destruct (validate_pdf_invalid st content Hlen Hopen) as [msg Hv].
  pose proof (process_pdf_stream_invalid st content _ _ Hv) as Hs.
  split.
  - eexists. rewrite Hs. reflexivity.
  - intros client net schedule elapsed filename Hname.
    assert (Hp : process_pdf_pages st filename content
                 = ([CallOpen content],
                    Raise (ExcPDF InvalidFileError
                             ("Invalid PDF file: " +:+ msg) None))).
    { unfold process_pdf_pages. rewrite Hname, Hs. reflexivity. }
    eexists _, _. split; [by apply process_pdf_pages_raise|].
    split; reflexivity.
Qed.

Lemma unparsable_or_empty_rejected_witness :
  (exists msg,
     outcome_of (process_pdf_stream (P := Sample.platform) Sample.st Sample.doc0)
     = Raise (ExcPDF InvalidFileError msg None))
  /\ forall (client : OpenAIClient) (net : nat -> http_event Z)
            (schedule : list loop_event) (elapsed : Z) (filename : string),
       endswith (str_lower filename) ".pdf" = true ->
       exists m msg,
         process_pdf (P := Sample.platform) Sample.st client net schedule
           elapsed filename Sample.doc0 = Some m
         /\ outcome_of m = Raise (create_http_exception msg None)
         /\ List.filter is_post (trace_of m) = [].
Proof.
  apply (unparsable_or_empty_rejected (P := Sample.platform)
           Sample.st Sample.doc0).
  - vm_compute. discriminate.
  - left. reflexivity.
Defined.

(** The size test comes first: a payload longer than [max_file_size] is
    rejected for its size also when it does not parse, and what is raised
    then is not an [InvalidFileError]. *)
Lemma oversize_unparsable_is_not_invalid_file :
  (exists e, Sample.open Sample.big_junk = Raise e)
  /\ ~ (exists msg details,
          outcome_of (process_pdf_stream (P := Sample.platform)
                        Sample.st_small Sample.big_junk)
          = Raise (ExcPDF InvalidFileError msg details)).
Proof.
  split; [eexists; reflexivity|].
  intros (msg & details & H). vm_compute in H. discriminate.
Qed.

(* ===================================================================== *)
(** ** The event loop *)
(* ===================================================================== *)

Section LoopProofs.
Context `{P : Platform} {A : Type}.
Implicit Types (coros : list (M A)) (s : loop_state A) (ts : list (task_state A)).

(** Replacing one element changes a count by the difference of the two
    elements' contributions. *)
Lemma count_insert {B} (f : B -> bool) (l : list B) (i : nat) (x y : B) :
  l !! i = Some x ->
  (List.length (List.filter f (<[i := y]> l)) + (if f x then 1 else 0)
   = List.length (List.filter f l) + (if f y then 1 else 0))%nat.
Proof.
  revert i. induction l as [|a l IH]; intros [|i] H; simpl in *; try discriminate.
  - injection H as ->. destruct (f x), (f y); simpl; lia.
  - specialize (IH i H). destruct (f a); simpl; lia.
Qed.

Lemma count_replicate_false {B} (f : B -> bool) (x : B) (n : nat) :
  f x = false -> List.filter f (replicate n x) = [].
Proof. intros H. induction n; simpl; [done|]. by rewrite H. Qed.

Lemma loop_init_inv (value : Z) coros :
  loop_inv value coros (loop_init value coros).
Proof.
  split; simpl.
  - apply length_replicate.
  - intros i r H. apply lookup_replicate in H as [? _]. discriminate.
  - unfold in_flight. simpl. rewrite count_replicate_false by done. simpl. lia.
  - done.
Qed.

Lemma loop_step_inv (value : Z) coros s ev s' :
  loop_inv value coros s ->
  loop_step coros s ev = Some s' ->
  loop_inv value coros s'.
Proof.
  intros [Hlen Hdone Hval Hnn] Hstep.
  destruct ev as [i|i]; simpl in Hstep;
    destruct (tasks s !! i) as [[| |r]|] eqn:Hi; try discriminate;
    destruct (coros !! i) as [c|] eqn:Hc; try discriminate.
  - destruct (0 <? sem_value s) eqn:Hpos; [|discriminate].
    apply Z.ltb_lt in Hpos. injection Hstep as <-.
    split; simpl.
    + by rewrite length_insert.
    + intros j r Hj. apply list_lookup_insert_Some in Hj as [(_ & ? & _)|[_ Hj]];
        [discriminate|eauto].
    + pose proof (count_insert is_in_flight _ i _ InFlight Hi) as Hc'.
      unfold in_flight in *. simpl in *. lia.
    + intros Hv. specialize (Hnn Hv). lia.
  - injection Hstep as <-.
    split; simpl.
    + by rewrite length_insert.
    + intros j r Hj. apply list_lookup_insert_Some in Hj as [(<- & Hr & _)|[_ Hj]];
        [|eauto].
      injection Hr as <-. eauto.
    + pose proof (count_insert is_in_flight _ i _ (Done (outcome_of c)) Hi) as Hc'.
      unfold in_flight in *. simpl in *. lia.
    + intros Hv. specialize (Hnn Hv). lia.
Qed.

Lemma loop_run_inv (value : Z) coros (schedule : list loop_event) :
  forall s s',
  loop_inv value coros s ->
  loop_run coros s schedule = Some s' ->
  loop_inv value coros s'.
Proof.
  induction schedule as [|ev rest IH]; intros s s' Hinv Hrun; simpl in Hrun.
  - by injection Hrun as <-.
  - destruct (loop_step coros s ev) as [s1|] eqn:Hstep; [|discriminate].
    eapply IH; [|exact Hrun]. eapply loop_step_inv; eauto.
Qed.



(** With the semaphore at zero no task is admitted. *)
Lemma loop_step_admit_blocked coros s (i : nat) :
  sem_value s <= 0 -> loop_step coros s (Admit i) = None.
Proof.
  intros H. simpl.
  destruct (tasks s !! i) as [[| |r]|]; try done.
  destruct (coros !! i); [|done].
  destruct (0 <? sem_value s) eqn:E; [|done].
  apply Z.ltb_lt in E. lia.
Qed.

(** A waiting task is admitted as soon as the semaphore is positive. *)
Lemma loop_step_admit_enabled (value : Z) coros s (i : nat) :
  loop_inv value coros s ->
  tasks s !! i = Some Queued ->
  0 < sem_value s ->
  is_Some (loop_step coros s (Admit i)).
Proof.
  intros [Hlen _ _ _] Hi Hpos. simpl. rewrite Hi.
  assert (Hlt : (i < List.length coros)%nat)
    by (rewrite <- Hlen; by apply lookup_lt_Some in Hi).
  apply lookup_lt_is_Some_2 in Hlt as [c ->].
  destruct (0 <? sem_value s) eqn:E; [eauto|].
  apply Z.ltb_ge in E. lia.
Qed.

Lemma task_results_done ts (rs : list (result A)) :
  task_results ts = Some rs -> ts = Done <$> rs.
Proof.
  revert rs. induction ts as [|[| |r] ts IH]; intros rs H; simpl in H;
    try discriminate.
  - by injection H as <-.
  - destruct (task_results ts) as [rs'|]; [|discriminate].
    injection H as <-. simpl. f_equal. by apply IH.
Qed.

Lemma task_results_fmap (rs : list (result A)) :
  task_results (Done <$> rs) = Some rs.
Proof.
  induction rs as [|r rs IH]; [done|].
  rewrite fmap_cons. cbn [task_results]. by rewrite IH.
Qed.

(** [gather] returns the outcomes of the coroutines in the order of the
    coroutines, whatever the order in which they completed. *)
Lemma gather_results (value : Z) coros (schedule : list loop_event)
    (t : list (call float)) (rs : list (result A)) :
  gather value coros schedule = Some (t, rs) ->
  rs = outcome_of <$> coros.
Proof.
  unfold gather.
  destruct (loop_run coros (loop_init value coros) schedule) as [s|] eqn:Hrun;
    [|discriminate].
  destruct (task_results (tasks s)) as [rs'|] eqn:Hts; [|discriminate].
  intros [= <- <-].
  destruct (loop_run_inv value coros schedule _ _ (loop_init_inv _ _) Hrun)
    as [Hlen Hdone _ _].
  apply task_results_done in Hts.
  rewrite Hts, length_fmap in Hlen.
  apply list_eq. intros i. rewrite list_lookup_fmap.
  destruct (rs' !! i) as [r|] eqn:Hr.
  - destruct (Hdone i r) as (c & Hc & ->).
    + by rewrite Hts, list_lookup_fmap, Hr.
    + by rewrite Hc.
  - apply lookup_ge_None in Hr.
    rewrite (proj2 (lookup_ge_None coros i)); [done|lia].
Qed.

(** Running the tasks one after the other from a state in which the first
    tasks are done and the others wait. *)
Lemma loop_run_sequential (value : Z) coros :
  0 < value ->
  forall (rest : list (M A)) ts (p : list (call float)),
  (forall j c, rest !! j = Some c ->
               coros !! (List.length ts + j)%nat = Some c) ->
  loop_run coros
    {| sem_value := value;
       tasks := ts ++ replicate (List.length rest) Queued;
       posted := p |}
    (flat_map (fun i => [Admit i; Complete i])
       (seq (List.length ts) (List.length rest)))
  = Some {| sem_value := value;
            tasks := ts ++ ((fun c => Done (outcome_of c)) <$> rest);
            posted := p ++ concat (trace_of <$> rest) |}.
Proof.
  intros Hv rest.
  induction rest as [|c rest IH]; intros ts p Hco.
  - simpl. by rewrite !app_nil_r.
  - assert (Hc : coros !! List.length ts = Some c).
    { rewrite <- (Nat.add_0_r (List.length ts)). by apply Hco. }
    cbn [List.length seq flat_map app replicate loop_run].
    cbn [loop_step tasks sem_value posted].
    rewrite list_lookup_middle by done. rewrite Hc.
    destruct (0 <? value) eqn:E; [|apply Z.ltb_ge in E; lia].
    cbn [loop_step tasks sem_value posted].
    rewrite insert_app_r_alt by lia. rewrite Nat.sub_diag. cbn [insert list_insert].
    rewrite list_lookup_middle by done.
    rewrite insert_app_r_alt by lia. rewrite Nat.sub_diag. cbn [insert list_insert].
    replace (value - 1 + 1) with value by lia.
    specialize (IH (ts ++ [Done (outcome_of c)]) (p ++ trace_of c)).
    rewrite length_app in IH. simpl in IH.
    rewrite Nat.add_1_r in IH.
    replace (ts ++ Done (outcome_of c) :: replicate (List.length rest) Queued)
      with ((ts ++ [Done (outcome_of c)]) ++ replicate (List.length rest) Queued)
      by (by rewrite <- app_assoc).
    rewrite IH.
    + rewrite !fmap_cons. simpl. by rewrite <- !app_assoc.
    + intros j c' Hj. specialize (Hco (S j) c' Hj).
      by rewrite Nat.add_succ_r in Hco.
Qed.

(** With at least one permit the sequential schedule brings every task to
    its end: [gather] returns. *)
Lemma gather_sequential (value : Z) coros :
  0 < value ->
  gather value coros (sequential_schedule (List.length coros))
  = Some (concat (trace_of <$> coros), outcome_of <$> coros).
Proof.
  intros Hv. unfold gather, sequential_schedule, loop_init.
  pose proof (loop_run_sequential value coros Hv coros [] []) as H.
  simpl in H. rewrite H by done. simpl.
  assert (Heq : ((fun c : M A => Done (outcome_of c)) <$> coros)
                = Done <$> (outcome_of <$> coros))
    by (by rewrite <- list_fmap_compose).
  by rewrite Heq, task_results_fmap.
Qed.

End LoopProofs.

(* ===================================================================== *)
(** ** One page, and the batch *)
(* ===================================================================== *)

Section DispatchProofs.
Context `{P : Platform}.

Lemma outcome_try {A} (m : M A) (h : py_exc -> M A) :
  outcome_of (try_except m h)
  = match outcome_of m with
    | Ok a => Ok a
    | Raise e => outcome_of (h e)
    end.
Proof. destruct m as [t [a|e]]; simpl; [done|]. by destruct (h e). Qed.

Lemma outcome_bind {A B} (m : M A) (k : A -> M B) :
  outcome_of (bind m k)
  = match outcome_of m with
    | Ok a => outcome_of (k a)
    | Raise e => Raise e
    end.
Proof. destruct m as [t [a|e]]; simpl; [|done]. by destruct (k a). Qed.

(** Evaluate the outcome of a sequence of calls step by step. *)
Ltac outcome_steps :=
  repeat (rewrite ?outcome_bind;
          cbn [outcome_of snd lift raise ret session_post];
          cbv beta iota).

(** Whatever reaches the handlers of [process_image] leaves as an
    [APICallError] with a message that is not empty. *)
Lemma process_image_handler_shape (self : OpenAIClient) (e : py_exc) :
  exists msg,
    outcome_of (process_image_handler self e)
    = Raise (ExcPDF APICallError msg None)
    /\ msg <> "".
Proof. destruct e; eexists; (split; [reflexivity|discriminate]). Qed.

(** [process_image] raises nothing but [APICallError]. *)
Lemma process_image_raise_shape (self : OpenAIClient) (image_data : list byte)
    (page_num : Z) (md : ProcessingMetadata float) (ev : http_event float)
    (e : py_exc) :
  outcome_of (process_image self image_data page_num md ev) = Raise e ->
  exists msg, e = ExcPDF APICallError msg None /\ msg <> "".
Proof.
  unfold process_image. rewrite outcome_try.
  match goal with |- context [outcome_of (bind ?m ?k)] =>
    destruct (outcome_of (bind m k)) as [a|e0] end; [discriminate|].
  destruct (process_image_handler_shape self e0) as (msg & -> & Hne).
  intros [= <-]. eauto.
Qed.

(** A per-page error makes [process_image] raise. *)
Lemma process_image_error_raises (self : OpenAIClient) (image_data : list byte)
    (page_num : Z) (md : ProcessingMetadata float) (ev : http_event float) :
  is_page_error ev = true ->
  exists e, outcome_of (process_image self image_data page_num md ev) = Raise e.
Proof.
  intros Herr. unfold process_image. rewrite outcome_try.
  match goal with |- context [outcome_of (bind ?m ?k)] =>
    assert (Hin : exists e0, outcome_of (bind m k) = Raise e0) end.
  { destruct ev as [|msg|status [body|e] elapsed]; outcome_steps; eauto.
    simpl in Herr. rewrite orb_false_r in Herr. rewrite Herr.
    outcome_steps.
    destruct (py_get body "error" (JObj [])) as [err|e]; outcome_steps; eauto.
    destruct (py_get err "message" _) as [v|e]; outcome_steps; eauto. }
  destruct Hin as [e0 ->].
  destruct (process_image_handler_shape self e0) as (msg & -> & _). eauto.
Qed.

(** A page that comes back without an error carries the metadata of
    [process_image]'s success path: the page's own fields, the summed time,
    and the two entries added to [additional_data]. *)
Lemma process_image_ok_shape (self : OpenAIClient) (image_data : list byte)
    (page_num : Z) (md : ProcessingMetadata float) (ev : http_event float)
    (response_data : json float) (updated : ProcessingMetadata float) :
  outcome_of (process_image self image_data page_num md ev)
    = Ok (response_data, updated) ->
  exists t elapsed tokens,
    processing_time md = Some t
    /\ updated
       = {| confidence_score := confidence_score md;
            processing_time := Some (fadd t elapsed);
            image_dimensions := image_dimensions md;
            file_size := file_size md;
            additional_data :=
              Some (<["api_response_tokens" := tokens]>
                      (<["api_processing_time" := JFloat elapsed]>
                         (default ∅ (additional_data md)))) |}
    /\ exists members, response_data = JObj members.
Proof.
  unfold process_image. rewrite outcome_try.
  match goal with |- context [outcome_of (bind ?m ?k)] =>
    destruct (outcome_of (bind m k)) as [[r u]|e0] eqn:Hin end.
  2:{ destruct (process_image_handler_shape self e0) as (? & -> & _).
      discriminate. }
  intros [= <- <-]. revert Hin.
  destruct ev as [|msg|status [body|e] elapsed]; outcome_steps; try discriminate.
  destruct (negb (status =? 200)); outcome_steps.
  - destruct (py_get body "error" (JObj [])) as [err|e]; outcome_steps;
      [|discriminate].
    destruct (py_get err "message" _) as [v|e]; outcome_steps; discriminate.
  - destruct (processing_time md) as [t|]; outcome_steps; [|discriminate].
    destruct (py_get body "usage" (JObj [])) as [usage|e] eqn:Hu; outcome_steps;
      [|discriminate].
    destruct (py_get usage "total_tokens" _) as [tokens|e]; outcome_steps;
      [|discriminate].
    intros [= <- <-]. exists t, elapsed, tokens. split; [done|]. split; [done|].
    destruct body; try discriminate. eauto.
Qed.

Lemma single_page_outcome (self : OpenAIClient) (page_num : Z)
    (image_data : list byte) (md : ProcessingMetadata float)
    (ev : http_event float) :
  outcome_of (_process_single_page self page_num image_data md ev)
  = match outcome_of (process_image self image_data page_num md ev) with
    | Ok (api_response, updated) => Ok (page_num, api_response, updated)
    | Raise e => Raise e
    end.
Proof.
  unfold _process_single_page. rewrite outcome_try, outcome_bind.
  destruct (outcome_of (process_image _ _ _ _ _)) as [[r u]|e]; reflexivity.
Qed.

(** The outcome of a page keeps the page's number; an outcome with an error
    keeps the page's metadata and has an empty output. *)
Lemma page_outcome_number (self : OpenAIClient) (ev : http_event float)
    (page : page_tuple) :
  batch_page_number (page_outcome self ev page) = page_index page.
Proof.
  destruct page as [[n img] md]. unfold page_outcome.
  rewrite single_page_outcome.
  by destruct (outcome_of (process_image _ _ _ _ _)) as [[r u]|e].
Qed.

Lemma page_outcome_error (self : OpenAIClient) (ev : http_event float)
    (page : page_tuple) (msg : string) :
  batch_error (page_outcome self ev page) = Some msg ->
  msg <> ""
  /\ page_outcome self ev page
     = (page_index page, JObj [], page_metadata page, Some msg).
Proof.
  destruct page as [[n img] md]. unfold page_outcome.
  rewrite single_page_outcome.
  destruct (outcome_of (process_image _ _ _ _ _)) as [[r u]|e] eqn:E;
    [discriminate|].
  apply process_image_raise_shape in E as (m & -> & Hne).
  simpl. by intros [= <-].
Qed.

Lemma page_outcome_of_error (self : OpenAIClient) (ev : http_event float)
    (page : page_tuple) :
  is_page_error ev = true ->
  exists msg,
    msg <> ""
    /\ page_outcome self ev page
       = (page_index page, JObj [], page_metadata page, Some msg).
Proof.
  intros Herr. destruct page as [[n img] md].
  destruct (process_image_error_raises self img n md ev Herr) as [e He].
  pose proof He as He'.
  apply process_image_raise_shape in He' as (msg & -> & Hne).
  exists msg. split; [done|].
  unfold page_outcome. by rewrite single_page_outcome, He.
Qed.

Lemma page_outcome_success (self : OpenAIClient) (ev : http_event float)
    (page : page_tuple) :
  batch_error (page_outcome self ev page) = None ->
  exists members d,
    batch_output (page_outcome self ev page) = JObj members
    /\ additional_data (batch_metadata (page_outcome self ev page)) = Some d
    /\ is_Some (d !! "api_processing_time").
Proof.
  destruct page as [[n img] md]. unfold page_outcome.
  rewrite single_page_outcome.
  destruct (outcome_of (process_image _ _ _ _ _)) as [[r u]|e] eqn:E;
    [|discriminate].
  intros _.
  apply process_image_ok_shape in E as (t & el & tok & _ & -> & members & ->).
  exists members. eexists. split; [done|]. split; [reflexivity|].
  rewrite lookup_insert_ne by done. rewrite lookup_insert_eq. eauto.
Qed.

(** The result loop of [process_batch] on the outcomes of the coroutines:
    it never indexes out of range, and yields one [page_outcome] per page. *)
Lemma handle_results_spec (self : OpenAIClient) (net : nat -> http_event float)
    (pages_data : list page_tuple) :
  forall (rest : list page_tuple) (i : nat) (acc : list batch_result),
  (forall j p, rest !! j = Some p -> pages_data !! (i + j)%nat = Some p) ->
  handle_results pages_data
    (outcome_of <$>
       imap (fun j (page : page_tuple) =>
               match page with
               | (page_num, image_data, md) =>
                   _process_single_page self page_num image_data md (net (i + j)%nat)
               end) rest)
    i acc
  = Ok (acc ++ imap (fun j page => page_outcome self (net (i + j)%nat) page) rest).
Proof.
  induction rest as [|page rest IH]; intros i acc Hpages.
  - simpl. by rewrite app_nil_r.
  - rewrite !imap_cons, fmap_cons. cbn [handle_results].
    assert (Hi : pages_data !! i = Some page).
    { rewrite <- (Nat.add_0_r i). by apply Hpages. }
    unfold page_tuple in *. rewrite Hi. rewrite Nat.add_0_r.
    assert (Hrest : forall j p, rest !! j = Some p ->
                                pages_data !! (S i + j)%nat = Some p).
    { intros j p Hj. specialize (Hpages (S j) p Hj).
      by rewrite Nat.add_succ_r in Hpages. }
    rewrite (imap_ext _ (fun j (page : page_tuple) =>
               match page with
               | (page_num, image_data, md) =>
                   _process_single_page self page_num image_data md
                     (net (S i + j)%nat)
               end)).
    2:{ intros j [[n' img'] md'] _. simpl. by rewrite Nat.add_succ_r. }
    rewrite (imap_ext (_ ∘ S)
               (fun j page => page_outcome self (net (S i + j)%nat) page)).
    2:{ intros j p _. simpl. by rewrite Nat.add_succ_r. }
    destruct page as [[n img] md].
    assert (Hhead : page_outcome self (net i) (n, img, md)
                    = match outcome_of (_process_single_page self n img md (net i)) with
                      | Ok (n', r, u) => (n', r, u, None)
                      | Raise e => (n, JObj [], md, Some (exc_str e))
                      end) by reflexivity.
    rewrite Hhead.
    destruct (outcome_of (_process_single_page self n img md (net i)))
      as [[[n' r] u]|e];
      rewrite (IH (S i) _ Hrest), <- app_assoc; reflexivity.
Qed.

(** [process_batch] never raises: when it returns, its value is the list of
    the pages' outcomes, position by position. *)
Lemma process_batch_outcome (self : OpenAIClient) (net : nat -> http_event float)
    (schedule : list loop_event) (pages_data : list page_tuple)
    (m : M (list batch_result)) :
  process_batch self net schedule pages_data = Some m ->
  outcome_of m
  = Ok (imap (fun i page => page_outcome self (net i) page) pages_data).
Proof.
  unfold process_batch.
  destruct (gather _ _ _) as [[t rs]|] eqn:Hg; [|discriminate].
  intros [= <-]. apply gather_results in Hg. subst rs. simpl.
  unfold batch_coros.
  apply (handle_results_spec self net pages_data pages_data 0 []). done.
Qed.

Lemma length_batch_coros (self : OpenAIClient) (net : nat -> http_event float)
    (pages_data : list page_tuple) :
  List.length (batch_coros self net pages_data) = List.length pages_data.
Proof. apply length_imap. Qed.

(** With at least one permit, [process_batch] returns under the sequential
    schedule. *)
Lemma process_batch_sequential (self : OpenAIClient)
    (net : nat -> http_event float) (pages_data : list page_tuple) :
  0 < semaphore self ->
  exists t,
    process_batch self net (sequential_schedule (List.length pages_data))
      pages_data
    = Some (t, Ok (imap (fun i page => page_outcome self (net i) page)
                     pages_data)).
Proof.
  intros Hv. unfold process_batch.
  pose proof (gather_sequential (semaphore self)
                (batch_coros self net pages_data) Hv) as Hg.
  rewrite length_batch_coros in Hg. rewrite Hg.
  eexists. f_equal. f_equal.
  apply (handle_results_spec self net pages_data pages_data 0 []). done.
Qed.

Lemma imap_lookup_outcome (self : OpenAIClient) (net : nat -> http_event float)
    (pages_data : list page_tuple) (i : nat) :
  imap (fun i page => page_outcome self (net i) page) pages_data !! i
  = page_outcome self (net i) <$> pages_data !! i.
Proof.
  exact (list_lookup_imap (fun i page => page_outcome self (net i) page)
           pages_data i).
Qed.

Lemma outcome_lookup (self : OpenAIClient) (net : nat -> http_event float)
    (pages_data : list page_tuple) (i : nat) (page : page_tuple) :
  pages_data !! i = Some page ->
  imap (fun i page => page_outcome self (net i) page) pages_data !! i
  = Some (page_outcome self (net i) page).
Proof. intros Hi. etrans; [apply imap_lookup_outcome|]. by rewrite Hi. Qed.

Lemma outcome_lookup_inv (self : OpenAIClient) (net : nat -> http_event float)
    (pages_data : list page_tuple) (i : nat) (r : batch_result) :
  imap (fun i page => page_outcome self (net i) page) pages_data !! i = Some r ->
  exists page, pages_data !! i = Some page /\ r = page_outcome self (net i) page.
Proof.
  intros Hr.
  assert (H : page_outcome self (net i) <$> pages_data !! i = Some r)
    by (etrans; [symmetry; apply imap_lookup_outcome|exact Hr]).
  destruct (pages_data !! i) as [page|]; [|discriminate].
  injection H as <-. eauto.
Qed.

End DispatchProofs.

(* ===================================================================== *)
(** ** Aggregation and the endpoint *)
(* ===================================================================== *)

Section AggregationProofs.
Context `{P : Platform}.

Lemma list_fmap_map {A B} (f : A -> B) (l : list A) : f <$> l = map f l.
Proof. induction l as [|a l IH]; [done|]. rewrite fmap_cons. simpl. by f_equal. Qed.

Lemma forallb_negb_filter {A} (f : A -> bool) (l : list A) :
  forallb (fun x => negb (f x)) l = (List.length (List.filter f l) =? 0)%nat.
Proof. induction l as [|a l IH]; [done|]. simpl. by destruct (f a). Qed.

Lemma mk_PageResult_inv (page_num : Z) (output : json float)
    (md : ProcessingMetadata float) (err : option string) (r : PageResult float) :
  mk_PageResult page_num output md err = Ok r ->
  page_number r = page_num /\ metadata r = Some md /\ error r = err
  /\ 1 <= page_num /\ output = JObj (processed_output r).
Proof.
  unfold mk_PageResult. destruct (page_num <? 1) eqn:E; [discriminate|].
  apply Z.ltb_ge in E. destruct output; try discriminate.
  intros [= <-]. simpl. auto.
Qed.

Lemma truthy_inv (error : option string) :
  truthy error = true -> exists msg, error = Some msg /\ msg <> "".
Proof. destruct error as [[|c s]|]; try discriminate. eauto. Qed.

(** The loop of [process_pdf]: one page result per batch result, in order,
    with the page number and the metadata of the batch result; a page result
    is a failure exactly when the batch result's error is a string that is
    not empty; [errors] gets one line per failure and [processed_count] one
    unit per success. *)
Lemma build_results_spec (api_results : list batch_result) :
  forall (results0 : list (PageResult float)) (errors0 : list string) (count0 : Z)
         (results : list (PageResult float)) (errs : list string) (count : Z),
  build_results api_results results0 errors0 count0 = Ok (results, errs, count) ->
  exists new,
    results = results0 ++ new
    /\ page_number <$> new = batch_page_number <$> api_results
    /\ metadata <$> new = (fun a => Some (batch_metadata a)) <$> api_results
    /\ is_failure <$> new = (fun a => truthy (batch_error a)) <$> api_results
    /\ errs = errors0 ++ map error_line (List.filter is_failure new)
    /\ count = count0
         + Z.of_nat (List.length (List.filter (fun r => negb (is_failure r)) new)).
Proof.
  induction api_results as [|[[[n out] md] err] rest IH];
    intros results0 errors0 count0 results errs count H.
  - injection H as <- <- <-. exists []. rewrite !app_nil_r. simpl.
    repeat split; try done. lia.
  - cbn [build_results] in H. destruct (truthy err) eqn:Ht.
    + destruct (mk_PageResult n (JObj []) md err) as [r|e] eqn:Hr; [|discriminate].
      apply IH in H as (new & -> & Hn & Hm & Hf & -> & ->).
      apply mk_PageResult_inv in Hr as (Hrn & Hrm & Hre & _ & _).
      destruct (truthy_inv _ Ht) as (msg & Herr & Hne).
      assert (Hfail : is_failure r = true)
        by (unfold is_failure; by rewrite Hre, Herr).
      exists (r :: new). rewrite !fmap_cons, Hn, Hm, Hf, Hrn, Hrm.
      cbn [List.filter map]. rewrite Hfail. cbn [negb map].
      repeat split.
      * by rewrite <- app_assoc.
      * simpl. by rewrite Ht.
      * rewrite <- app_assoc. cbn [app]. do 2 f_equal.
        unfold error_line. by rewrite Hrn, Hre.
    + destruct (mk_PageResult n out md None) as [r|e] eqn:Hr; [|discriminate].
      apply IH in H as (new & -> & Hn & Hm & Hf & -> & ->).
      apply mk_PageResult_inv in Hr as (Hrn & Hrm & Hre & _ & _).
      assert (Hfail : is_failure r = false) by (unfold is_failure; by rewrite Hre).
      exists (r :: new). rewrite !fmap_cons, Hn, Hm, Hf, Hrn, Hrm.
      cbn [List.filter map]. rewrite Hfail. cbn [negb List.length].
      repeat split.
      * by rewrite <- app_assoc.
      * simpl. by rewrite Ht.
      * lia.
Qed.

Lemma outcome_prepend {A} (t : list (call float)) (m : M A) :
  outcome_of (let '(t', r) := m in (t ++ t', r)) = outcome_of m.
Proof. by destruct m. Qed.

Lemma process_pdf_handler_raises {A} (e : py_exc) :
  exists e', outcome_of (process_pdf_handler (A := A) e) = Raise e'.
Proof. destruct e; simpl; eauto. Qed.

Lemma process_pdf_pages_inv (st : Settings) (filename : string)
    (file : list byte) (pages_data : list page_tuple) :
  outcome_of (process_pdf_pages st filename file) = Ok pages_data ->
  outcome_of (process_pdf_stream st file) = Ok pages_data /\ pages_data <> [].
Proof.
  unfold process_pdf_pages. rewrite outcome_bind.
  destruct (negb (endswith (str_lower filename) ".pdf")); [discriminate|].
  cbn [outcome_of ret snd]. rewrite outcome_bind.
  destruct (outcome_of (process_pdf_stream st file)) as [[|p l]|e];
    try discriminate.
  intros [= <-]. done.
Qed.

(** When the endpoint returns a report, the upload passed validation and
    extraction, every page went through the batch, and the report is built
    from the batch results by the loop of the endpoint. *)
Lemma process_pdf_ok (st : Settings) (client : OpenAIClient)
    (net : nat -> http_event float) (schedule : list loop_event)
    (elapsed : float) (filename : string) (file : list byte)
    (m : M (PDFProcessResponse float)) (report : PDFProcessResponse float) :
  process_pdf st client net schedule elapsed filename file = Some m ->
  outcome_of m = Ok report ->
  exists pages_data rs errs count,
    outcome_of (process_pdf_stream st file) = Ok pages_data
    /\ pages_data <> []
    /\ build_results
         (imap (fun i page => page_outcome client (net i) page) pages_data)
         [] [] 0 = Ok (rs, errs, count)
    /\ report
       = {| success := (List.length errs =? 0)%nat;
            total_pages := Z.of_nat (List.length pages_data);
            processed_pages := count;
            results := rs;
            response_processing_time := elapsed;
            errors := match errs with [] => None | _ => Some errs end |}.
Proof.
  unfold process_pdf.
  destruct (process_pdf_pages st filename file) as [t [pages_data|e]] eqn:Hp.
  - destruct (process_batch client net schedule pages_data) as [batch|] eqn:Hb;
      [|discriminate].
    intros [= <-]. apply process_batch_outcome in Hb.
    rewrite outcome_try, outcome_prepend, outcome_bind, Hb.
    unfold process_pdf_response. rewrite outcome_bind. cbn [lift outcome_of snd].
    destruct (build_results _ [] [] 0) as [[[rs errs] count]|e] eqn:Hbuild.
    + cbn [ret outcome_of snd]. intros [= <-].
      assert (Hp' : outcome_of (process_pdf_pages st filename file) = Ok pages_data)
        by (by rewrite Hp).
      apply process_pdf_pages_inv in Hp' as [Hs Hne].
      exists pages_data, rs, errs, count. auto.
    + destruct (process_pdf_handler_raises (A := PDFProcessResponse float) e)
        as [e' ->]. discriminate.
  - intros [= <-]. rewrite outcome_prepend.
    destruct (process_pdf_handler_raises (A := PDFProcessResponse float) e)
      as [e' ->]. discriminate.
Qed.

Lemma imap_page_numbers (self : OpenAIClient) (net : nat -> http_event float)
    (pages_data : list page_tuple) :
  batch_page_number <$> imap (fun i page => page_outcome self (net i) page) pages_data
  = page_index <$> pages_data.
Proof.
  apply list_eq. intros i.
  rewrite !list_lookup_fmap, imap_lookup_outcome.
  destruct (pages_data !! i) as [p|]; [|done].
  simpl. f_equal. apply page_outcome_number.
Qed.

Lemma trace_try {A} (m : M A) (h : py_exc -> M A) :
  trace_of (try_except m h)
  = trace_of m ++ match outcome_of m with
                  | Ok _ => []
                  | Raise e => trace_of (h e)
                  end.
Proof.
  destruct m as [t [a|e]]; simpl; [by rewrite app_nil_r|]. by destruct (h e).
Qed.

Lemma trace_bind {A B} (m : M A) (k : A -> M B) :
  trace_of (bind m k)
  = trace_of m ++ match outcome_of m with
                  | Ok a => trace_of (k a)
                  | Raise _ => []
                  end.
Proof.
  destruct m as [t [a|e]]; simpl; [|by rewrite app_nil_r]. by destruct (k a).
Qed.

Lemma trace_bind_silent {A B} (m : M A) (k : A -> M B) :
  trace_of m = [] -> (forall a, trace_of (k a) = []) -> trace_of (bind m k) = [].
Proof.
  intros Hm Hk. rewrite trace_bind, Hm.
  destruct (outcome_of m); [apply Hk|done].
Qed.

(** Show that a sequence of calls leaves no trace. *)
Ltac silent :=
  repeat first
    [ reflexivity
    | apply trace_bind_silent; [|intros]
    | match goal with
      | |- trace_of (if ?b then _ else _) = [] => destruct b
      | |- trace_of (match ?x with _ => _ end) = [] => destruct x
      end ].

Lemma process_image_handler_trace (self : OpenAIClient) (e : py_exc) :
  trace_of (process_image_handler self e) = [].
Proof. by destruct e. Qed.

(** Every call of [process_image] posts exactly one request: the payload of
    [request_payload] with the headers of [request_headers]. *)
Lemma process_image_trace (self : OpenAIClient) (image_data : list byte)
    (page_num : Z) (md : ProcessingMetadata float) (ev : http_event float) :
  trace_of (process_image self image_data page_num md ev)
  = [CallPost (api_url self) (request_payload self image_data)
       (request_headers self)].
Proof.
  unfold process_image. rewrite trace_try.
  match goal with |- _ ++ ?handled = _ =>
    assert (Hh : handled = []) end.
  { match goal with |- match ?o with _ => _ end = _ => destruct o end;
      [done|apply process_image_handler_trace]. }
  rewrite Hh, app_nil_r, trace_bind. cbn [trace_of fst session_post].
  match goal with |- _ ++ ?rest = _ => assert (Hr : rest = []) end.
  { match goal with |- match ?o with _ => _ end = _ => destruct o as [[[status body] elapsed]|] end;
      [|done].
    silent. }
  by rewrite Hr.
Qed.

End AggregationProofs.

(* ===================================================================== *)
(** ** The pipeline returns *)
(* ===================================================================== *)

Section TotalityProofs.
Context `{P : Platform}.

Lemma validate_pdf_ok (st : Settings) (content : list byte)
    (doc : list (fitz_page float)) :
  len content <= max_file_size st ->
  fitz_open content = Ok doc ->
  doc <> [] ->
  outcome_of (validate_pdf st content) = Ok tt.
Proof.
  intros Hlen Hopen Hne. unfold validate_pdf.
  destruct (len content >? max_file_size st) eqn:E.
  { rewrite Z.gtb_ltb in E. apply Z.ltb_lt in E. lia. }
  rewrite outcome_try, outcome_bind, outcome_open_pdf, Hopen.
  destruct doc as [|page rest]; [done|].
  unfold page_count. cbn [List.length].
  destruct (Z.of_nat (S (List.length rest)) =? 0) eqn:E0; [|done].
  apply Z.eqb_eq in E0. lia.
Qed.

Lemma process_pdf_stream_ok (st : Settings) (file : list byte)
    (doc : list (fitz_page float)) :
  len file <= max_file_size st ->
  fitz_open file = Ok doc ->
  doc <> [] ->
  Forall (renders (PDFProcessor_init st)) doc ->
  exists pages_data,
    outcome_of (process_pdf_stream st file) = Ok pages_data
    /\ List.length pages_data = List.length doc
    /\ map page_index pages_data = map Z.of_nat (seq 1 (List.length doc)).
Proof.
  intros Hlen Hopen Hne Hall.
  destruct (extract_loop_ok _ _ Hall 0 []) as (new & Hloop & _).
  assert (Hx : outcome_of (extract_pages_as_images st file) = Ok new).
  { unfold extract_pages_as_images. apply outcome_try_ok.
    rewrite (outcome_bind_ok _ _ doc); [exact Hloop|exact Hopen]. }
  exists new.
  assert (Hs : outcome_of (process_pdf_stream st file) = Ok new).
  { unfold process_pdf_stream. rewrite read_file_async_id. cbv zeta.
    apply outcome_try_ok.
    rewrite (outcome_bind_ok _ _ tt); [exact Hx|].
    by apply (validate_pdf_ok st file doc). }
  split; [exact Hs|].
  apply extract_pages_inv in Hx as (doc' & Hopen' & Hl & Hi).
  rewrite Hopen in Hopen'. injection Hopen' as <-. done.
Qed.

(** The loop of the endpoint returns when every page number is at least one
    and every batch result without a usable error carries a dictionary. *)
Lemma build_results_total (api_results : list batch_result) :
  Forall (fun a => 1 <= batch_page_number a
                   /\ (truthy (batch_error a) = false ->
                       exists members, batch_output a = JObj members))
         api_results ->
  forall results0 errors0 count0,
  exists r, build_results api_results results0 errors0 count0 = Ok r.
Proof.
  induction 1 as [|[[[n out] md] err] rest [Hn Hout] _ IH];
    intros results0 errors0 count0.
  - simpl. eauto.
  - cbn [build_results]. unfold batch_page_number, batch_error, batch_output in *.
    simpl in Hn, Hout. unfold mk_PageResult.
    destruct (n <? 1) eqn:E; [apply Z.ltb_lt in E; lia|].
    destruct (truthy err); [apply IH|].
    destruct Hout as [members ->]; [done|]. apply IH.
Qed.

Lemma page_outcome_buildable (self : OpenAIClient) (ev : http_event float)
    (page : page_tuple) :
  truthy (batch_error (page_outcome self ev page)) = false ->
  exists members, batch_output (page_outcome self ev page) = JObj members.
Proof.
  intros Ht.
  destruct (batch_error (page_outcome self ev page)) as [msg|] eqn:E.
  - apply page_outcome_error in E as [Hne _].
    destruct msg; [done|discriminate].
  - apply page_outcome_success in E as (members & _ & Hm & _). eauto.
Qed.

(** A document within the size limit that opens with at least one page, all
    of which render, uploaded under a name ending in [.pdf] to a client with
    at least one permit: the endpoint returns a report. *)
Theorem pipeline_returns_report (st : Settings) (client : OpenAIClient)
    (net : nat -> http_event float) (elapsed : float) (filename : string)
    (file : list byte) (doc : list (fitz_page float)) :
  0 < semaphore client ->
  endswith (str_lower filename) ".pdf" = true ->
  len file <= max_file_size st ->
  fitz_open file = Ok doc ->
  doc <> [] ->
  Forall (renders (PDFProcessor_init st)) doc ->
  exists m report,
    process_pdf st client net (sequential_schedule (List.length doc)) elapsed
      filename file = Some m
    /\ outcome_of m = Ok report.
Proof.
  intros Hsem Hname Hlen Hopen Hne Hall.
  destruct (process_pdf_stream_ok st file doc Hlen Hopen Hne Hall)
    as (pages_data & Hs & Hl & Hidx).
  assert (Hp : outcome_of (process_pdf_pages st filename file) = Ok pages_data).
  { unfold process_pdf_pages. rewrite Hname. cbn [negb].
    rewrite outcome_bind. cbn [outcome_of ret snd]. rewrite outcome_bind, Hs.
    destruct pages_data; [|done]. destruct doc; [done|discriminate]. }
  unfold process_pdf.
  destruct (process_pdf_pages st filename file) as [t [pages'|e]];
    [|discriminate].
  injection Hp as ->.
  destruct (process_batch_sequential client net pages_data Hsem) as [tb Hb].
  rewrite <- Hl, Hb.
  assert (Hbuild : exists r,
            build_results
              (imap (fun i page => page_outcome client (net i) page) pages_data)
              [] [] 0 = Ok r).
  { apply build_results_total. apply Forall_forall. intros a Ha.
    apply list_elem_of_lookup in Ha as [i Ha].
    apply outcome_lookup_inv in Ha as (page & Hi & ->).
    split; [|apply page_outcome_buildable].
    rewrite page_outcome_number.
    assert (Hk : map page_index pages_data !! i = Some (page_index page))
      by (by rewrite <- list_fmap_map, list_lookup_fmap, Hi).
    rewrite Hidx, <- list_fmap_map, list_lookup_fmap in Hk.
    destruct (seq 1 (List.length doc) !! i) as [k|] eqn:Hseq; [|discriminate].
    apply lookup_seq in Hseq as [-> _]. injection Hk as <-. lia. }
  destruct Hbuild as [[[rs errs] count] Hbuild].
  eexists _, _. split; [reflexivity|].
  rewrite outcome_try, outcome_bind. cbn [outcome_of snd].
  rewrite outcome_bind. cbn [outcome_of snd].
  unfold process_pdf_response. rewrite outcome_bind. cbn [lift outcome_of snd].
  rewrite Hbuild. reflexivity.
Qed.

End TotalityProofs.

(* ===================================================================== *)
(** ** The report, the batch and the semaphore *)
(* ===================================================================== *)

(** C1: when the endpoint returns a report, the document opened with some
    number of pages, the report has exactly one result per page and
    [total_pages] is that number, [success] holds exactly when no result is
    a failure, [processed_pages] counts the results that are not failures,
    and [errors] is absent when no result is a failure and otherwise lists
    one line per failing result, in order. *)
Theorem report_invariant `{P : Platform} (st : Settings) (client : OpenAIClient)
    (net : nat -> http_event float) (schedule : list loop_event)
    (elapsed : float) (filename : string) (file : list byte)
    (m : M (PDFProcessResponse float)) (report : PDFProcessResponse float) :
  process_pdf st client net schedule elapsed filename file = Some m ->
  outcome_of m = Ok report ->
  exists doc,
    fitz_open file = Ok doc
    /\ List.length (results report) = List.length doc
    /\ total_pages report = page_count doc
    /\ success report
       = forallb (fun r => negb (is_failure r)) (results report)
    /\ processed_pages report
       = Z.of_nat (List.length
                     (List.filter (fun r => negb (is_failure r)) (results report)))
    /\ match errors report with
       | None => List.filter is_failure (results report) = []
       | Some lines =>
           lines <> []
           /\ lines = map error_line (List.filter is_failure (results report))
       end.
Proof.
  intros Hrun Hout.
  destruct (process_pdf_ok _ _ _ _ _ _ _ _ _ Hrun Hout)
    as (pages_data & rs & errs & count & Hstream & _ & Hbuild & ->).
  apply process_pdf_stream_inv in Hstream as (doc & Hopen & Hlen & _).
  apply build_results_spec in Hbuild as (new & -> & Hn & _ & _ & -> & ->).
  exists doc. cbn [results total_pages success processed_pages errors app].
  assert (Hlen' : List.length new = List.length doc).
  { apply (f_equal List.length) in Hn.
    rewrite !length_fmap, length_imap in Hn. congruence. }
  repeat split.
  - exact Hopen.
  - exact Hlen'.
  - unfold page_count. by rewrite Hlen.
  - by rewrite forallb_negb_filter, length_map.
  - destruct (List.filter is_failure new) as [|r l]; simpl; [done|].
    split; [discriminate|done].
Qed.

(** The witnesses below run on the sample platform. *)
#[local] Existing Instance Sample.platform.

Lemma report_invariant_witness :
  exists m report,
    process_pdf (P := Sample.platform) Sample.st (Sample.client_of Sample.st)
      Sample.net_timeout_2 Sample.reversed_schedule 100 "scan.PDF" Sample.doc3
    = Some m
    /\ outcome_of m = Ok report
    /\ exists doc,
         Sample.open Sample.doc3 = Ok doc
         /\ List.length (results report) = List.length doc
         /\ total_pages report = page_count (P := Sample.platform) doc
         /\ success report
            = forallb (fun r => negb (is_failure r)) (results report)
         /\ processed_pages report
            = Z.of_nat (List.length
                          (List.filter (fun r => negb (is_failure r))
                             (results report)))
         /\ match errors report with
            | None => List.filter is_failure (results report) = []
            | Some lines =>
                lines <> []
                /\ lines
                   = map error_line (List.filter is_failure (results report))
            end.
Proof.
  eexists _, _. split; [reflexivity|]. split; [reflexivity|].
  eapply (report_invariant (P := Sample.platform) Sample.st
           (Sample.client_of Sample.st) Sample.net_timeout_2
           Sample.reversed_schedule 100 "scan.PDF" Sample.doc3);
    reflexivity.
Defined.



(** The batch keeps the order of its input, whatever the schedule. *)
Lemma process_batch_order `{P : Platform} (self : OpenAIClient)
    (net : nat -> http_event float) (schedule : list loop_event)
    (pages_data : list page_tuple) (m : M (list batch_result)) :
  process_batch self net schedule pages_data = Some m ->
  exists outcomes,
    outcome_of m = Ok outcomes
    /\ map batch_page_number outcomes = map page_index pages_data.
Proof.
  intros Hb. apply process_batch_outcome in Hb.
  eexists. split; [exact Hb|].
  rewrite <- !list_fmap_map. apply imap_page_numbers.
Qed.

(** C3: under every schedule that lets the endpoint return a report, the
    page numbers of the report's results are the page numbers of the
    extracted pages in their order, that is 1, 2, ..., P for a document of P
    pages.  The code does not sort: [gather] hands the outcomes back in the
    order of the tasks, and both loops keep that order. *)
Theorem report_in_page_order `{P : Platform} (st : Settings)
    (client : OpenAIClient) (net : nat -> http_event float)
    (schedule : list loop_event) (elapsed : float) (filename : string)
    (file : list byte) (m : M (PDFProcessResponse float))
    (report : PDFProcessResponse float) :
  process_pdf st client net schedule elapsed filename file = Some m ->
  outcome_of m = Ok report ->
  exists doc pages_data,
    fitz_open file = Ok doc
    /\ outcome_of (process_pdf_stream st file) = Ok pages_data
    /\ map page_number (results report) = map page_index pages_data
    /\ map page_number (results report)
       = map Z.of_nat (seq 1 (List.length doc)).
Proof.
  intros Hrun Hout.
  destruct (process_pdf_ok _ _ _ _ _ _ _ _ _ Hrun Hout)
    as (pages_data & rs & errs & count & Hstream & _ & Hbuild & ->).
  destruct (process_pdf_stream_inv _ _ _ Hstream) as (doc & Hopen & _ & Hidx).
  apply build_results_spec in Hbuild as (new & -> & Hn & _).
  rewrite imap_page_numbers, !list_fmap_map in Hn.
  exists doc, pages_data. cbn [results app].
  repeat split; try done. by rewrite Hn.
Qed.

Lemma report_in_page_order_witness :
  exists m report,
    process_pdf (P := Sample.platform) Sample.st (Sample.client_of Sample.st)
      Sample.net_ok Sample.reversed_schedule 100 "scan.pdf" Sample.doc3
    = Some m
    /\ outcome_of m = Ok report
    /\ exists doc pages_data,
         Sample.open Sample.doc3 = Ok doc
         /\ outcome_of (process_pdf_stream (P := Sample.platform)
                          Sample.st Sample.doc3) = Ok pages_data
         /\ map page_number (results report) = map page_index pages_data
         /\ map page_number (results report)
            = map Z.of_nat (seq 1 (List.length doc)).
Proof.
  eexists _, _. split; [reflexivity|]. split; [reflexivity|].
  eapply (report_in_page_order (P := Sample.platform) Sample.st
           (Sample.client_of Sample.st) Sample.net_ok
           Sample.reversed_schedule 100 "scan.pdf" Sample.doc3);
    reflexivity.
Defined.



(** C9, evaluated on the code: the request of a page has the shape the claim
    gives, with the page's bytes in base64 inside a data URL, and it is the
    one request the call posts; but the media type of the URL is the
    constant [image/png], whatever the configured image format. *)
Theorem request_media_type_is_png `{P : Platform} (st : Settings)
    (self : OpenAIClient) (image_data : list byte) (page_num : Z)
    (md : ProcessingMetadata float) (ev : http_event float) :
  OpenAIClient_init st = Ok self ->
  exists url,
    trace_of (process_image self image_data page_num md ev)
    = [CallPost (openai_api_url st)
         (JObj [
            ("model", JStr (mmlm_model st));
            ("messages",
              JArr [
                JObj [
                  ("role", JStr "user");
                  ("content",
                    JArr [
                      JObj [("type", JStr "text"); ("text", JStr instruction)];
                      JObj [("type", JStr "image_url");
                            ("image_url", JObj [("url", JStr url)])]
                    ])
                ]
              ]);
            ("max_tokens", JInt 1000)
          ])
         [("Authorization", "Bearer " +:+ openai_api_key st);
          ("Content-Type", "application/json")]]
    /\ url = "data:image/png;base64," +:+ b64encode image_data
    /\ data_url_media_type url = Some "image/png".
Proof.
  unfold OpenAIClient_init.
  destruct (max_concurrent_requests st <? 0); [discriminate|].
  intros [= <-]. eexists. split; [apply process_image_trace|].
  split; reflexivity.
Qed.

Lemma request_media_type_is_png_witness :
  processor_image_format (PDFProcessor_init Sample.st_jpeg) = "JPEG"
  /\ media_type_of_format (image_format Sample.st_jpeg) = "image/jpeg"
  /\ exists url,
       trace_of (process_image (P := Sample.platform)
                   (Sample.client_of Sample.st_jpeg)
                   ["M"%byte; "a"%byte; "n"%byte] 1
                   {| confidence_score := None; processing_time := Some 5;
                      image_dimensions := None; file_size := None;
                      additional_data := None |}
                   (Sample.net_ok 0%nat))
       = [CallPost (openai_api_url Sample.st_jpeg)
            (JObj [
               ("model", JStr (mmlm_model Sample.st_jpeg));
               ("messages",
                 JArr [
                   JObj [
                     ("role", JStr "user");
                     ("content",
                       JArr [
                         JObj [("type", JStr "text"); ("text", JStr instruction)];
                         JObj [("type", JStr "image_url");
                               ("image_url", JObj [("url", JStr url)])]
                       ])
                   ]
                 ]);
               ("max_tokens", JInt 1000)
             ])
            [("Authorization", "Bearer " +:+ openai_api_key Sample.st_jpeg);
             ("Content-Type", "application/json")]]
       /\ url = "data:image/png;base64," +:+ b64encode ["M"%byte; "a"%byte; "n"%byte]
       /\ data_url_media_type url = Some "image/png".
Proof.
  split; [reflexivity|]. split; [reflexivity|].
  apply (request_media_type_is_png (P := Sample.platform) Sample.st_jpeg
           (Sample.client_of Sample.st_jpeg)).
  reflexivity.
Defined.

(** C10: when [process_batch] returns, every outcome that carries an error
    has the number and the metadata of the page at its position, unchanged,
    and an empty output; an outcome without an error has the metadata of
    the success path, whose [additional_data] holds [api_processing_time]. *)
Theorem failure_keeps_page_metadata `{P : Platform} (self : OpenAIClient)
    (net : nat -> http_event float) (schedule : list loop_event)
    (pages_data : list page_tuple) (m : M (list batch_result)) :
  process_batch self net schedule pages_data = Some m ->
  exists outcomes,
    outcome_of m = Ok outcomes
    /\ forall i r,
         outcomes !! i = Some r ->
         exists page,
           pages_data !! i = Some page
           /\ (forall msg,
                 batch_error r = Some msg ->
                 batch_metadata r = page_metadata page
                 /\ batch_page_number r = page_index page
                 /\ batch_output r = JObj [])
           /\ (batch_error r = None ->
               exists d,
                 additional_data (batch_metadata r) = Some d
                 /\ is_Some (d !! "api_processing_time")).
Proof.
  intros Hb. apply process_batch_outcome in Hb.
  eexists. split; [exact Hb|].
  intros i r Hr. apply outcome_lookup_inv in Hr as (page & Hi & ->).
  exists page. split; [done|]. split.
  - intros msg Hmsg. apply page_outcome_error in Hmsg as [_ ->]. done.
  - intros Hnone. apply page_outcome_success in Hnone as (_ & d & _ & Hd & Hk).
    eauto.
Qed.

Lemma failure_keeps_page_metadata_witness :
  exists m outcomes,
    process_batch (P := Sample.platform) (Sample.client_of Sample.st)
      Sample.net_timeout_2 Sample.sequential3 Sample.three_pages = Some m
    /\ outcome_of m = Ok outcomes
    /\ forall i r,
         outcomes !! i = Some r ->
         exists page,
           Sample.three_pages !! i = Some page
           /\ (forall msg,
                 batch_error r = Some msg ->
                 batch_metadata r = page_metadata page
                 /\ batch_page_number r = page_index page
                 /\ batch_output r = JObj [])
           /\ (batch_error r = None ->
               exists d,
                 additional_data (batch_metadata r) = Some d
                 /\ is_Some (d !! "api_processing_time")).
Proof.
  eexists.
  destruct (failure_keeps_page_metadata (P := Sample.platform)
              (Sample.client_of Sample.st) Sample.net_timeout_2
              Sample.sequential3 Sample.three_pages _ eq_refl)
    as (outcomes & Hout & Hall).
  exists outcomes. split; [reflexivity|]. split; [exact Hout|exact Hall].
Defined.

(* ===================================================================== *)
(** ** The scenarios of the specification, run on the sample platform *)
(* ===================================================================== *)

(** Three pages, every call succeeds. *)
Example scenario_all_succeed :
  Sample.summary (process_pdf Sample.st (Sample.client_of Sample.st) Sample.net_ok
             Sample.sequential3 100 "scan.pdf" Sample.doc3)
  = Some (3, 3, true, None, [1; 2; 3]).
Proof. vm_compute. reflexivity. Qed.

(** Three pages, the call of page 2 times out, and the calls complete last
    to first. *)
Example scenario_page_2_times_out :
  Sample.summary (process_pdf Sample.st (Sample.client_of Sample.st)
             Sample.net_timeout_2 Sample.reversed_schedule 100 "scan.pdf"
             Sample.doc3)
  = Some (3, 2, false,
          Some ["Page 2: API request timed out after 30 seconds"], [1; 2; 3]).
Proof. vm_compute. reflexivity. Qed.

(** A document without pages: an HTTP 400 built from [InvalidFileError]. *)
Example scenario_empty_document :
  process_pdf Sample.st (Sample.client_of Sample.st) Sample.net_ok
    Sample.sequential3 100 "scan.pdf" Sample.doc0
  = Some ([CallOpen Sample.doc0],
          Raise (ExcHTTP 400
                   (DetailError "Invalid PDF file: PDF file contains no pages"
                      None))).
Proof. vm_compute. reflexivity. Qed.

(** A payload above the size limit: an HTTP 400 before the document is
    opened. *)
Example scenario_too_large :
  process_pdf Sample.st_small (Sample.client_of Sample.st_small) Sample.net_ok
    Sample.sequential3 100 "scan.pdf" Sample.big_junk
  = Some ([],
          Raise (ExcHTTP 400
                   (DetailError
                      "File size exceeds maximum allowed size of 4 bytes" None))).
Proof. vm_compute. reflexivity. Qed.

(** Two permits, three pages: a third admission is refused while two
    requests are in flight, and goes through once one of them completes. *)
Example scenario_two_permits :
  let coros := batch_coros (Sample.client_of Sample.st_small) Sample.net_ok
                 Sample.three_pages in
  loop_run coros (loop_init 2 coros) [Admit 0%nat; Admit 1%nat; Admit 2%nat]
  = None
  /\ option_map in_flight
       (loop_run coros (loop_init 2 coros)
          [Admit 0%nat; Admit 1%nat; Complete 0%nat; Admit 2%nat])
     = Some 2.
Proof. split; vm_compute; reflexivity. Qed.

(** The messages of the per-page errors. *)
Example error_messages :
  map (fun ev =>
         batch_error (page_outcome (Sample.client_of Sample.st) ev
                        (1, ["M"%byte],
                         {| confidence_score := None; processing_time := Some 5;
                            image_dimensions := None; file_size := None;
                            additional_data := None |})))
      [EvTimeout;
       EvClientError "Connection reset";
       EvResponse 429 (Ok (JObj [("error", JObj [("message", JStr "quota")])])) 3;
       EvResponse 500 (Ok (JObj [])) 3;
       EvResponse 200 (Raise (ExcOther "Expecting value: line 1 column 1 (char 0)")) 3;
       EvResponse 200 (Ok (JArr [])) 3]
  = [Some "API request timed out after 30 seconds";
     Some "Network error during API request: Connection reset";
     Some "Unexpected error during API request: OpenAI API request failed: quota";
     Some "Unexpected error during API request: OpenAI API request failed: Unknown API error";
     Some "Unexpected error during API request: Expecting value: line 1 column 1 (char 0)";
     Some "Unexpected error during API request: 'list' object has no attribute 'get'"].
Proof. vm_compute. reflexivity. Qed.

(* ===================================================================== *)
(** ** More about validation and extraction *)
(* ===================================================================== *)

Section MoreExtractionProofs.
Context `{P : Platform}.

Lemma validate_pdf_ok_inv (st : Settings) (content : list byte) :
  outcome_of (validate_pdf st content) = Ok tt ->
  len content <= max_file_size st
  /\ exists doc, fitz_open content = Ok doc /\ doc <> [].
Proof.
  unfold validate_pdf.
  destruct (len content >? max_file_size st) eqn:E; [discriminate|].
  rewrite Z.gtb_ltb in E. apply Z.ltb_ge in E.
  rewrite outcome_try, outcome_bind, outcome_open_pdf.
  destruct (fitz_open content) as [doc|e]; [|discriminate].
  destruct doc as [|page rest]; [discriminate|].
  intros _. split; [done|]. eauto.
Qed.

Lemma validate_pdf_ok_trace (st : Settings) (content : list byte) :
  outcome_of (validate_pdf st content) = Ok tt ->
  trace_of (validate_pdf st content) = [CallOpen content].
Proof.
  intros H. destruct (validate_pdf_ok_inv st content H) as (Hlen & doc & Hopen & Hne).
  unfold validate_pdf.
  destruct (len content >? max_file_size st) eqn:E.
  { rewrite Z.gtb_ltb in E. apply Z.ltb_lt in E. lia. }
  unfold open_pdf. rewrite Hopen. destruct doc; [done|reflexivity].
Qed.

Lemma process_pdf_stream_ok_inv (st : Settings) (file : list byte)
    (l : list page_tuple) :
  outcome_of (process_pdf_stream st file) = Ok l ->
  outcome_of (validate_pdf st file) = Ok tt
  /\ outcome_of (extract_pages_as_images st file) = Ok l.
Proof.
  unfold process_pdf_stream. rewrite read_file_async_id. cbv zeta.
  rewrite outcome_try, outcome_bind.
  destruct (outcome_of (validate_pdf st file)) as [[]|e]; [|discriminate].
  destruct (outcome_of (extract_pages_as_images st file)) as [l'|e];
    [|discriminate].
  by intros [= <-].
Qed.

Lemma trace_render_page (self : PDFProcessor) (page : fitz_page float)
    (page_num : Z) :
  trace_of (render_page self page page_num) = [CallRender page_num].
Proof.
  unfold render_page. rewrite trace_bind. cbn [trace_of fst outcome_of snd].
  by destruct (page _ _ _).
Qed.

Lemma render_calls_cons (n : Z) (k : nat) :
  CallRender (F := float) n
  :: map (fun i => CallRender (n + 1 + Z.of_nat i)) (seq 0 k)
  = map (fun i => CallRender (n + Z.of_nat i)) (seq 0 (S k)).
Proof.
  cbn [seq map]. change (Z.of_nat 0) with 0. rewrite Z.add_0_r. apply f_equal.
  rewrite <- seq_shift, map_map. apply map_ext. intros i. f_equal. lia.
Qed.

(** The loop renders the pages in order, one call each. *)
Lemma extract_loop_trace_ok (self : PDFProcessor) (doc : list (fitz_page float)) :
  Forall (renders self) doc ->
  forall (page_num : Z) (pages_data : list page_tuple),
  trace_of (extract_loop self doc page_num pages_data)
  = map (fun k => CallRender (page_num + Z.of_nat k)) (seq 0 (List.length doc)).
Proof.
  induction 1 as [|page rest Hpage _ IH]; intros page_num pages_data; [done|].
  destruct (outcome_render_page_ok self page page_num Hpage) as (img & md & Hr).
  cbn [extract_loop]. rewrite trace_bind, trace_render_page, Hr, IH.
  cbn [List.length app]. apply render_calls_cons.
Qed.

(** The loop stops at the first page that does not render. *)
Lemma extract_loop_trace_fail (self : PDFProcessor)
    (good : list (fitz_page float)) (bad : fitz_page float)
    (rest : list (fitz_page float)) :
  Forall (renders self) good ->
  render_fails self bad ->
  forall (page_num : Z) (pages_data : list page_tuple),
  trace_of (extract_loop self (good ++ bad :: rest) page_num pages_data)
  = map (fun k => CallRender (page_num + Z.of_nat k))
      (seq 0 (S (List.length good))).
Proof.
  intros Hgood [e Hbad].
  induction Hgood as [|page good Hpage _ IH]; intros page_num pages_data.
  - cbn [app extract_loop]. rewrite trace_bind, trace_render_page.
    rewrite (outcome_render_page_fail _ _ _ _ Hbad). simpl.
    by rewrite Z.add_0_r.
  - destruct (outcome_render_page_ok self page page_num Hpage) as (img & md & Hr).
    cbn [app extract_loop]. rewrite trace_bind, trace_render_page, Hr, IH.
    cbn [List.length app]. apply render_calls_cons.
Qed.

Lemma render_page_metadata (self : PDFProcessor) (page : fitz_page float)
    (page_num : Z) (t : page_tuple) :
  outcome_of (render_page self page page_num) = Ok t -> extraction_metadata t.
Proof.
  unfold render_page. rewrite outcome_bind. cbn [outcome_of snd].
  destruct (page _ _ _) as [r|e]; [|discriminate].
  intros [= <-]. unfold extraction_metadata, page_metadata, page_image. simpl.
  eauto 10.
Qed.

Lemma extract_loop_metadata (self : PDFProcessor) (doc : list (fitz_page float)) :
  forall (page_num : Z) (pages_data l : list page_tuple),
  Forall extraction_metadata pages_data ->
  outcome_of (extract_loop self doc page_num pages_data) = Ok l ->
  Forall extraction_metadata l.
Proof.
  induction doc as [|page rest IH]; intros page_num pages_data l Hacc.
  - simpl. by intros [= <-].
  - cbn [extract_loop]. rewrite outcome_bind.
    destruct (outcome_of (render_page self page page_num)) as [t|e] eqn:Hr;
      [|discriminate].
    apply IH. apply Forall_app. split; [done|].
    apply Forall_cons. split; [|done]. by eapply render_page_metadata.
Qed.

End MoreExtractionProofs.

(** X1: the chunked copy of the upload through the temporary file returns the
    upload, byte for byte, whatever its length. *)
Theorem read_file_returns_upload (file : list byte) :
  _read_file_async file = file.
Proof. apply read_file_async_id. Qed.

(** X2: [validate_pdf] returns without an exception exactly when the payload
    is not longer than [max_file_size] (a payload of exactly that length
    passes) and opens as a document with at least one page; it has then
    opened the document once and rendered nothing. *)
Theorem validate_pdf_accepts_iff `{P : Platform} (st : Settings)
    (content : list byte) :
  (outcome_of (validate_pdf st content) = Ok tt
   <-> len content <= max_file_size st
       /\ exists doc, fitz_open content = Ok doc /\ doc <> [])
  /\ (outcome_of (validate_pdf st content) = Ok tt ->
      trace_of (validate_pdf st content) = [CallOpen content]).
Proof.
  split; [split|].
  - apply validate_pdf_ok_inv.
  - intros (Hlen & doc & Hopen & Hne). by apply (validate_pdf_ok st content doc).
  - apply validate_pdf_ok_trace.
Qed.

(** X3: when a page does not render, extraction stops there: the pages before
    it and the page itself were rendered, in order, and no page after it
    is. *)
Theorem extraction_stops_at_first_failure `{P : Platform} (st : Settings)
    (content : list byte) (good : list (fitz_page float))
    (bad : fitz_page float) (rest : list (fitz_page float)) :
  fitz_open content = Ok (good ++ bad :: rest) ->
  Forall (renders (PDFProcessor_init st)) good ->
  render_fails (PDFProcessor_init st) bad ->
  trace_of (extract_pages_as_images st content)
  = CallOpen content
    :: map (fun k => CallRender (Z.of_nat k)) (seq 0 (S (List.length good))).
Proof.
  intros Hopen Hgood Hbad. unfold extract_pages_as_images.
  rewrite trace_try, trace_bind, !outcome_bind, outcome_open_pdf, Hopen.
  cbn [open_pdf trace_of fst].
  rewrite (extract_loop_trace_fail _ _ _ _ Hgood Hbad).
  destruct (outcome_of (extract_loop _ _ _ _)); cbn [raise trace_of fst];
    rewrite ?app_nil_r; reflexivity.
Qed.

Lemma extraction_stops_at_first_failure_witness :
  trace_of (extract_pages_as_images (P := Sample.platform)
              Sample.st Sample.doc_bad)
  = [CallOpen Sample.doc_bad; CallRender 0; CallRender 1].
Proof.
  apply (extraction_stops_at_first_failure (P := Sample.platform) Sample.st
           Sample.doc_bad [Sample.good_page] Sample.bad_page [Sample.good_page]).
  - reflexivity.
  - repeat constructor. eexists; reflexivity.
  - eexists; reflexivity.
Defined.

(** X4: for an upload that passes validation and whose pages all render,
    [process_pdf_stream] opens the document twice (once to validate, once to
    extract) and then renders every page exactly once, in document order. *)
Theorem valid_upload_trace `{P : Platform} (st : Settings) (file : list byte)
    (doc : list (fitz_page float)) :
  len file <= max_file_size st ->
  fitz_open file = Ok doc ->
  doc <> [] ->
  Forall (renders (PDFProcessor_init st)) doc ->
  trace_of (process_pdf_stream st file)
  = CallOpen file :: CallOpen file
    :: map (fun k => CallRender (Z.of_nat k)) (seq 0 (List.length doc)).
Proof.
  intros Hlen Hopen Hne Hall.
  pose proof (validate_pdf_ok st file doc Hlen Hopen Hne) as Hv.
  unfold process_pdf_stream. rewrite read_file_async_id. cbv zeta.
  rewrite trace_try, trace_bind, !outcome_bind, Hv.
  rewrite (validate_pdf_ok_trace st file Hv).
  unfold extract_pages_as_images at 1.
  rewrite trace_try, trace_bind, !outcome_bind, outcome_open_pdf, Hopen.
  cbn [open_pdf trace_of fst].
  rewrite (extract_loop_trace_ok _ _ Hall).
  destruct (extract_loop_ok _ _ Hall 0 []) as (new & Hloop & _).
  rewrite Hloop.
  assert (Hx : outcome_of (extract_pages_as_images st file) = Ok new).
  { unfold extract_pages_as_images. apply outcome_try_ok.
    rewrite (outcome_bind_ok _ _ doc); [exact Hloop|exact Hopen]. }
  rewrite Hx. cbn [app]. by rewrite !app_nil_r.
Qed.

Lemma valid_upload_trace_witness :
  trace_of (process_pdf_stream (P := Sample.platform) Sample.st Sample.doc3)
  = [CallOpen Sample.doc3; CallOpen Sample.doc3;
     CallRender 0; CallRender 1; CallRender 2].
Proof.
  apply (valid_upload_trace (P := Sample.platform) Sample.st Sample.doc3
           [Sample.good_page; Sample.good_page; Sample.good_page]).
  - vm_compute. discriminate.
  - reflexivity.
  - discriminate.
  - repeat constructor; eexists; reflexivity.
Defined.

(** X5: every page tuple extraction returns has metadata in which
    [file_size] is the length of the page's image bytes, [processing_time]
    and [image_dimensions] are set, and [confidence_score] and
    [additional_data] are not. *)
Theorem extracted_pages_metadata `{P : Platform} (st : Settings)
    (content : list byte) (pages_data : list page_tuple) :
  outcome_of (extract_pages_as_images st content) = Ok pages_data ->
  Forall extraction_metadata pages_data.
Proof.
  unfold extract_pages_as_images. rewrite outcome_try, outcome_bind.
  rewrite outcome_open_pdf.
  destruct (fitz_open content) as [doc|e]; [|discriminate].
  destruct (outcome_of (extract_loop _ doc 0 [])) as [l|e] eqn:Hloop;
    [|discriminate].
  intros [= <-]. by eapply extract_loop_metadata; [|exact Hloop].
Qed.

Lemma extracted_pages_metadata_witness :
  exists pages_data,
    outcome_of (extract_pages_as_images (P := Sample.platform)
                  Sample.st Sample.doc3) = Ok pages_data
    /\ Forall extraction_metadata pages_data.
Proof.
  eexists. split; [reflexivity|].
  apply (extracted_pages_metadata (P := Sample.platform) Sample.st Sample.doc3).
  reflexivity.
Defined.

Lemma process_pdf_stream_nonempty `{P : Platform} (st : Settings)
    (file : list byte) (pages_data : list page_tuple) :
  outcome_of (process_pdf_stream st file) = Ok pages_data ->
  pages_data <> [].
Proof.
  intros H.
  destruct (process_pdf_stream_ok_inv st file _ H) as [Hv _].
  apply validate_pdf_ok_inv in Hv as (_ & doc & Hopen & Hne).
  apply process_pdf_stream_inv in H as (doc' & Hopen' & Hlen & _).
  rewrite Hopen in Hopen'. injection Hopen' as <-.
  destruct pages_data; [|done]. destruct doc; [done|discriminate].
Qed.

(** X6: [process_pdf_stream] never returns an empty list: when it returns,
    validation has seen at least one page, so the endpoint's test for an
    empty page list never fires. *)
Theorem process_pdf_stream_never_empty `{P : Platform} (st : Settings)
    (file : list byte) (pages_data : list page_tuple) :
  outcome_of (process_pdf_stream st file) = Ok pages_data ->
  pages_data <> [].
Proof. apply process_pdf_stream_nonempty. Qed.

Lemma process_pdf_stream_never_empty_witness :
  exists pages_data,
    outcome_of (process_pdf_stream (P := Sample.platform) Sample.st Sample.doc3)
    = Ok pages_data
    /\ pages_data <> [].
Proof.
  eexists. split; [reflexivity|].
  apply (process_pdf_stream_never_empty (P := Sample.platform)
           Sample.st Sample.doc3).
  reflexivity.
Defined.

(* ===================================================================== *)
(** ** More about one call of the service *)
(* ===================================================================== *)

Section MoreDispatchProofs.
Context `{P : Platform}.

(** Evaluate the outcome of a sequence of calls step by step. *)
Ltac outcome_run :=
  repeat (rewrite ?outcome_bind;
          cbn [outcome_of snd lift raise ret session_post];
          cbv beta iota).

(** What a successful call of [process_image] tells about its inputs and
    its result. *)
Lemma process_image_ok_full (self : OpenAIClient) (image_data : list byte)
    (page_num : Z) (md : ProcessingMetadata float) (ev : http_event float)
    (response_data : json float) (updated : ProcessingMetadata float) :
  outcome_of (process_image self image_data page_num md ev)
    = Ok (response_data, updated) ->
  exists members elapsed t,
    ev = EvResponse 200 (Ok (JObj members)) elapsed
    /\ response_data = JObj members
    /\ usable_body (JObj members)
    /\ processing_time md = Some t
    /\ updated
       = {| confidence_score := confidence_score md;
            processing_time := Some (fadd t elapsed);
            image_dimensions := image_dimensions md;
            file_size := file_size md;
            additional_data :=
              Some (<["api_response_tokens" := total_tokens (JObj members)]>
                      (<["api_processing_time" := JFloat elapsed]>
                         (default ∅ (additional_data md)))) |}.
Proof.
  unfold process_image. rewrite outcome_try.
  match goal with |- context [outcome_of (bind ?m ?k)] =>
    destruct (outcome_of (bind m k)) as [[r u]|e0] eqn:Hin end.
  2:{ destruct (process_image_handler_shape self e0) as (? & -> & _).
      discriminate. }
  intros [= <- <-]. revert Hin.
  destruct ev as [|msg|status [body|e] elapsed]; outcome_run; try discriminate.
  destruct (status =? 200) eqn:Hs; cbn [negb]; outcome_run.
  2:{ destruct (py_get body "error" (JObj [])) as [err|e]; outcome_run;
        [|discriminate].
      destruct (py_get err "message" _) as [v|e]; outcome_run; discriminate. }
  apply Z.eqb_eq in Hs. subst status.
  destruct (processing_time md) as [t|]; outcome_run; [|discriminate].
  destruct body as [| | | | | |members]; try discriminate.
  cbn [py_get]. outcome_run.
  destruct (assoc "usage" members) as [usage|] eqn:Hu.
  - destruct usage as [| | | | | |usage]; try discriminate.
    cbn [py_get]. outcome_run. intros [= <- <-].
    exists members, elapsed, t. repeat split; try done.
    + exists members. split; [done|]. right. eauto.
    + unfold total_tokens. by rewrite Hu.
  - cbn [py_get assoc]. outcome_run. intros [= <- <-].
    exists members, elapsed, t. repeat split; try done.
    + exists members. split; [done|]. by left.
    + unfold total_tokens. by rewrite Hu.
Qed.

Lemma process_image_ok_intro (self : OpenAIClient) (image_data : list byte)
    (page_num : Z) (md : ProcessingMetadata float) (body : json float)
    (elapsed : float) :
  usable_body body ->
  is_Some (processing_time md) ->
  exists updated,
    outcome_of (process_image self image_data page_num md
                  (EvResponse 200 (Ok body) elapsed))
    = Ok (body, updated).
Proof.
  intros (members & -> & Hu) [t Ht].
  unfold process_image. rewrite outcome_try. outcome_run.
  rewrite Ht. outcome_run. cbn [py_get].
  destruct Hu as [Hu|[usage Hu]]; rewrite Hu; outcome_run; cbn [py_get assoc];
    outcome_run; eauto.
Qed.

Lemma single_page_trace (self : OpenAIClient) (page_num : Z)
    (image_data : list byte) (md : ProcessingMetadata float)
    (ev : http_event float) :
  trace_of (_process_single_page self page_num image_data md ev)
  = [CallPost (api_url self) (request_payload self image_data)
       (request_headers self)].
Proof.
  unfold _process_single_page. rewrite trace_try, trace_bind, outcome_bind.
  rewrite process_image_trace.
  destruct (outcome_of (process_image _ _ _ _ _)) as [[r u]|e];
    cbn [ret raise trace_of fst outcome_of snd app]; reflexivity.
Qed.

End MoreDispatchProofs.

(** X7: a call of [process_image] succeeds exactly when the service answers
    with status 200 and a body that is a JSON object whose [usage], if
    present, is an object, and the page's metadata has a [processing_time].
    A 200 answer whose body is a list, a string or null, or whose [usage]
    is null or a number, is a failure like any other. *)
Theorem process_image_succeeds_iff `{P : Platform} (self : OpenAIClient)
    (image_data : list byte) (page_num : Z) (md : ProcessingMetadata float)
    (ev : http_event float) :
  (exists r, outcome_of (process_image self image_data page_num md ev) = Ok r)
  <-> exists body elapsed,
        ev = EvResponse 200 (Ok body) elapsed
        /\ usable_body body
        /\ is_Some (processing_time md).
Proof.
  split.
  - intros [[r u] H].
    apply process_image_ok_full in H
      as (members & elapsed & t & -> & _ & Hu & Ht & _).
    exists (JObj members), elapsed. eauto.
  - intros (body & elapsed & -> & Hu & Ht).
    destruct (process_image_ok_intro self image_data page_num md body elapsed
                Hu Ht) as [updated H].
    eauto.
Qed.

(** X8: a successful call returns the service's body as it came and metadata
    in which the time is the page's time plus the call's, the other fields
    of the page are unchanged, and [additional_data] is the page's
    dictionary with [api_processing_time] and [api_response_tokens] set
    (overwriting entries of these names) and every other key as before;
    the token count is [usage.total_tokens], or 0 when either key is
    absent. *)
Theorem success_metadata_merge `{P : Platform} (self : OpenAIClient)
    (image_data : list byte) (page_num : Z) (md : ProcessingMetadata float)
    (ev : http_event float) (response_data : json float)
    (updated : ProcessingMetadata float) :
  outcome_of (process_image self image_data page_num md ev)
    = Ok (response_data, updated) ->
  exists elapsed t d,
    ev = EvResponse 200 (Ok response_data) elapsed
    /\ processing_time md = Some t
    /\ processing_time updated = Some (fadd t elapsed)
    /\ confidence_score updated = confidence_score md
    /\ image_dimensions updated = image_dimensions md
    /\ file_size updated = file_size md
    /\ additional_data updated = Some d
    /\ d !! "api_processing_time" = Some (JFloat elapsed)
    /\ d !! "api_response_tokens" = Some (total_tokens response_data)
    /\ forall k, k <> "api_processing_time" -> k <> "api_response_tokens" ->
                 d !! k = default ∅ (additional_data md) !! k.
Proof.
  intros H.
  apply process_image_ok_full in H
    as (members & elapsed & t & -> & -> & _ & Ht & ->).
  exists elapsed, t. eexists. cbn.
  repeat split; try done.
  - rewrite lookup_insert_ne by done. by rewrite lookup_insert_eq.
  - by rewrite lookup_insert_eq.
  - intros k Hk1 Hk2. by rewrite !lookup_insert_ne.
Qed.

Lemma success_metadata_merge_witness :
  exists response_data updated elapsed t d,
    outcome_of (process_image (P := Sample.platform)
                  (Sample.client_of Sample.st) ["M"%byte] 1 Sample.md5
                  (Sample.net_ok 0%nat))
    = Ok (response_data, updated)
    /\ Sample.net_ok 0%nat = EvResponse 200 (Ok response_data) elapsed
    /\ processing_time Sample.md5 = Some t
    /\ processing_time updated = Some (t + elapsed)
    /\ confidence_score updated = confidence_score Sample.md5
    /\ image_dimensions updated = image_dimensions Sample.md5
    /\ file_size updated = file_size Sample.md5
    /\ additional_data updated = Some d
    /\ d !! "api_processing_time" = Some (JFloat elapsed)
    /\ d !! "api_response_tokens" = Some (total_tokens response_data)
    /\ forall k, k <> "api_processing_time" -> k <> "api_response_tokens" ->
                 d !! k = default ∅ (additional_data Sample.md5) !! k.
Proof.
  eexists _, _.
  destruct (success_metadata_merge (P := Sample.platform)
              (Sample.client_of Sample.st) ["M"%byte] 1 Sample.md5
              (Sample.net_ok 0%nat) _ _ eq_refl)
    as (elapsed & t & d & H).
  exists elapsed, t, d. split; [reflexivity|exact H].
Defined.

(* ===================================================================== *)
(** ** More about the event loop *)
(* ===================================================================== *)

Section MoreLoopProofs.
Context `{P : Platform} {A : Type}.
Implicit Types (coros : list (M A)) (s : loop_state A) (ts : list (task_state A)).

Lemma loop_run_app coros s (a b : list loop_event) :
  loop_run coros s (a ++ b)
  = match loop_run coros s a with
    | Some s' => loop_run coros s' b
    | None => None
    end.
Proof.
  revert s. induction a as [|ev a IH]; intros s; [done|].
  cbn [app loop_run]. destruct (loop_step coros s ev); [apply IH|done].
Qed.

Lemma started_traces_init coros :
  started_traces (replicate (List.length coros) (@Queued A)) coros = [].
Proof. induction coros as [|c coros IH]; [done|]. exact IH. Qed.

Lemma started_traces_admit ts :
  forall coros (i : nat) (c : M A),
  ts !! i = Some Queued ->
  coros !! i = Some c ->
  started_traces (<[i := InFlight]> ts) coros
  ≡ₚ started_traces ts coros ++ trace_of c.
Proof.
  induction ts as [|t ts IH]; intros [|c0 coros] [|i] c Ht Hc;
    try discriminate.
  - injection Ht as ->. injection Hc as ->.
    unfold started_traces. cbn. apply Permutation_app_comm.
  - unfold started_traces in *. cbn.
    rewrite <- app_assoc. apply Permutation_app_head. by apply IH.
Qed.

Lemma started_traces_complete ts :
  forall coros (i : nat) (r : result A),
  ts !! i = Some InFlight ->
  started_traces (<[i := Done r]> ts) coros = started_traces ts coros.
Proof.
  induction ts as [|t ts IH]; intros [|c0 coros] [|i] r Ht;
    try discriminate; try reflexivity.
  - by injection Ht as ->.
  - unfold started_traces in *. cbn. f_equal. by apply IH.
Qed.

Lemma started_traces_all_done (rs : list (result A)) :
  forall coros,
  List.length rs = List.length coros ->
  started_traces (Done <$> rs) coros = concat (trace_of <$> coros).
Proof.
  induction rs as [|r rs IH]; intros [|c coros] Hlen; try discriminate;
    [done|].
  unfold started_traces in *. cbn. f_equal. apply IH.
  simpl in Hlen. lia.
Qed.

(** What has been posted is what the admitted tasks post. *)
Lemma loop_step_posted coros s ev s' :
  loop_step coros s ev = Some s' ->
  posted s ≡ₚ started_traces (tasks s) coros ->
  posted s' ≡ₚ started_traces (tasks s') coros.
Proof.
  intros Hstep Hinv.
  destruct ev as [i|i]; simpl in Hstep;
    destruct (tasks s !! i) as [[| |r]|] eqn:Hi; try discriminate;
    destruct (coros !! i) as [c|] eqn:Hc; try discriminate.
  - destruct (0 <? sem_value s); [|discriminate].
    injection Hstep as <-. cbn [posted tasks].
    rewrite (started_traces_admit _ _ _ _ Hi Hc).
    by apply Permutation_app_tail.
  - injection Hstep as <-. cbn [posted tasks].
    by rewrite (started_traces_complete _ _ _ _ Hi).
Qed.

Lemma loop_run_posted coros (schedule : list loop_event) :
  forall s s',
  loop_run coros s schedule = Some s' ->
  posted s ≡ₚ started_traces (tasks s) coros ->
  posted s' ≡ₚ started_traces (tasks s') coros.
Proof.
  induction schedule as [|ev rest IH]; intros s s' Hrun Hinv; simpl in Hrun.
  - by injection Hrun as <-.
  - destruct (loop_step coros s ev) as [s1|] eqn:Hstep; [|discriminate].
    eapply IH; [exact Hrun|]. eapply loop_step_posted; eauto.
Qed.

(** When [gather] returns, the calls made are those of all the coroutines,
    each once, in the order of admission. *)
Lemma gather_posted (value : Z) coros (schedule : list loop_event)
    (t : list (call float)) (rs : list (result A)) :
  gather value coros schedule = Some (t, rs) ->
  t ≡ₚ concat (trace_of <$> coros).
Proof.
  unfold gather.
  destruct (loop_run coros (loop_init value coros) schedule) as [s|] eqn:Hrun;
    [|discriminate].
  destruct (task_results (tasks s)) as [rs'|] eqn:Hts; [|discriminate].
  intros [= <- <-].
  pose proof (loop_run_inv value coros schedule _ _ (loop_init_inv _ _) Hrun)
    as [Hlen _ _ _].
  apply task_results_done in Hts.
  rewrite (loop_run_posted _ _ _ _ Hrun).
  - rewrite Hts, started_traces_all_done; [done|].
    by rewrite Hts, length_fmap in Hlen.
  - cbn [loop_init posted tasks]. by rewrite started_traces_init.
Qed.

(** Without a permit and with every task waiting, the loop can take no
    step. *)
Lemma loop_run_no_permit coros (n : nat) (value : Z) (p : list (call float))
    (schedule : list loop_event) s' :
  value <= 0 ->
  loop_run coros {| sem_value := value; tasks := replicate n Queued;
                    posted := p |} schedule = Some s' ->
  schedule = [].
Proof.
  intros Hv. destruct schedule as [|ev rest]; [done|].
  cbn [loop_run].
  assert (Hstep : loop_step coros {| sem_value := value;
                                     tasks := replicate n Queued;
                                     posted := p |} ev = None).
  { destruct ev as [i|i].
    - by apply loop_step_admit_blocked.
    - cbn [loop_step tasks].
      destruct (replicate n (@Queued A) !! i) as [t|] eqn:Hi; [|done].
      apply lookup_replicate in Hi as [-> _]. done. }
  by rewrite Hstep.
Qed.

Lemma gather_no_permit (value : Z) coros (schedule : list loop_event) :
  value <= 0 -> coros <> [] -> gather value coros schedule = None.
Proof.
  intros Hv Hne. unfold gather, loop_init.
  destruct (loop_run coros _ schedule) as [s|] eqn:Hrun; [|done].
  pose proof (loop_run_no_permit _ _ _ _ _ _ Hv Hrun) as ->.
  injection Hrun as <-. cbn [tasks].
  destruct coros; [done|reflexivity].
Qed.

Lemma filter_nonempty_lookup {B} (f : B -> bool) (l : list B) :
  (0 < List.length (List.filter f l))%nat ->
  exists i x, l !! i = Some x /\ f x = true.
Proof.
  induction l as [|a l IH]; simpl; [lia|].
  destruct (f a) eqn:E.
  - intros _. exists 0%nat, a. done.
  - intros H. destruct (IH H) as (i & x & Hi & Hx). exists (S i), x. done.
Qed.

(** Progress: while work is left and the semaphore started with a permit,
    some step is possible, and it reduces the work left by one. *)
Lemma loop_progress (value : Z) coros s (n : nat) :
  0 < value ->
  loop_inv value coros s ->
  pending_work s = S n ->
  exists ev s', loop_step coros s ev = Some s' /\ pending_work s' = n.
Proof.
  intros Hv Hinv Hwork. pose proof Hinv as [Hlen _ Hval _].
  unfold pending_work in Hwork.
  destruct (List.length (List.filter is_in_flight (tasks s))) as [|f] eqn:Hf.
  - assert (Hq : (0 < List.length (List.filter is_queued (tasks s)))%nat) by lia.
    apply filter_nonempty_lookup in Hq as (i & [| |r] & Hi & Hx); try discriminate.
    assert (Hpos : 0 < sem_value s).
    { unfold in_flight in Hval. rewrite Hf in Hval. simpl in Hval. lia. }
    destruct (loop_step_admit_enabled value coros s i Hinv Hi Hpos) as [s' Hs'].
    exists (Admit i), s'. split; [done|].
    simpl in Hs'. rewrite Hi in Hs'.
    destruct (coros !! i); [|discriminate].
    destruct (0 <? sem_value s); [|discriminate].
    injection Hs' as <-. unfold pending_work. cbn [tasks].
    pose proof (count_insert is_queued _ i _ InFlight Hi) as H1.
    pose proof (count_insert is_in_flight _ i _ InFlight Hi) as H2.
    simpl in H1, H2. lia.
  - assert (Hq : (0 < List.length (List.filter is_in_flight (tasks s)))%nat) by lia.
    apply filter_nonempty_lookup in Hq as (i & [| |r] & Hi & Hx); try discriminate.
    assert (Hlt : (i < List.length coros)%nat)
      by (rewrite <- Hlen; by apply lookup_lt_Some in Hi).
    apply lookup_lt_is_Some_2 in Hlt as [c Hc].
    eexists (Complete i), _. split.
    + simpl. rewrite Hi, Hc. reflexivity.
    + unfold pending_work. cbn [tasks].
      pose proof (count_insert is_queued _ i _ (Done (outcome_of c)) Hi) as H1.
      pose proof (count_insert is_in_flight _ i _ (Done (outcome_of c)) Hi) as H2.
      simpl in H1, H2. lia.
Qed.

Lemma loop_finish (value : Z) coros (n : nat) :
  0 < value ->
  forall s,
  loop_inv value coros s ->
  pending_work s = n ->
  exists rest s', loop_run coros s rest = Some s' /\ pending_work s' = 0%nat.
Proof.
  intros Hv. induction n as [|n IH]; intros s Hinv Hwork.
  - exists [], s. done.
  - destruct (loop_progress value coros s n Hv Hinv Hwork) as (ev & s1 & Hstep & Hw).
    destruct (IH s1 (loop_step_inv _ _ _ _ _ Hinv Hstep) Hw) as (rest & s' & Hrun & Hz).
    exists (ev :: rest), s'. split; [|done]. cbn [loop_run]. by rewrite Hstep.
Qed.

Lemma no_work_all_done ts :
  List.filter is_queued ts = [] ->
  List.filter is_in_flight ts = [] ->
  is_Some (task_results ts).
Proof.
  induction ts as [|[| |r] ts IH]; simpl; try discriminate; [eauto|].
  intros Hq Hf. destruct (IH Hq Hf) as [rs ->]. eauto.
Qed.

Lemma all_done_none_in_flight (rs : list (result A)) :
  List.filter is_in_flight (Done <$> rs) = [].
Proof. induction rs as [|r rs IH]; [done|]. rewrite fmap_cons. exact IH. Qed.

End MoreLoopProofs.

Lemma batch_coros_traces `{P : Platform} (self : OpenAIClient)
    (pages_data : list page_tuple) :
  forall net : nat -> http_event float,
  concat (trace_of <$> batch_coros self net pages_data)
  = map (page_request self) pages_data.
Proof.
  induction pages_data as [|[[n img] md] rest IH]; intros net; [done|].
  unfold batch_coros. rewrite imap_cons, fmap_cons. cbn [concat map].
  rewrite single_page_trace. cbn [app]. f_equal.
  apply (IH (fun j => net (S j))).
Qed.

Lemma process_batch_posts `{P : Platform} (self : OpenAIClient)
    (net : nat -> http_event float) (schedule : list loop_event)
    (pages_data : list page_tuple) (m : M (list batch_result)) :
  process_batch self net schedule pages_data = Some m ->
  trace_of m ≡ₚ map (page_request self) pages_data.
Proof.
  unfold process_batch.
  destruct (gather _ _ _) as [[t rs]|] eqn:Hg; [|discriminate].
  intros [= <-]. cbn [trace_of fst].
  rewrite (gather_posted _ _ _ _ _ Hg). by rewrite batch_coros_traces.
Qed.

(** X9: when [process_batch] returns, the requests it has sent are exactly
    one per page, each with that page's payload: no page is skipped, none is
    sent twice, whatever the answers were.  They went out in the order of
    admission, which need not be the order of the pages. *)
Theorem batch_posts_each_page_once `{P : Platform} (self : OpenAIClient)
    (net : nat -> http_event float) (schedule : list loop_event)
    (pages_data : list page_tuple) (m : M (list batch_result)) :
  process_batch self net schedule pages_data = Some m ->
  trace_of m ≡ₚ map (page_request self) pages_data.
Proof. apply process_batch_posts. Qed.

Lemma batch_posts_each_page_once_witness :
  exists m,
    process_batch (P := Sample.platform) (Sample.client_of Sample.st)
      Sample.net_timeout_2
      [Admit 2%nat; Admit 0%nat; Complete 2%nat; Admit 1%nat;
       Complete 0%nat; Complete 1%nat]
      Sample.three_pages = Some m
    /\ trace_of m
       ≡ₚ map (page_request (Sample.client_of Sample.st)) Sample.three_pages.
Proof.
  eexists. split; [reflexivity|].
  apply (batch_posts_each_page_once (P := Sample.platform)
           (Sample.client_of Sample.st) Sample.net_timeout_2
           [Admit 2%nat; Admit 0%nat; Complete 2%nat; Admit 1%nat;
            Complete 0%nat; Complete 1%nat] Sample.three_pages).
  reflexivity.
Defined.

(** X10: with [max_concurrent_requests] set to 0 the client is built (the
    semaphore accepts 0), but no request is ever admitted: on a batch with
    at least one page [process_batch] does not return under any schedule. *)
Theorem no_permit_never_returns `{P : Platform} (st : Settings)
    (self : OpenAIClient) (net : nat -> http_event float)
    (schedule : list loop_event) (pages_data : list page_tuple) :
  max_concurrent_requests st = 0 ->
  OpenAIClient_init st = Ok self ->
  pages_data <> [] ->
  process_batch self net schedule pages_data = None.
Proof.
  intros H0. unfold OpenAIClient_init. rewrite H0. cbn. intros [= <-] Hne.
  unfold process_batch. cbn [semaphore].
  rewrite gather_no_permit; [done|lia|].
  intros Hnil. apply (f_equal List.length) in Hnil.
  rewrite length_batch_coros in Hnil. by destruct pages_data.
Qed.

Lemma no_permit_never_returns_witness :
  process_batch (P := Sample.platform) Sample.client_no_permit Sample.net_ok
    Sample.sequential3 Sample.three_pages = None.
Proof.
  apply (no_permit_never_returns (P := Sample.platform)
           {| openai_api_url := "https://api.example/v1";
              openai_api_key := "key"; openai_timeout := 30;
              mmlm_model := "model-x"; max_file_size := 4; image_dpi := 300;
              image_format := "PNG"; max_concurrent_requests := 0;
              batch_size := 5 |}).
  - reflexivity.
  - reflexivity.
  - discriminate.
Defined.

(** X11: with at least one permit the batch cannot get stuck: from every
    state the loop reaches, whatever was admitted and completed so far, the
    schedule can be continued so that [process_batch] returns. *)
Theorem batch_can_always_finish `{P : Platform} (self : OpenAIClient)
    (net : nat -> http_event float) (pages_data : list page_tuple)
    (schedule : list loop_event)
    (s : loop_state (Z * json float * ProcessingMetadata float)) :
  0 < semaphore self ->
  loop_run (batch_coros self net pages_data)
    (loop_init (semaphore self) (batch_coros self net pages_data)) schedule
  = Some s ->
  exists rest m,
    process_batch self net (schedule ++ rest) pages_data = Some m.
Proof.
  intros Hv Hrun.
  pose proof (loop_run_inv _ _ _ _ _ (loop_init_inv _ _) Hrun) as Hinv.
  destruct (loop_finish _ _ (pending_work s) Hv s Hinv eq_refl)
    as (rest & s' & Hrest & Hz).
  unfold pending_work in Hz.
  destruct (no_work_all_done (tasks s')) as [rs Hrs].
  { destruct (List.filter is_queued (tasks s')); [done|simpl in Hz; lia]. }
  { destruct (List.filter is_in_flight (tasks s')); [done|simpl in Hz; lia]. }
  exists rest. unfold process_batch, gather.
  rewrite loop_run_app, Hrun, Hrest, Hrs. eauto.
Qed.

Lemma batch_can_always_finish_witness :
  exists rest m,
    process_batch (P := Sample.platform) (Sample.client_of Sample.st_small)
      Sample.net_timeout_2 ([Admit 1%nat; Admit 2%nat] ++ rest)
      Sample.three_pages = Some m.
Proof.
  eapply (batch_can_always_finish (P := Sample.platform)
            (Sample.client_of Sample.st_small) Sample.net_timeout_2
            Sample.three_pages [Admit 1%nat; Admit 2%nat]).
  - reflexivity.
  - reflexivity.
Defined.

(** X12: when every task of the batch is done, the semaphore is back at its
    initial value and nothing is in flight: a permit is released also when
    the call it covered failed. *)
Theorem permits_restored `{P : Platform} (self : OpenAIClient)
    (net : nat -> http_event float) (pages_data : list page_tuple)
    (schedule : list loop_event)
    (s : loop_state (Z * json float * ProcessingMetadata float)) :
  loop_run (batch_coros self net pages_data)
    (loop_init (semaphore self) (batch_coros self net pages_data)) schedule
  = Some s ->
  is_Some (task_results (tasks s)) ->
  in_flight s = 0 /\ sem_value s = semaphore self.
Proof.
  intros Hrun [rs Hrs].
  pose proof (loop_run_inv _ _ _ _ _ (loop_init_inv _ _) Hrun) as [_ _ Hval _].
  apply task_results_done in Hrs.
  assert (H0 : in_flight s = 0).
  { unfold in_flight. by rewrite Hrs, all_done_none_in_flight. }
  split; [done|]. lia.
Qed.

Lemma permits_restored_witness :
  exists s,
    loop_run (P := Sample.platform)
      (batch_coros (Sample.client_of Sample.st_small) Sample.net_all_fail
         Sample.three_pages)
      (loop_init 2
         (batch_coros (Sample.client_of Sample.st_small) Sample.net_all_fail
            Sample.three_pages))
      Sample.sequential3
    = Some s
    /\ in_flight s = 0 /\ sem_value s = 2.
Proof.
  eexists. split; [reflexivity|].
  apply (permits_restored (P := Sample.platform)
           (Sample.client_of Sample.st_small) Sample.net_all_fail
           Sample.three_pages Sample.sequential3).
  - reflexivity.
  - eexists. reflexivity.
Defined.

(* ===================================================================== *)
(** ** More about the endpoint *)
(* ===================================================================== *)

Section MoreEndpointProofs.
Context `{P : Platform}.

Lemma validate_pdf_raise_shape (st : Settings) (content : list byte)
    (e : py_exc) :
  outcome_of (validate_pdf st content) = Raise e ->
  exists cls msg, e = ExcPDF cls msg None.
Proof.
  unfold validate_pdf.
  destruct (len content >? max_file_size st); [intros [= <-]; eauto|].
  rewrite outcome_try.
  match goal with |- context [outcome_of (bind ?m ?k)] =>
    destruct (outcome_of (bind m k)) as [[]|e0] end; [discriminate|].
  intros [= <-]. eauto.
Qed.

Lemma extract_pages_raise_shape (st : Settings) (content : list byte)
    (e : py_exc) :
  outcome_of (extract_pages_as_images st content) = Raise e ->
  exists cls msg, e = ExcPDF cls msg None.
Proof.
  unfold extract_pages_as_images. rewrite outcome_try.
  match goal with |- context [outcome_of (bind ?m ?k)] =>
    destruct (outcome_of (bind m k)) as [l|e0] end; [discriminate|].
  intros [= <-]. eauto.
Qed.

(** [process_pdf_stream] raises nothing but [PDFProcessingError]s, without
    details. *)
Lemma process_pdf_stream_raise_shape (st : Settings) (file : list byte)
    (e : py_exc) :
  outcome_of (process_pdf_stream st file) = Raise e ->
  exists cls msg, e = ExcPDF cls msg None.
Proof.
  unfold process_pdf_stream. rewrite read_file_async_id. cbv zeta.
  rewrite outcome_try, outcome_bind.
  destruct (outcome_of (validate_pdf st file)) as [[]|e0] eqn:Hv.
  - destruct (outcome_of (extract_pages_as_images st file)) as [l|e0] eqn:Hx;
      [discriminate|].
    cbn [raise outcome_of snd]. intros [= <-].
    by apply extract_pages_raise_shape in Hx.
  - cbn [raise outcome_of snd]. intros [= <-].
    by apply validate_pdf_raise_shape in Hv.
Qed.

(** The pages [process_pdf_stream] returns always get through the loop of
    the endpoint, whatever the service answered. *)
Lemma build_results_of_stream (st : Settings) (client : OpenAIClient)
    (net : nat -> http_event float) (file : list byte)
    (pages_data : list page_tuple) :
  outcome_of (process_pdf_stream st file) = Ok pages_data ->
  exists r,
    build_results
      (imap (fun i page => page_outcome client (net i) page) pages_data)
      [] [] 0 = Ok r.
Proof.
  intros Hs. apply process_pdf_stream_inv in Hs as (doc & _ & _ & Hidx).
  apply build_results_total. apply Forall_forall. intros a Ha.
  apply list_elem_of_lookup in Ha as [i Ha].
  apply outcome_lookup_inv in Ha as (page & Hi & ->).
  split; [|apply page_outcome_buildable].
  rewrite page_outcome_number.
  assert (Hk : map page_index pages_data !! i = Some (page_index page))
    by (by rewrite <- list_fmap_map, list_lookup_fmap, Hi).
  rewrite Hidx, <- list_fmap_map, list_lookup_fmap in Hk.
  destruct (seq 1 (List.length doc) !! i) as [k|] eqn:Hseq; [|discriminate].
  apply lookup_seq in Hseq as [-> _]. injection Hk as <-. lia.
Qed.

Lemma process_pdf_pages_bad_name (st : Settings) (filename : string)
    (file : list byte) :
  endswith (str_lower filename) ".pdf" = false ->
  process_pdf_pages st filename file
  = ([], Raise (ExcHTTP 400 (DetailStr "Only PDF files are allowed"))).
Proof. intros H. unfold process_pdf_pages. by rewrite H. Qed.

Lemma process_pdf_pages_good_name (st : Settings) (filename : string)
    (file : list byte) :
  endswith (str_lower filename) ".pdf" = true ->
  outcome_of (process_pdf_pages st filename file)
  = match outcome_of (process_pdf_stream st file) with
    | Ok [] => Raise (ExcHTTP 400 (DetailStr "No pages found in PDF file"))
    | r => r
    end.
Proof.
  intros H. unfold process_pdf_pages. rewrite H. cbn [negb].
  rewrite outcome_bind. cbn [ret outcome_of snd]. rewrite outcome_bind.
  by destruct (outcome_of (process_pdf_stream st file)) as [[|p l]|e].
Qed.

(** The three ways [process_pdf] ends. *)
Lemma process_pdf_cases (st : Settings) (client : OpenAIClient)
    (net : nat -> http_event float) (schedule : list loop_event)
    (elapsed : float) (filename : string) (file : list byte)
    (m : M (PDFProcessResponse float)) :
  process_pdf st client net schedule elapsed filename file = Some m ->
  (endswith (str_lower filename) ".pdf" = false
   /\ m = ([], Raise (ExcHTTP 500
                        (DetailStr "Internal server error occurred during processing"))))
  \/ (endswith (str_lower filename) ".pdf" = true
      /\ exists cls msg,
           outcome_of (process_pdf_stream st file) = Raise (ExcPDF cls msg None)
           /\ outcome_of m = Raise (ExcHTTP 400 (DetailError msg None)))
  \/ (endswith (str_lower filename) ".pdf" = true
      /\ exists pages_data report,
           outcome_of (process_pdf_stream st file) = Ok pages_data
           /\ outcome_of m = Ok report).
Proof.
  intros Hrun.
  destruct (endswith (str_lower filename) ".pdf") eqn:Hname.
  - right.
    pose proof (process_pdf_pages_good_name st filename file Hname) as Hp.
    unfold process_pdf in Hrun.
    destruct (process_pdf_pages st filename file) as [t [pages_data|e]] eqn:Hpp;
      cbn [outcome_of snd] in Hp.
    + destruct (outcome_of (process_pdf_stream st file)) as [l|e] eqn:Hs;
        [|discriminate].
      assert (l = pages_data) as ->.
      { destruct l; [discriminate|]. by injection Hp. }
      right. split; [done|].
      destruct (process_batch client net schedule pages_data) as [batch|] eqn:Hb;
        [|discriminate].
      injection Hrun as <-. apply process_batch_outcome in Hb.
      destruct (build_results_of_stream st client net file pages_data Hs)
        as [[[rs errs] count] Hbuild].
      exists pages_data. eexists. split; [done|].
      rewrite outcome_try, outcome_prepend, outcome_bind, Hb.
      unfold process_pdf_response. rewrite outcome_bind.
      cbn [lift outcome_of snd]. rewrite Hbuild. reflexivity.
    + destruct (outcome_of (process_pdf_stream st file)) as [l|e0] eqn:Hs.
      * pose proof (process_pdf_stream_nonempty st file l Hs) as Hne.
        destruct l; [done|discriminate].
      * injection Hp as Heq. subst e.
        destruct (process_pdf_stream_raise_shape st file e0 Hs) as (cls & msg & ->).
        left. split; [done|]. exists cls, msg. split; [done|].
        injection Hrun as <-. reflexivity.
  - left. split; [done|].
    rewrite (process_pdf_pages_raise st client net schedule elapsed filename file
               _ _ (process_pdf_pages_bad_name st filename file Hname)) in Hrun.
    by injection Hrun as <-.
Qed.

(** The page result the loop of the endpoint builds from one batch
    result. *)
Lemma build_results_lookup (api_results : list batch_result) :
  forall (results0 : list (PageResult float)) (errors0 : list string) (count0 : Z)
         (results : list (PageResult float)) (errs : list string) (count : Z),
  build_results api_results results0 errors0 count0 = Ok (results, errs, count) ->
  forall i a,
  api_results !! i = Some a ->
  exists r,
    results !! (List.length results0 + i)%nat = Some r
    /\ page_number r = batch_page_number a
    /\ metadata r = Some (batch_metadata a)
    /\ (truthy (batch_error a) = true ->
        error r = batch_error a /\ processed_output r = [])
    /\ (truthy (batch_error a) = false ->
        error r = None /\ batch_output a = JObj (processed_output r)).
Proof.
  induction api_results as [|[[[n out] md] err] rest IH];
    intros results0 errors0 count0 results errs count H i a Hi;
    [discriminate|].
  cbn [build_results] in H.
  assert (Hhead : forall r e0 c0,
            build_results rest (results0 ++ [r]) e0 c0 = Ok (results, errs, count) ->
            results !! List.length results0 = Some r).
  { intros r e0 c0 Hb.
    apply build_results_spec in Hb as (new & -> & _).
    rewrite <- app_assoc. by apply list_lookup_middle. }
  destruct (truthy err) eqn:Ht.
  - destruct (mk_PageResult n (JObj []) md err) as [r|e] eqn:Hr; [|discriminate].
    destruct i as [|i].
    + injection Hi as <-. exists r. rewrite Nat.add_0_r.
      apply mk_PageResult_inv in Hr as (Hrn & Hrm & Hre & _ & Ho).
      split; [by eapply Hhead|].
      unfold batch_page_number, batch_metadata, batch_error, batch_output.
      cbn [fst snd]. repeat split; try done; try congruence.
    + destruct (IH _ _ _ _ _ _ H i a Hi) as (r' & Hl & Hrest).
      exists r'. split; [|done].
      rewrite length_app in Hl. simpl in Hl.
      by replace (List.length results0 + S i)%nat
        with (List.length results0 + 1 + i)%nat by lia.
  - destruct (mk_PageResult n out md None) as [r|e] eqn:Hr; [|discriminate].
    destruct i as [|i].
    + injection Hi as <-. exists r. rewrite Nat.add_0_r.
      apply mk_PageResult_inv in Hr as (Hrn & Hrm & Hre & _ & Ho).
      split; [by eapply Hhead|].
      unfold batch_page_number, batch_metadata, batch_error, batch_output.
      cbn [fst snd]. repeat split; try done; try congruence.
    + destruct (IH _ _ _ _ _ _ H i a Hi) as (r' & Hl & Hrest).
      exists r'. split; [|done].
      rewrite length_app in Hl. simpl in Hl.
      by replace (List.length results0 + S i)%nat
        with (List.length results0 + 1 + i)%nat by lia.
Qed.

Lemma fmap_all_true {A B} (f : A -> bool) (g : B -> bool)
    (l : list A) (l' : list B) :
  f <$> l = g <$> l' ->
  (forall i b, l' !! i = Some b -> g b = true) ->
  Forall (fun x => f x = true) l.
Proof.
  intros Heq Hall. apply Forall_lookup. intros i x Hx.
  assert (H : (g <$> l') !! i = Some (f x))
    by (by rewrite <- Heq, list_lookup_fmap, Hx).
  rewrite list_lookup_fmap in H.
  destruct (l' !! i) as [b|] eqn:Hb; [|discriminate].
  injection H as <-. by eapply Hall.
Qed.

Lemma filter_all_true {A} (f : A -> bool) (l : list A) :
  Forall (fun x => f x = true) l ->
  List.filter f l = l /\ List.filter (fun x => negb (f x)) l = [].
Proof.
  induction 1 as [|x l Hx _ [IH1 IH2]]; [done|].
  simpl. rewrite Hx. simpl. by rewrite IH1, IH2.
Qed.

End MoreEndpointProofs.

(** X13: an upload whose name does not end in [.pdf] (in any letter case) is
    answered with the HTTP error 500 "Internal server error occurred during
    processing", before anything is read or opened: the error 400 "Only PDF
    files are allowed" is raised inside the [try] block and replaced by the
    handler for unexpected exceptions. *)
Theorem non_pdf_name_gives_500 `{P : Platform} (st : Settings)
    (client : OpenAIClient) (net : nat -> http_event float)
    (schedule : list loop_event) (elapsed : float) (filename : string)
    (file : list byte) :
  endswith (str_lower filename) ".pdf" = false ->
  process_pdf st client net schedule elapsed filename file
  = Some ([], Raise (ExcHTTP 500
                       (DetailStr "Internal server error occurred during processing"))).
Proof.
  intros Hname.
  by rewrite (process_pdf_pages_raise st client net schedule elapsed filename
                file _ _ (process_pdf_pages_bad_name st filename file Hname)).
Qed.

Lemma non_pdf_name_gives_500_witness :
  process_pdf (P := Sample.platform) Sample.st (Sample.client_of Sample.st)
    Sample.net_ok Sample.sequential3 100 "scan.txt" Sample.doc3
  = Some ([], Raise (ExcHTTP 500
                       (DetailStr "Internal server error occurred during processing"))).
Proof.
  apply (non_pdf_name_gives_500 (P := Sample.platform)). reflexivity.
Defined.

(** X14: an upload whose name ends in [.pdf] is never answered with an
    internal error: when the endpoint returns, it returns a report, or the
    HTTP error 400 that carries the message of the [PDFProcessingError]
    which validation or extraction raised. *)
Theorem pdf_upload_report_or_400 `{P : Platform} (st : Settings)
    (client : OpenAIClient) (net : nat -> http_event float)
    (schedule : list loop_event) (elapsed : float) (filename : string)
    (file : list byte) (m : M (PDFProcessResponse float)) :
  endswith (str_lower filename) ".pdf" = true ->
  process_pdf st client net schedule elapsed filename file = Some m ->
  (exists report, outcome_of m = Ok report)
  \/ (exists cls msg,
        outcome_of (process_pdf_stream st file) = Raise (ExcPDF cls msg None)
        /\ outcome_of m = Raise (ExcHTTP 400 (DetailError msg None))).
Proof.
  intros Hname Hrun.
  destruct (process_pdf_cases _ _ _ _ _ _ _ _ Hrun)
    as [[Hn _]|[[_ H]|[_ (pages_data & report & _ & H)]]].
  - congruence.
  - by right.
  - left. eauto.
Qed.

Lemma pdf_upload_report_or_400_witness :
  exists m,
    process_pdf (P := Sample.platform) Sample.st (Sample.client_of Sample.st)
      Sample.net_ok Sample.sequential3 100 "scan.pdf" Sample.doc_bad = Some m
    /\ ((exists report, outcome_of m = Ok report)
        \/ (exists cls msg,
              outcome_of (process_pdf_stream (P := Sample.platform)
                            Sample.st Sample.doc_bad)
              = Raise (ExcPDF cls msg None)
              /\ outcome_of m = Raise (ExcHTTP 400 (DetailError msg None)))).
Proof.
  eexists. split; [reflexivity|].
  apply (pdf_upload_report_or_400 (P := Sample.platform) Sample.st
           (Sample.client_of Sample.st) Sample.net_ok Sample.sequential3 100
           "scan.pdf" Sample.doc_bad);
    reflexivity.
Defined.

(** X15: failures of the dispatch never abort the request.  For an upload named
    [*.pdf], within the size limit, that opens with at least one page, all of
    which render: whatever the service does and under whatever schedule the
    endpoint returns, it returns a report with one result per page; and with
    at least one permit it does return under the sequential schedule. *)
Theorem valid_upload_always_reports `{P : Platform} (st : Settings)
    (filename : string) (file : list byte) (doc : list (fitz_page float)) :
  endswith (str_lower filename) ".pdf" = true ->
  len file <= max_file_size st ->
  fitz_open file = Ok doc ->
  doc <> [] ->
  Forall (renders (PDFProcessor_init st)) doc ->
  (forall client net schedule elapsed m,
     process_pdf st client net schedule elapsed filename file = Some m ->
     exists report,
       outcome_of m = Ok report
       /\ total_pages report = page_count doc
       /\ List.length (results report) = List.length doc)
  /\ (forall client net elapsed,
        0 < semaphore client ->
        is_Some (process_pdf st client net
                   (sequential_schedule (List.length doc)) elapsed filename file)).
Proof.
  intros Hname Hlen Hopen Hne Hall. split.
  - intros client net schedule elapsed m Hrun.
    destruct (process_pdf_stream_ok st file doc Hlen Hopen Hne Hall)
      as (pages_data & Hs & Hl & _).
    destruct (process_pdf_cases _ _ _ _ _ _ _ _ Hrun)
      as [[Hn _]|[[_ (cls & msg & H & _)]|[_ (pages' & report & _ & Hout)]]];
      [congruence|congruence|].
    exists report. split; [done|].
    destruct (process_pdf_ok _ _ _ _ _ _ _ _ _ Hrun Hout)
      as (pages2 & rs & errs & count & Hs2 & _ & Hbuild & ->).
    rewrite Hs in Hs2. injection Hs2 as <-.
    apply build_results_spec in Hbuild as (new & -> & Hn & _).
    cbn [total_pages results app]. unfold page_count. split; [by rewrite Hl|].
    apply (f_equal List.length) in Hn.
    rewrite !length_fmap, length_imap in Hn. congruence.
  - intros client net elapsed Hsem.
    destruct (pipeline_returns_report st client net elapsed filename file doc
                Hsem Hname Hlen Hopen Hne Hall) as (m & _ & -> & _).
    eauto.
Qed.

Lemma valid_upload_always_reports_witness :
  (forall client net schedule elapsed m,
     process_pdf (P := Sample.platform) Sample.st client net schedule elapsed
       "scan.pdf" Sample.doc3 = Some m ->
     exists report,
       outcome_of m = Ok report
       /\ total_pages report = 3
       /\ List.length (results report) = 3%nat)
  /\ (forall client net elapsed,
        0 < semaphore client ->
        is_Some (process_pdf (P := Sample.platform) Sample.st client net
                   (sequential_schedule 3) elapsed "scan.pdf" Sample.doc3)).
Proof.
  apply (valid_upload_always_reports (P := Sample.platform) Sample.st
           "scan.pdf" Sample.doc3
           [Sample.good_page; Sample.good_page; Sample.good_page]).
  - reflexivity.
  - vm_compute. discriminate.
  - reflexivity.
  - discriminate.
  - repeat constructor; eexists; reflexivity.
Defined.

(** X16: when the call of every page fails (timeout, transport error, status
    other than 200 or unparsable body), the endpoint still returns a
    report: [success] is false, [processed_pages] is 0, every result is a
    failure and [errors] has one line per page. *)
Theorem all_calls_fail_report `{P : Platform} (st : Settings)
    (client : OpenAIClient) (net : nat -> http_event float)
    (schedule : list loop_event) (elapsed : float) (filename : string)
    (file : list byte) (m : M (PDFProcessResponse float))
    (report : PDFProcessResponse float) :
  (forall i, is_page_error (net i) = true) ->
  process_pdf st client net schedule elapsed filename file = Some m ->
  outcome_of m = Ok report ->
  success report = false
  /\ processed_pages report = 0
  /\ Forall (fun r => is_failure r = true) (results report)
  /\ errors report = Some (map error_line (results report))
  /\ results report <> [].
Proof.
  intros Hnet Hrun Hout.
  destruct (process_pdf_ok _ _ _ _ _ _ _ _ _ Hrun Hout)
    as (pages_data & rs & errs & count & Hs & Hne & Hbuild & ->).
  apply build_results_spec in Hbuild as (new & -> & Hn & _ & Hf & -> & ->).
  cbn [success processed_pages results errors app].
  assert (Hall : Forall (fun r => is_failure r = true) new).
  { eapply fmap_all_true; [exact Hf|].
    intros i a Ha. apply outcome_lookup_inv in Ha as (page & _ & ->).
    destruct (page_outcome_of_error client (net i) page (Hnet i))
      as (msg & Hmsg & ->).
    unfold batch_error. cbn. by destruct msg. }
  destruct (filter_all_true _ _ Hall) as [-> ->].
  assert (Hnew : new <> []).
  { intros ->. apply (f_equal List.length) in Hn.
    rewrite !length_fmap, length_imap in Hn. by destruct pages_data. }
  destruct new as [|r new]; [done|].
  repeat split; try done.
Qed.

Lemma all_calls_fail_report_witness :
  exists m report,
    process_pdf (P := Sample.platform) Sample.st (Sample.client_of Sample.st)
      Sample.net_all_fail Sample.reversed_schedule 100 "scan.pdf" Sample.doc3
    = Some m
    /\ outcome_of m = Ok report
    /\ success report = false
    /\ processed_pages report = 0
    /\ Forall (fun r => is_failure r = true) (results report)
    /\ errors report = Some (map error_line (results report))
    /\ results report <> [].
Proof.
  eexists _, _. split; [reflexivity|]. split; [reflexivity|].
  eapply (all_calls_fail_report (P := Sample.platform) Sample.st
            (Sample.client_of Sample.st) Sample.net_all_fail
            Sample.reversed_schedule 100 "scan.pdf" Sample.doc3).
  - intros i. unfold Sample.net_all_fail.
    destruct (i mod 4)%nat as [|[|[|k]]]; reflexivity.
  - reflexivity.
  - reflexivity.
Defined.

(** X17: the result at position i of a report belongs to the page extraction
    put at position i.  If it carries an error, its metadata is that page's
    extraction metadata and its output is empty; if it carries none, the
    service answered that page's request with status 200 and the result's
    output is the body of that answer, as it came. *)
Theorem report_results_by_page `{P : Platform} (st : Settings)
    (client : OpenAIClient) (net : nat -> http_event float)
    (schedule : list loop_event) (elapsed : float) (filename : string)
    (file : list byte) (m : M (PDFProcessResponse float))
    (report : PDFProcessResponse float) :
  process_pdf st client net schedule elapsed filename file = Some m ->
  outcome_of m = Ok report ->
  exists pages_data,
    outcome_of (process_pdf_stream st file) = Ok pages_data
    /\ forall i r,
         results report !! i = Some r ->
         exists page,
           pages_data !! i = Some page
           /\ page_number r = page_index page
           /\ (is_failure r = true ->
               metadata r = Some (page_metadata page)
               /\ processed_output r = [])
           /\ (is_failure r = false ->
               exists elapsed_i,
                 net i = EvResponse 200 (Ok (JObj (processed_output r))) elapsed_i).
Proof.
  intros Hrun Hout.
  destruct (process_pdf_ok _ _ _ _ _ _ _ _ _ Hrun Hout)
    as (pages_data & rs & errs & count & Hs & _ & Hbuild & ->).
  exists pages_data. split; [done|]. cbn [results].
  intros i r Hr.
  pose proof (build_results_spec _ _ _ _ _ _ _ Hbuild) as (new & -> & Hn & _).
  cbn [app] in Hr.
  assert (Hlt : (i < List.length pages_data)%nat).
  { apply lookup_lt_Some in Hr. apply (f_equal List.length) in Hn.
    rewrite !length_fmap, length_imap in Hn. lia. }
  apply lookup_lt_is_Some_2 in Hlt as [page Hi].
  pose proof (outcome_lookup client net pages_data i page Hi) as Ha.
  destruct (build_results_lookup _ _ _ _ _ _ _ Hbuild i _ Ha)
    as (r' & Hr' & Hnum & Hmd & Herr & Hok).
  cbn [List.length app] in Hr'. rewrite Nat.add_0_l in Hr'.
  rewrite Hr in Hr'. injection Hr' as <-.
  exists page. split; [done|]. rewrite page_outcome_number in Hnum.
  split; [done|].
  destruct (batch_error (page_outcome client (net i) page)) as [msg|] eqn:Hberr.
  - destruct (page_outcome_error client (net i) page msg Hberr) as [Hmsg Heq].
    assert (Ht : truthy (Some msg) = true) by (by destruct msg).
    destruct (Herr Ht) as [He Ho].
    split.
    + intros _. split; [|done]. rewrite Hmd, Heq. reflexivity.
    + unfold is_failure. rewrite He. discriminate.
  - destruct (Hok eq_refl) as [He Ho]. split.
    + unfold is_failure. rewrite He. discriminate.
    + intros _. destruct page as [[n img] md].
      unfold page_outcome, batch_error, batch_output in *.
      rewrite single_page_outcome in Hberr, Ho.
      destruct (outcome_of (process_image client img n md (net i)))
        as [[body updated]|e] eqn:Hpi; [|discriminate].
      cbn [fst snd] in Ho. subst body.
      apply process_image_ok_full in Hpi
        as (members & elapsed_i & t & Hev & Hbody & _).
      injection Hbody as <-. eauto.
Qed.

Lemma report_results_by_page_witness :
  exists m report pages_data,
    process_pdf (P := Sample.platform) Sample.st (Sample.client_of Sample.st)
      Sample.net_timeout_2 Sample.reversed_schedule 100 "scan.pdf" Sample.doc3
    = Some m
    /\ outcome_of m = Ok report
    /\ outcome_of (process_pdf_stream (P := Sample.platform)
                     Sample.st Sample.doc3) = Ok pages_data
    /\ forall i r,
         results report !! i = Some r ->
         exists page,
           pages_data !! i = Some page
           /\ page_number r = page_index page
           /\ (is_failure r = true ->
               metadata r = Some (page_metadata page)
               /\ processed_output r = [])
           /\ (is_failure r = false ->
               exists elapsed_i,
                 Sample.net_timeout_2 i
                 = EvResponse 200 (Ok (JObj (processed_output r))) elapsed_i).
Proof.
  eexists _, _.
  destruct (report_results_by_page (P := Sample.platform) Sample.st
              (Sample.client_of Sample.st) Sample.net_timeout_2
              Sample.reversed_schedule 100 "scan.pdf" Sample.doc3 _ _
              eq_refl eq_refl)
    as (pages_data & Hs & Hall).
  exists pages_data. split; [reflexivity|]. split; [reflexivity|].
  split; [exact Hs|exact Hall].
Defined.

(** X18: what the caller of the route receives.  Whenever the endpoint
    returns, the answer is the report, or comes from
    [http_exception_handler]: status 400 with a body of exactly the keys
    [success] (false) and [error], where [error] is the printed form of the
    dictionary holding the message (not the message itself), or status 500
    with the fixed text.  The handler registered for [PDFProcessingError] is
    never the one that answers, and no exception is left unhandled. *)
Theorem route_answers `{P : Platform} (st : Settings) (client : OpenAIClient)
    (net : nat -> http_event float) (schedule : list loop_event)
    (elapsed : float) (filename : string) (file : list byte)
    (m : M (PDFProcessResponse float)) :
  process_pdf st client net schedule elapsed filename file = Some m ->
  (exists report, answer (outcome_of m) = Answer200 report)
  \/ (exists msg,
        answer (outcome_of m)
        = AnswerJSON
            {| status_code := 400;
               content :=
                 JObj [("success", JBool false);
                       ("error",
                         JStr (py_repr (JObj [("error", JStr msg);
                                              ("details", JNull)])))] |})
  \/ answer (outcome_of m)
     = AnswerJSON
         {| status_code := 500;
            content :=
              JObj [("success", JBool false);
                    ("error",
                      JStr "Internal server error occurred during processing")] |}.
Proof.
  intros Hrun.
  destruct (process_pdf_cases _ _ _ _ _ _ _ _ Hrun)
    as [[_ ->]|[[_ (cls & msg & _ & ->)]|[_ (pages_data & report & _ & ->)]]].
  - right. right. reflexivity.
  - right. left. exists msg. reflexivity.
  - left. eauto.
Qed.

Lemma route_answers_witness :
  exists m,
    process_pdf (P := Sample.platform) Sample.st (Sample.client_of Sample.st)
      Sample.net_ok Sample.sequential3 100 "scan.pdf" Sample.doc0 = Some m
    /\ ((exists report, answer (outcome_of m) = Answer200 report)
        \/ (exists msg,
              answer (outcome_of m)
              = AnswerJSON
                  {| status_code := 400;
                     content :=
                       JObj [("success", JBool false);
                             ("error",
                               JStr (py_repr (JObj [("error", JStr msg);
                                                    ("details", JNull)])))] |})
        \/ answer (outcome_of m)
           = AnswerJSON
               {| status_code := 500;
                  content :=
                    JObj [("success", JBool false);
                          ("error",
                            JStr "Internal server error occurred during processing")] |}).
Proof.
  eexists. split; [reflexivity|].
  apply (route_answers (P := Sample.platform) Sample.st
           (Sample.client_of Sample.st) Sample.net_ok Sample.sequential3 100
           "scan.pdf" Sample.doc0).
  reflexivity.
Defined.

(* ===================================================================== *)
(** ** The file name test and the order of the calls *)
(* ===================================================================== *)

Lemma substring_all (s : string) : substring 0 (String.length s) s = s.
Proof. induction s as [|c s IH]; [done|]. simpl. by rewrite IH. Qed.

Lemma substring_suffix (pre suf : string) :
  substring (String.length pre) (String.length suf) (pre +:+ suf) = suf.
Proof. induction pre as [|c pre IH]; [apply substring_all|]. exact IH. Qed.

Lemma string_split_at (s : string) :
  forall a : nat,
  (a <= String.length s)%nat ->
  s = substring 0 a s +:+ substring a (String.length s - a) s.
Proof.
  induction s as [|c s IH]; intros [|a] Ha; simpl in *; try lia; try done.
  - by rewrite substring_all.
  - change (String c s = String c (substring 0 a s +:+ substring a (String.length s - a) s)).
    f_equal. apply IH. lia.
Qed.

Lemma string_length_append (s t : string) :
  String.length (s +:+ t) = (String.length s + String.length t)%nat.
Proof. induction s as [|c s IH]; [done|]. simpl. by rewrite IH. Qed.

Lemma endswith_iff (s suffix : string) :
  endswith s suffix = true <-> exists stem, s = stem +:+ suffix.
Proof.
  unfold endswith. split.
  - intros H. apply andb_true_iff in H as [Hk He].
    apply Nat.leb_le in Hk. apply String.eqb_eq in He.
    exists (substring 0 (String.length s - String.length suffix) s).
    rewrite <- He at 2.
    rewrite (string_split_at s (String.length s - String.length suffix)) at 1
      by lia.
    do 2 f_equal. lia.
  - intros [stem ->]. rewrite string_length_append.
    apply andb_true_iff. split; [apply Nat.leb_le; lia|].
    apply String.eqb_eq.
    replace (String.length stem + String.length suffix - String.length suffix)%nat
      with (String.length stem) by lia.
    apply substring_suffix.
Qed.

(** X19: the endpoint's file name test lets a name through exactly when the
    name in lower case is some stem followed by [.pdf]; the letter case of
    the extension does not matter and a name that is just [.pdf] passes. *)
Theorem file_name_test_iff (filename : string) :
  negb (endswith (str_lower filename) ".pdf") = false
  <-> exists stem, str_lower filename = stem +:+ ".pdf".
Proof.
  rewrite negb_false_iff. apply endswith_iff.
Qed.

Section CallOrderProofs.
Context `{P : Platform}.

Lemma trace_prepend {A} (t : list (call float)) (m : M A) :
  trace_of (let '(t', r) := m in (t ++ t', r)) = t ++ trace_of m.
Proof. by destruct m. Qed.

Lemma process_pdf_handler_trace {A} (e : py_exc) :
  trace_of (process_pdf_handler (A := A) e) = [].
Proof. by destruct e. Qed.

Lemma process_pdf_response_trace (pages_data : list page_tuple)
    (api_results : list batch_result) (elapsed : float) :
  trace_of (process_pdf_response pages_data api_results elapsed) = [].
Proof.
  unfold process_pdf_response. rewrite trace_bind. cbn [lift trace_of fst outcome_of snd].
  by destruct (build_results api_results [] [] 0) as [[[rs errs] count]|e].
Qed.

Lemma process_pdf_pages_trace (st : Settings) (filename : string)
    (file : list byte) (pages_data : list page_tuple) :
  outcome_of (process_pdf_pages st filename file) = Ok pages_data ->
  trace_of (process_pdf_pages st filename file)
  = trace_of (process_pdf_stream st file).
Proof.
  unfold process_pdf_pages. rewrite outcome_bind, trace_bind.
  destruct (negb (endswith (str_lower filename) ".pdf")); [discriminate|].
  cbn [ret outcome_of snd trace_of fst app].
  rewrite outcome_bind, trace_bind.
  destruct (outcome_of (process_pdf_stream st file)) as [[|p l]|e];
    try discriminate.
  intros _. cbn [ret trace_of fst]. by rewrite app_nil_r.
Qed.

Lemma filter_none {A} (f : A -> bool) (l : list A) :
  Forall (fun x => f x = false) l -> List.filter f l = [].
Proof. induction 1 as [|x l Hx _ IH]; [done|]. simpl. by rewrite Hx. Qed.

Lemma extract_loop_no_post (self : PDFProcessor) (doc : list (fitz_page float)) :
  forall (page_num : Z) (pages_data : list page_tuple),
  Forall (fun c => is_post c = false)
         (trace_of (extract_loop self doc page_num pages_data)).
Proof.
  induction doc as [|page rest IH]; intros page_num pages_data; [constructor|].
  cbn [extract_loop]. rewrite trace_bind, trace_render_page.
  apply Forall_app. split; [by repeat constructor|].
  destruct (outcome_of (render_page self page page_num)); [apply IH|constructor].
Qed.

Lemma extract_pages_no_post (st : Settings) (content : list byte) :
  Forall (fun c => is_post c = false)
         (trace_of (extract_pages_as_images st content)).
Proof.
  unfold extract_pages_as_images. rewrite trace_try, trace_bind, outcome_bind.
  cbn [open_pdf trace_of fst outcome_of snd].
  repeat (apply Forall_app; split); [by repeat constructor| |].
  - destruct (fitz_open content); [apply extract_loop_no_post|constructor].
  - destruct (fitz_open content) as [doc|e]; [|constructor].
    destruct (outcome_of (extract_loop _ doc 0 [])); constructor.
Qed.

Lemma validate_pdf_no_post (st : Settings) (content : list byte) :
  Forall (fun c => is_post c = false) (trace_of (validate_pdf st content)).
Proof.
  unfold validate_pdf.
  destruct (len content >? max_file_size st); [constructor|].
  rewrite trace_try, trace_bind, outcome_bind.
  cbn [open_pdf trace_of fst outcome_of snd].
  repeat (apply Forall_app; split); [by repeat constructor| |].
  - destruct (fitz_open content) as [doc|e]; [|constructor].
    destruct (page_count doc =? 0); constructor.
  - destruct (fitz_open content) as [doc|e]; [|constructor].
    destruct (page_count doc =? 0); constructor.
Qed.

(** Validation and extraction post nothing. *)
Lemma stream_posts_nothing (st : Settings) (file : list byte) :
  List.filter is_post (trace_of (process_pdf_stream st file)) = [].
Proof.
  apply filter_none. unfold process_pdf_stream. rewrite read_file_async_id.
  cbv zeta. rewrite trace_try, trace_bind, outcome_bind.
  repeat (apply Forall_app; split).
  - apply validate_pdf_no_post.
  - destruct (outcome_of (validate_pdf st file));
      [apply extract_pages_no_post|constructor].
  - destruct (outcome_of (validate_pdf st file)) as [[]|e]; [|constructor].
    destruct (outcome_of (extract_pages_as_images st file)); constructor.
Qed.

(** The calls of a request that ends with a report: those of
    [process_pdf_stream], then those of the batch. *)
Lemma process_pdf_trace (st : Settings) (client : OpenAIClient)
    (net : nat -> http_event float) (schedule : list loop_event)
    (elapsed : float) (filename : string) (file : list byte)
    (m : M (PDFProcessResponse float)) (report : PDFProcessResponse float) :
  process_pdf st client net schedule elapsed filename file = Some m ->
  outcome_of m = Ok report ->
  exists pages_data posts,
    outcome_of (process_pdf_stream st file) = Ok pages_data
    /\ trace_of m = trace_of (process_pdf_stream st file) ++ posts
    /\ posts ≡ₚ map (page_request client) pages_data.
Proof.
  intros Hrun Hout.
  destruct (process_pdf_ok _ _ _ _ _ _ _ _ _ Hrun Hout)
    as (pages_data & rs & errs & count & Hs & Hne & Hbuild & _).
  unfold process_pdf in Hrun.
  destruct (process_pdf_pages st filename file) as [t [pages'|e]] eqn:Hp.
  2:{ injection Hrun as <-. rewrite outcome_prepend in Hout.
      destruct (process_pdf_handler_raises (A := PDFProcessResponse float) e)
        as [e' He']. rewrite He' in Hout. discriminate. }
  assert (Hp' : outcome_of (process_pdf_pages st filename file) = Ok pages')
    by (by rewrite Hp).
  pose proof (process_pdf_pages_trace st filename file pages' Hp') as Ht.
  rewrite Hp in Ht. cbn [trace_of fst] in Ht.
  apply process_pdf_pages_inv in Hp' as [Hs' _].
  rewrite Hs in Hs'. injection Hs' as <-.
  destruct (process_batch client net schedule pages_data) as [batch|] eqn:Hb;
    [|discriminate].
  injection Hrun as <-.
  pose proof (process_batch_posts _ _ _ _ _ Hb) as Hposts.
  pose proof (process_batch_outcome _ _ _ _ _ Hb) as Hbo.
  exists pages_data, (trace_of batch). split; [done|]. split; [|done].
  rewrite trace_try, trace_prepend, outcome_prepend, trace_bind, outcome_bind, Hbo.
  rewrite process_pdf_response_trace.
  unfold process_pdf_response. rewrite outcome_bind.
  cbn [lift outcome_of snd]. rewrite Hbuild. cbn [ret outcome_of snd].
  by rewrite Ht, !app_nil_r.
Qed.

End CallOrderProofs.

(** X20: in a request that ends with a report, no request goes to the service
    before extraction is over: the calls are those of [process_pdf_stream]
    (two opens, then the renderings) followed by the posts, and the posts
    are exactly one per extracted page. *)
Theorem posts_follow_extraction `{P : Platform} (st : Settings)
    (client : OpenAIClient) (net : nat -> http_event float)
    (schedule : list loop_event) (elapsed : float) (filename : string)
    (file : list byte) (m : M (PDFProcessResponse float))
    (report : PDFProcessResponse float) :
  process_pdf st client net schedule elapsed filename file = Some m ->
  outcome_of m = Ok report ->
  exists pages_data posts,
    outcome_of (process_pdf_stream st file) = Ok pages_data
    /\ trace_of m = trace_of (process_pdf_stream st file) ++ posts
    /\ List.filter is_post (trace_of (process_pdf_stream st file)) = []
    /\ posts ≡ₚ map (page_request client) pages_data.
Proof.
  intros Hrun Hout.
  destruct (process_pdf_trace _ _ _ _ _ _ _ _ _ Hrun Hout)
    as (pages_data & posts & Hs & Ht & Hp).
  exists pages_data, posts. repeat split; try done.
  apply stream_posts_nothing.
Qed.

Lemma posts_follow_extraction_witness :
  exists m report pages_data posts,
    process_pdf (P := Sample.platform) Sample.st (Sample.client_of Sample.st)
      Sample.net_timeout_2 Sample.reversed_schedule 100 "scan.pdf" Sample.doc3
    = Some m
    /\ outcome_of m = Ok report
    /\ outcome_of (process_pdf_stream (P := Sample.platform)
                     Sample.st Sample.doc3) = Ok pages_data
    /\ trace_of m
       = trace_of (process_pdf_stream (P := Sample.platform)
                     Sample.st Sample.doc3) ++ posts
    /\ List.filter is_post
         (trace_of (process_pdf_stream (P := Sample.platform)
                      Sample.st Sample.doc3)) = []
    /\ posts ≡ₚ map (page_request (Sample.client_of Sample.st)) pages_data.
Proof.
  eexists _, _.
  destruct (posts_follow_extraction (P := Sample.platform) Sample.st
              (Sample.client_of Sample.st) Sample.net_timeout_2
              Sample.reversed_schedule 100 "scan.pdf" Sample.doc3 _ _
              eq_refl eq_refl)
    as (pages_data & posts & H).
  exists pages_data, posts. split; [reflexivity|]. split; [reflexivity|].
  exact H.
Defined.

(* ===================================================================== *)
(** ** Base64 *)
(* ===================================================================== *)

Lemma below_64_cases (Q : N -> Prop) :
  Forall Q (map N.of_nat (seq 0 64)) -> forall n, (n < 64)%N -> Q n.
Proof.
  intros H n Hn. rewrite Forall_forall in H. apply H.
  apply list_elem_of_In, in_map_iff. exists (N.to_nat n). split; [lia|].
  apply in_seq. lia.
Qed.

Lemma b64_index_char (n : N) :
  (n < 64)%N -> b64_index (b64_char n) = Some n.
Proof.
  revert n. apply below_64_cases.
  repeat (apply Forall_cons; split; [vm_compute; reflexivity|]).
  apply Forall_nil_2.
Qed.

Lemma b64_char_not_pad (n : N) :
  (n < 64)%N -> Ascii.eqb (b64_char n) "="%char = false.
Proof.
  revert n. apply below_64_cases.
  repeat (apply Forall_cons; split; [vm_compute; reflexivity|]).
  apply Forall_nil_2.
Qed.

Lemma byte_of_to_N (b : byte) (n : N) :
  n = Byte.to_N b -> byte_of_N n = Some b.
Proof. intros ->. apply Byte.of_to_N. Qed.

Lemma byte_below_256 (b : byte) : (Byte.to_N b < 256)%N.
Proof. pose proof (Byte.to_N_bounded b). lia. Qed.

(** Linear arithmetic with division and remainder by constants. *)
Ltac div_lia := zify; Z.to_euclidean_division_equations; lia.

Lemma b64decode_encode_bounded (n : nat) :
  forall bs : list byte,
  (List.length bs <= n)%nat -> b64decode (b64encode bs) = Some bs.
Proof.
  induction n as [|n IH]; intros bs Hn.
  { destruct bs; [reflexivity|simpl in Hn; lia]. }
  destruct bs as [|a [|b [|c rest]]]; [reflexivity| | |].
  - pose proof (byte_below_256 a).
    cbn [b64encode b64decode].
    rewrite !b64_index_char by div_lia.
    rewrite (byte_of_to_N a) by div_lia.
    reflexivity.
  - pose proof (byte_below_256 a). pose proof (byte_below_256 b).
    cbn [b64encode b64decode].
    rewrite !b64_index_char by div_lia.
    rewrite (byte_of_to_N a) by div_lia.
    rewrite b64_char_not_pad by div_lia.
    rewrite (byte_of_to_N b) by div_lia.
    reflexivity.
  - pose proof (byte_below_256 a). pose proof (byte_below_256 b).
    pose proof (byte_below_256 c).
    cbn [b64encode b64decode].
    rewrite !b64_index_char by div_lia.
    rewrite (byte_of_to_N a) by div_lia.
    rewrite !b64_char_not_pad by div_lia.
    rewrite (byte_of_to_N b) by div_lia.
    rewrite (byte_of_to_N c) by div_lia.
    rewrite IH by (simpl in Hn; lia).
    reflexivity.
Qed.

(** X21: decoding what [b64encode] produced gives the bytes back, so the data
    URL of a request determines the page image; in particular two different
    images never get the same encoding. *)
Theorem b64encode_round_trip (bs bs' : list byte) :
  b64decode (b64encode bs) = Some bs
  /\ (b64encode bs = b64encode bs' <-> bs = bs').
Proof.
  assert (Hrt : forall l, b64decode (b64encode l) = Some l)
    by (intros l; by apply (b64decode_encode_bounded (List.length l))).
  split; [apply Hrt|]. split; [|by intros ->].
  intros Heq. pose proof (Hrt bs) as H1. rewrite Heq, Hrt in H1. congruence.
Qed.

Lemma b64encode_length_bounded (n : nat) :
  forall bs : list byte,
  (List.length bs <= n)%nat ->
  String.length (b64encode bs) = (4 * ((List.length bs + 2) / 3))%nat.
Proof.
  induction n as [|n IH]; intros bs Hn.
  { destruct bs; [reflexivity|simpl in Hn; lia]. }
  destruct bs as [|a [|b [|c rest]]]; try reflexivity.
  cbn [b64encode String.length List.length].
  rewrite IH by (simpl in Hn; lia).
  replace (S (S (S (List.length rest))) + 2)%nat
    with (1 * 3 + (List.length rest + 2))%nat by lia.
  rewrite Nat.div_add_l by lia. lia.
Qed.

(** X22: the encoding of n bytes has 4 * ceil(n / 3) characters. *)
Theorem b64encode_length (bs : list byte) :
  String.length (b64encode bs) = (4 * ((List.length bs + 2) / 3))%nat.
Proof. by apply (b64encode_length_bounded (List.length bs)). Qed.
